(** * Video analysis: landmark heuristics, anomaly rules and session report

  A shallow embedding of the decision logic of the application:
  - [app/emotion_detection.py]   ([EmotionDetectionModule.analyze_emotion]),
  - [app/activity_recognition.py] ([ActivityRecognitionModule.analyze_activity]),
  - [main_report.py]              ([VideoAnalysisReport], [VideoAnalyzer.detectar_anomalias]).

  Python [float]s are IEEE 754 binary64 numbers and are modelled by Rocq's
  primitive floats, Python [int]s by [Z], Python [str]s by [string] (the
  UTF-8 bytes of the text), exceptions by an error monad, the clock by
  explicit readings.  The labels of a frame are texts or [None]; its face
  flag is any object with a truth value.  The two reports are modelled up
  to their last step: the text report as its list of lines (joined by
  newlines at the end), the structured report as the document that
  [json.dumps] serialises. *)

From Stdlib Require Import ZArith List String Ascii Bool Lia Floats DecimalString.
From Stdlib Require Import Permutation Sorted.
Import ListNotations.

Set Warnings "-inexact-float,-register-all".

(* ================================================================== *)
(** * Python primitives used by the code *)
(* ================================================================== *)

Module Py.

(** The exceptions the embedded code can raise. *)
Inductive exn : Type :=
| IndexError
| ValueError
| TypeError
| ZeroDivisionError
| OverflowError.

(** A computation either returns a value or raises. *)
Inductive result (A : Type) : Type :=
| Return (a : A)
| Raise (e : exn).
Arguments Return {A} a.
Arguments Raise {A} e.

Definition bind {A B} (r : result A) (k : A -> result B) : result B :=
  match r with
  | Return a => k a
  | Raise e => Raise e
  end.

Definition raises {A} (r : result A) : Prop := exists e, r = Raise e.

(** [seq[i]] for a non-negative constant index. *)
Definition getitem {A} (l : list A) (i : nat) : result A :=
  match nth_error l i with
  | Some a => Return a
  | None => Raise IndexError
  end.

(** [a, b = seq]: unpacking into exactly two targets. *)
Definition unpack2 {A} (l : list A) : result (A * A) :=
  match l with
  | [a; b] => Return (a, b)
  | _ => Raise ValueError
  end.

(** [seq[:n]] *)
Definition slice_to {A} (n : nat) (l : list A) : list A := firstn n l.

(** A loop that computes one value per element, in order, and stops at the
    first exception. *)
Fixpoint mapM {A B} (f : A -> result B) (l : list A) : result (list B) :=
  match l with
  | [] => Return []
  | a :: rest =>
      bind (f a) (fun b => bind (mapM f rest) (fun bs => Return (b :: bs)))
  end.

(** The objects passed where the code tests truthiness. *)
Inductive value : Type :=
| VNone
| VBool (b : bool)
| VInt (n : Z)
| VStr (s : string).

(** [bool(v)] *)
Definition truthy (v : value) : bool :=
  match v with
  | VNone => false
  | VBool b => b
  | VInt n => negb (n =? 0)%Z
  | VStr s => negb (s =? "")%string
  end.

(** [bool(s)] for a text or [None]. *)
Definition truthy_str (s : option string) : bool :=
  match s with
  | None => false
  | Some s => negb (s =? "")%string
  end.

End Py.

Import Py.

Declare Scope py_scope.
Delimit Scope py_scope with py.
Notation "x <- e ;; k" := (Py.bind e (fun x => k))
(at level 61, e at next level, right associativity) : py_scope.
Notation "' p <- e ;; k" := (Py.bind e (fun p => k))
(at level 61, p pattern, e at next level, right associativity) : py_scope.

(* ================================================================== *)
(** * The order of binary64 numbers *)
(* ================================================================== *)

(** The comparisons [<] and [<=] of Python floats are those of IEEE 754:
  a total order on the numbers (with [-0 = +0]) and every comparison with
  a NaN false.  The facts below are derived from the specification of the
  primitive comparisons ([ltb_spec], [leb_spec], [eqb_spec]). *)

Module FloatOrder.

Open Scope Z_scope.

(** Position of a number in the lexicographic order on triples. *)
Definition rank (f : spec_float) : option (Z * Z * Z) :=
  match f with
  | S754_nan => None
  | S754_infinity true => Some (-2, 0, 0)
  | S754_infinity false => Some (2, 0, 0)
  | S754_zero _ => Some (0, 0, 0)
  | S754_finite true m e => Some (-1, - e, Zneg m)
  | S754_finite false m e => Some (1, e, Zpos m)
  end.

Definition lex (a b : Z * Z * Z) : comparison :=
  let '(a1, a2, a3) := a in
  let '(b1, b2, b3) := b in
  match a1 ?= b1 with
  | Eq => match a2 ?= b2 with
          | Eq => a3 ?= b3
          | c => c
          end
  | c => c
  end.

Definition cmp_rank (x y : spec_float) : option comparison :=
  match rank x, rank y with
  | Some a, Some b => Some (lex a b)
  | _, _ => None
  end.

Definition lex_lt (a b : Z * Z * Z) : Prop :=
  let '(a1, a2, a3) := a in
  let '(b1, b2, b3) := b in
  a1 < b1 \/ (a1 = b1 /\ (a2 < b2 \/ (a2 = b2 /\ a3 < b3))).

(** The rank of a float; [None] for a NaN. *)
Definition frank (x : float) : option (Z * Z * Z) := rank (Prim2SF x).

End FloatOrder.

(* ================================================================== *)
(** * Landmarks *)
(* ================================================================== *)

(** A landmark as the detection engine gives it: coordinates normalised to
    the frame.  The classifiers read only [y]. *)
Module Landmark.

Record t : Type := mk { x : float; y : float; z : float }.

(** A landmark at height [v]. *)
Definition at_y (v : float) : t := mk 0.5%float v 0%float.

End Landmark.

(* ================================================================== *)
(** * app/emotion_detection.py *)
(* ================================================================== *)

Module EmotionDetection.

Open Scope string_scope.
Open Scope float_scope.

(** [EmotionDetectionModule.analyze_emotion(landmarks, image_shape)].
    [landmarks] is the list [landmarks.landmark]. *)
Definition analyze_emotion (landmarks : list Landmark.t) (image_shape : list Z)
  : result string :=
  ('(h, w) <- unpack2 (slice_to 2 image_shape) ;;
   mouth_left <- getitem landmarks 61 ;;
   mouth_right <- getitem landmarks 291 ;;
   nose_tip <- getitem landmarks 13 ;;
   let mouth_y := (Landmark.y mouth_left + Landmark.y mouth_right) / 2 in
   let mouth_height := abs (mouth_y - Landmark.y nose_tip) in
   if mouth_height <? 0.02 then Return "Neutro"
   else if mouth_height <? 0.04 then Return "Feliz"
   else if mouth_height <? 0.06 then Return "Surpreso"
   else Return "Triste")%py.

(** The loop of [process_frame] over the detected face meshes: the value of
    [emotion] at each iteration (the drawing calls are left out). *)
Fixpoint analyze_faces (faces : list (list Landmark.t)) (shape : list Z)
  : result (list string) :=
  match faces with
  | [] => Return []
  | face_landmarks :: rest =>
      (emotion <- analyze_emotion face_landmarks shape ;;
       _ <- match shape with [h; w; _] => Return (h, w) | _ => Raise ValueError end ;;
       others <- analyze_faces rest shape ;;
       Return (emotion :: others))%py
  end.

(** The emotion part of [process_frame]: nothing is classified unless
    [results.multi_face_landmarks] is truthy. *)
Definition process_frame_emotions
  (multi_face_landmarks : option (list (list Landmark.t))) (shape : list Z)
  : result (list string) :=
  match multi_face_landmarks with
  | None => Return []
  | Some [] => Return []
  | Some faces => analyze_faces faces shape
  end.

(** A face mesh of 292 landmarks with the given mouth corners (indices 61
    and 291); every other landmark, the nose tip (index 13) among them, is
    [nose_tip]. *)
Definition mesh (mouth_left mouth_right nose_tip : Landmark.t) : list Landmark.t :=
  repeat nose_tip 61 ++ [mouth_left] ++ repeat nose_tip 229 ++ [mouth_right].

(** One of the three points is missing. *)
Definition missing_point (landmarks : list Landmark.t) : Prop :=
  nth_error landmarks 61 = None \/ nth_error landmarks 291 = None
  \/ nth_error landmarks 13 = None.

End EmotionDetection.

(* ================================================================== *)
(** * app/activity_recognition.py *)
(* ================================================================== *)

(** The indices of MediaPipe's [PoseLandmark] enumeration that the code
    reads, as the source lists them: 0 the nose, 11 and 12 the shoulders,
    15 and 16 the wrists, 23 and 24 the hips. *)
Module PoseLandmark.

Definition NOSE : nat := 0.
Definition LEFT_SHOULDER : nat := 11.
Definition RIGHT_SHOULDER : nat := 12.
Definition LEFT_WRIST : nat := 15.
Definition RIGHT_WRIST : nat := 16.
Definition LEFT_HIP : nat := 23.
Definition RIGHT_HIP : nat := 24.

End PoseLandmark.

Module ActivityRecognition.

Open Scope string_scope.
Open Scope float_scope.

(** [ActivityRecognitionModule.analyze_activity(landmarks, image_shape)].
    [a > b] on floats is [b < a]. *)
Definition analyze_activity (landmarks : list Landmark.t) (image_shape : list Z)
  : result string :=
  ('(h, w) <- unpack2 (slice_to 2 image_shape) ;;
   nose <- getitem landmarks PoseLandmark.NOSE ;;
   left_shoulder <- getitem landmarks PoseLandmark.LEFT_SHOULDER ;;
   right_shoulder <- getitem landmarks PoseLandmark.RIGHT_SHOULDER ;;
   left_hip <- getitem landmarks PoseLandmark.LEFT_HIP ;;
   right_hip <- getitem landmarks PoseLandmark.RIGHT_HIP ;;
   left_wrist <- getitem landmarks PoseLandmark.LEFT_WRIST ;;
   right_wrist <- getitem landmarks PoseLandmark.RIGHT_WRIST ;;
   let shoulder_y := (Landmark.y left_shoulder + Landmark.y right_shoulder) / 2 in
   let hip_y := (Landmark.y left_hip + Landmark.y right_hip) / 2 in
   if (Landmark.y left_wrist <? shoulder_y - 0.1)
      || (Landmark.y right_wrist <? shoulder_y - 0.1)
   then
     if (Landmark.y left_wrist <? Landmark.y nose)
        || (Landmark.y right_wrist <? Landmark.y nose)
     then Return "waving"
     else Return "raising_hand"
   else
     let torso_length := abs (shoulder_y - hip_y) in
     if torso_length <? 0.2 then Return "sitting"
     else if 0.25 <? torso_length then Return "standing"
     else Return "unknown")%py.

(** The seven landmarks the classifier reads. *)
Record pose_points : Type := mk_pose {
  nose : Landmark.t;
  left_shoulder : Landmark.t;
  right_shoulder : Landmark.t;
  left_hip : Landmark.t;
  right_hip : Landmark.t;
  left_wrist : Landmark.t;
  right_wrist : Landmark.t
}.

(** [landmarks] holds the seven points [p]. *)
Definition has_points (landmarks : list Landmark.t) (p : pose_points) : Prop :=
  nth_error landmarks PoseLandmark.NOSE = Some (nose p) /\
  nth_error landmarks PoseLandmark.LEFT_SHOULDER = Some (left_shoulder p) /\
  nth_error landmarks PoseLandmark.RIGHT_SHOULDER = Some (right_shoulder p) /\
  nth_error landmarks PoseLandmark.LEFT_HIP = Some (left_hip p) /\
  nth_error landmarks PoseLandmark.RIGHT_HIP = Some (right_hip p) /\
  nth_error landmarks PoseLandmark.LEFT_WRIST = Some (left_wrist p) /\
  nth_error landmarks PoseLandmark.RIGHT_WRIST = Some (right_wrist p).

(** A pose of 33 landmarks holding the points [p]; the others are the nose. *)
Definition pose (p : pose_points) : list Landmark.t :=
  [nose p] ++ repeat (nose p) 10 ++ [left_shoulder p; right_shoulder p]
  ++ repeat (nose p) 2 ++ [left_wrist p; right_wrist p]
  ++ repeat (nose p) 6 ++ [left_hip p; right_hip p] ++ repeat (nose p) 8.

Definition shoulder_y (p : pose_points) : float :=
  (Landmark.y (left_shoulder p) + Landmark.y (right_shoulder p)) / 2.

Definition torso_length (p : pose_points) : float :=
  abs (shoulder_y p - (Landmark.y (left_hip p) + Landmark.y (right_hip p)) / 2).

(** The wrist [w] is above the shoulder line by the margin. *)
Definition raised (p : pose_points) (w : Landmark.t) : Prop :=
  (Landmark.y w <? shoulder_y p - 0.1) = true.

Definition above_nose (p : pose_points) (w : Landmark.t) : Prop :=
  (Landmark.y w <? Landmark.y (nose p)) = true.

End ActivityRecognition.

(* ================================================================== *)
(** * Python numbers and text formatting *)
(* ================================================================== *)

Module PyNum.

Open Scope Z_scope.

(** A Python number: an [int] or a [float]. *)
Inductive num : Type :=
| NInt (n : Z)
| NFloat (f : float).

(** An [int] as an operand of the arithmetic of binary64 numbers: exact,
    with a mantissa of any size. *)
Definition sf_of_int (n : Z) : spec_float :=
  match n with
  | Z0 => S754_zero false
  | Zpos p => S754_finite false p 0
  | Zneg p => S754_finite true p 0
  end.

(** The binary64 number nearest to the quotient [a / b] of two [int]s (the
    even one of two nearest), an infinity when the quotient is out of
    range: the quotient is rounded once, whatever the size of [a] and
    [b]. *)
Definition div_int (a b : Z) : spec_float :=
  SFdiv prec emax (sf_of_int a) (sf_of_int b).

(** [float(n)]: the binary64 number nearest to [n].  For an [int] of
    [2^1024] or more, where Python raises [OverflowError], it is an
    infinity. *)
Definition float_of_int (n : Z) : float :=
  SF2Prim (binary_normalize prec emax n 0 false).

(** [a / b] on [int]s: true division, the correctly rounded quotient, and
    [ZeroDivisionError] on a zero divisor.  For a quotient of [2^1024] or
    more, where Python raises [OverflowError], it is an infinity; no
    quotient of the report of a session is out of range. *)
Definition truediv (a b : Z) : result float :=
  if b =? 0 then Raise ZeroDivisionError
  else Return (SF2Prim (div_int a b)).

(** The integer nearest to [m * 2^e * 10^d], ties to the even one: the
    digits of the correctly rounded decimal expansion with [d] places. *)
Definition scaled_round (d : nat) (m : positive) (e : Z) : Z :=
  let n := Zpos m * 10 ^ Z.of_nat d in
  if 0 <=? e then n * 2 ^ e
  else
    let den := 2 ^ (- e) in
    let q := n / den in
    let r := n mod den in
    match 2 * r ?= den with
    | Lt => q
    | Gt => q + 1
    | Eq => if Z.even q then q else q + 1
    end.

(** [round(x, d)] on a [float]: the float nearest to the decimal with [d]
    places nearest to [x]; zeros, infinities and NaN are returned as they
    are. *)
Definition round_float (x : float) (d : nat) : float :=
  match Prim2SF x with
  | S754_finite s m e =>
      let q := SF2Prim (div_int (scaled_round d m e) (10 ^ Z.of_nat d)) in
      if s then (- q)%float else q
  | _ => x
  end.

(** [round(x, d)]: an [int] stays an [int] for [d >= 0]. *)
Definition round (x : num) (d : nat) : num :=
  match x with
  | NInt n => NInt n
  | NFloat f => NFloat (round_float f d)
  end.

(** [int(x)] on a [float]: truncation toward zero. *)
Definition int_of_float (x : float) : result Z :=
  match Prim2SF x with
  | S754_nan => Raise ValueError
  | S754_infinity _ => Raise OverflowError
  | S754_zero _ => Return 0
  | S754_finite s m e =>
      let a := if 0 <=? e then Zpos m * 2 ^ e else Zpos m / 2 ^ (- e) in
      Return (if s then - a else a)
  end.

(** [x] is a number: neither an infinity nor a NaN. *)
Definition finite (x : float) : Prop :=
  match Prim2SF x with
  | S754_zero _ | S754_finite _ _ _ => True
  | S754_infinity _ | S754_nan => False
  end.

(** [x] is a number below [2^B] in magnitude. *)
Definition bounded_by (B : Z) (x : spec_float) : Prop :=
  match x with
  | S754_zero _ => True
  | S754_finite _ m e => Zdigits2 (Zpos m) + e <= B
  | S754_infinity _ | S754_nan => False
  end.



End PyNum.

Module PyStr.

Import PyNum.
Open Scope string_scope.

(** [str(n)] for an [int]. *)
Definition str_of_int (n : Z) : string := NilZero.string_of_int (Z.to_int n).

(** [s * n] *)
Definition repeat_str (s : string) (n : Z) : string :=
  String.concat "" (repeat s (Z.to_nat n)).

(** [sep.join(l)] *)
Definition join (sep : string) (l : list string) : string := String.concat sep l.

(** [len(s)]: the number of code points of the text, whose UTF-8 bytes [s]
    holds (every byte but the continuation bytes [10xxxxxx] starts one). *)
Fixpoint len (s : string) : nat :=
  match s with
  | EmptyString => 0
  | String c rest =>
      let b := nat_of_ascii c in
      if ((128 <=? b) && (b <? 192))%nat then len rest else S (len rest)
  end.

Definition spaces (n : nat) : string := String.concat "" (repeat " " n).

(** Padding to a minimum width: text is aligned left, numbers right. *)
Definition ljust (width : nat) (s : string) : string := s ++ spaces (width - len s).
Definition rjust (width : nat) (s : string) : string := spaces (width - len s) ++ s.

(** [format(s, '15s')] and the like. *)
Definition format_s (width : nat) (s : string) : string := ljust width s.

(** [format(n, '5d')] and the like. *)
Definition format_d (width : nat) (n : Z) : string := rjust width (str_of_int n).

(** The digits of [n >= 0] in at least [d] places. *)
Definition zero_pad (d : nat) (n : Z) : string :=
  let s := str_of_int n in
  String.concat "" (repeat "0" (d - String.length s)) ++ s.

(** [format(x, '.df')] on a [float], [d >= 1]: the correctly rounded
    decimal expansion with [d] places. *)
Definition fixed (d : nat) (x : float) : string :=
  let sign (s : bool) := if s then "-" else "" in
  match Prim2SF x with
  | S754_nan => "nan"
  | S754_infinity s => sign s ++ "inf"
  | S754_zero s => sign s ++ "0." ++ zero_pad d 0
  | S754_finite s m e =>
      let n := scaled_round d m e in
      let p := (10 ^ Z.of_nat d)%Z in
      sign s ++ str_of_int (n / p) ++ "." ++ zero_pad d (n mod p)
  end.

(** The text [s] ends in a decimal point and [d] more characters. *)
Definition decimal_places (s : string) (d : nat) : Prop :=
  exists whole frac, s = whole ++ "." ++ frac /\ String.length frac = d.

(** [needle in hay] *)
Fixpoint contains (needle hay : string) : bool :=
  String.prefix needle hay
  || match hay with
     | EmptyString => false
     | String _ rest => contains needle rest
     end.

(** The number as the format type [f] takes it: an [int] is converted. *)
Definition to_float (x : num) : float :=
  match x with
  | NInt n => float_of_int n
  | NFloat f => f
  end.

(** [format(x, 'w.df')] *)
Definition format_f (width d : nat) (x : num) : string :=
  rjust width (fixed d (to_float x)).


End PyStr.

(* ================================================================== *)
(** * collections.Counter *)
(* ================================================================== *)

(** A [Counter] over texts is a [dict]: its items are kept in the order in
    which the keys were first inserted. *)
Module Counter.

Open Scope Z_scope.

Definition t : Type := list (string * Z).

(** [c[k] = c.get(k, 0) + 1] *)
Fixpoint incr (k : string) (c : t) : t :=
  match c with
  | [] => [(k, 1)]
  | (k', n) :: rest =>
      if String.eqb k' k then (k', n + 1) :: rest else (k', n) :: incr k rest
  end.

(** [Counter(l)]: the elements are counted from left to right. *)
Definition of_list (l : list string) : t :=
  fold_left (fun c k => incr k c) l [].

(** [bool(c)] *)
Definition truthy (c : t) : bool :=
  match c with
  | [] => false
  | _ :: _ => true
  end.

(** [c.get(k, 0)] *)
Fixpoint get (k : string) (c : t) : Z :=
  match c with
  | [] => 0
  | (k', n) :: rest => if String.eqb k' k then n else get k rest
  end.

(** [sum(c.values())] *)
Definition total (c : t) : Z := fold_right (fun kv acc => snd kv + acc) 0 c.

(** [sorted(items, key=itemgetter(1), reverse=True)]: Python's sort is
    stable, also in reverse; an item passes only those of a strictly
    greater count. *)
Fixpoint insert (x : string * Z) (l : t) : t :=
  match l with
  | [] => [x]
  | y :: rest => if snd x <? snd y then y :: insert x rest else x :: y :: rest
  end.

Definition sorted_reverse (l : t) : t := fold_right insert [] l.

(** [max(items, key=itemgetter(1))] with [best] the largest so far: the
    first of the largest items is kept. *)
Fixpoint max_from (best : string * Z) (l : t) : string * Z :=
  match l with
  | [] => best
  | y :: rest => max_from (if snd best <? snd y then y else best) rest
  end.

(** [c.most_common()] *)
Definition most_common (c : t) : t := sorted_reverse c.

(** [c.most_common(1)], which is [heapq.nlargest(1, items, key)]. *)
Definition most_common_1 (c : t) : t :=
  match c with
  | [] => []
  | x :: rest => [max_from x rest]
  end.

(** The labels of [l] in the order in which they were first seen. *)
Fixpoint first_seen (l : list string) : list string :=
  match l with
  | [] => []
  | k :: rest => k :: filter (fun k' => negb (String.eqb k k')) (first_seen rest)
  end.

(** Adding the labels of [l] to keys [ks]: those not yet seen are appended
    in the order of their first occurrence. *)
Fixpoint add_keys (ks : list string) (l : list string) : list string :=
  match l with
  | [] => ks
  | k :: rest =>
      add_keys (if existsb (String.eqb k) ks then ks else ks ++ [k]) rest
  end.

(** The number of occurrences of [k] in [l]. *)
Fixpoint occurrences (k : string) (l : list string) : Z :=
  match l with
  | [] => 0
  | k' :: rest => (if String.eqb k' k then 1 else 0) + occurrences k rest
  end.

(** The first of the items [x :: l] with the largest count. *)
Fixpoint first_max (x : string * Z) (l : t) : string * Z :=
  match l with
  | [] => x
  | y :: rest =>
      let m := first_max y rest in
      if snd x <? snd m then m else x
  end.

(** [m] is the first item of [c] with the largest count: the items before
    it have smaller counts, those after it no larger ones. *)
Definition first_largest (m : string * Z) (c : t) : Prop :=
  exists before after,
    c = before ++ m :: after /\
    Forall (fun kv => snd kv < snd m) before /\
    Forall (fun kv => snd kv <= snd m) after.

(** [a] is ranked before [b] only with a count at least as large. *)
Definition ge_count (a b : string * Z) : Prop := snd b <= snd a.

(** The items of [l] with the count [n], in their order in [l]. *)
Definition with_count (n : Z) (l : t) : t := filter (fun kv => snd kv =? n) l.

End Counter.

(* ================================================================== *)
(** * main_report.py: VideoAnalysisReport *)
(* ================================================================== *)

(** A reading of the clock ([datetime.now()]): its position on the time
    line in microseconds, and its calendar fields as [strftime] prints
    them. *)
Module Datetime.

Record t : Type := mk {
  micros : Z;
  date_text : string;    (* strftime('%d/%m/%Y') *)
  time_text : string     (* strftime('%H:%M:%S') *)
}.

(** [t.strftime('%d/%m/%Y %H:%M:%S')] *)
Definition strftime_date_time (d : t) : string :=
  (date_text d ++ " " ++ time_text d)%string.

(** [t.strftime('%H:%M:%S')] *)
Definition strftime_time (d : t) : string := time_text d.


(** [(b - a).total_seconds()]: the microseconds of the difference divided
    by [10^6], an [int] by an [int]. *)
Definition total_seconds (b a : t) : result float :=
  PyNum.truediv (micros b - micros a) 1000000.

End Datetime.

(** The document that [json.dumps] serialises; a [dict] keeps its items in
    insertion order. *)
Inductive json : Type :=
| JNull
| JInt (n : Z)
| JFloat (f : float)
| JStr (s : string)
| JList (l : list json)
| JDict (items : list (string * json)).

Module Json.

Open Scope string_scope.

Definition of_num (x : PyNum.num) : json :=
  match x with
  | PyNum.NInt n => JInt n
  | PyNum.NFloat f => JFloat f
  end.


(** [d[k]] on a document, [None] when there is no such key. *)
Definition field (k : string) (j : json) : option json :=
  match j with
  | JDict items =>
      option_map snd (find (fun kv => String.eqb (fst kv) k) items)
  | _ => None
  end.

(** [d[k1][k2]] *)
Definition field2 (k1 k2 : string) (j : json) : option json :=
  match field k1 j with
  | Some d => field k2 d
  | None => None
  end.

End Json.

Module Report.

Import PyNum PyStr.
Open Scope string_scope.
Open Scope Z_scope.

(** An entry of [self.anomalias]. *)
Record anomalia : Type := mk_anomalia {
  tipo : string;
  descricao : string;
  frame : Z;
  timestamp : string
}.

Record VideoAnalysisReport : Type := mk {
  video_path : string;
  total_frames : Z;
  frames_com_faces : Z;
  emocoes_detectadas : list string;
  atividades_detectadas : list string;
  anomalias : list anomalia;
  inicio_analise : Datetime.t;
  fim_analise : option Datetime.t
}.

(** [VideoAnalysisReport(video_path)], the clock reading [now]. *)
Definition init (video_path : string) (now : Datetime.t) : VideoAnalysisReport :=
  {| video_path := video_path;
     total_frames := 0;
     frames_com_faces := 0;
     emocoes_detectadas := [];
     atividades_detectadas := [];
     anomalias := [];
     inicio_analise := now;
     fim_analise := None |}.

(** [self.registrar_frame(tem_face, emocao, atividade)] *)
Definition registrar_frame (self : VideoAnalysisReport)
  (tem_face : value) (emocao atividade : option string) : VideoAnalysisReport :=
  {| video_path := video_path self;
     total_frames := total_frames self + 1;
     frames_com_faces :=
       if truthy tem_face then frames_com_faces self + 1 else frames_com_faces self;
     emocoes_detectadas :=
       match emocao with
       | Some e => if truthy_str emocao then emocoes_detectadas self ++ [e]
                   else emocoes_detectadas self
       | None => emocoes_detectadas self
       end;
     atividades_detectadas :=
       match atividade with
       | Some a => if truthy_str atividade then atividades_detectadas self ++ [a]
                   else atividades_detectadas self
       | None => atividades_detectadas self
       end;
     anomalias := anomalias self;
     inicio_analise := inicio_analise self;
     fim_analise := fim_analise self |}.

(** [self.registrar_anomalia(tipo, descricao, frame_numero)], the clock
    reading [now]. *)
Definition registrar_anomalia (self : VideoAnalysisReport)
  (tipo descricao : string) (frame_numero : Z) (now : Datetime.t)
  : VideoAnalysisReport :=
  {| video_path := video_path self;
     total_frames := total_frames self;
     frames_com_faces := frames_com_faces self;
     emocoes_detectadas := emocoes_detectadas self;
     atividades_detectadas := atividades_detectadas self;
     anomalias :=
       anomalias self ++
       [ {| tipo := tipo; descricao := descricao; frame := frame_numero;
            timestamp := Datetime.strftime_time now |} ];
     inicio_analise := inicio_analise self;
     fim_analise := fim_analise self |}.

(** [self.finalizar()], the clock reading [now]. *)
Definition finalizar (self : VideoAnalysisReport) (now : Datetime.t)
  : VideoAnalysisReport :=
  {| video_path := video_path self;
     total_frames := total_frames self;
     frames_com_faces := frames_com_faces self;
     emocoes_detectadas := emocoes_detectadas self;
     atividades_detectadas := atividades_detectadas self;
     anomalias := anomalias self;
     inicio_analise := inicio_analise self;
     fim_analise := Some now |}.

(** [os.path.basename(p)]: what follows the last slash. *)
Fixpoint basename (p : string) : string :=
  match p with
  | EmptyString => EmptyString
  | String c rest =>
      if existsb (Ascii.eqb "/"%char) (list_ascii_of_string rest)
      then basename rest
      else if Ascii.eqb c "/"%char then rest else String c rest
  end.

(** [(self.fim_analise - self.inicio_analise).total_seconds()]; the
    difference with [None] is a [TypeError]. *)
Definition duracao (self : VideoAnalysisReport) : result float :=
  match fim_analise self with
  | None => Raise TypeError
  | Some fim => Datetime.total_seconds fim (inicio_analise self)
  end.

(** [(self.frames_com_faces / self.total_frames * 100)
     if self.total_frames > 0 else 0] *)
Definition percentual_faces (self : VideoAnalysisReport) : result num :=
  if 0 <? total_frames self
  then (q <- truediv (frames_com_faces self) (total_frames self) ;;
        Return (NFloat (q * 100)%float))%py
  else Return (NInt 0).

(** [count / len(detectadas) * 100] *)
Definition percentual (count : Z) (detectadas : list string) : result float :=
  (q <- truediv count (Z.of_nat (List.length detectadas)) ;;
   Return (q * 100)%float)%py.

(** The line of a label up to its bar:
    [f"  {label:15s}: {count:5d} ({percentual:5.1f}%) "]. *)
Definition inicio_linha (label : string) (count : Z) (percentual : float) : string :=
  "  " ++ format_s 15 label ++ ": " ++ format_d 5 count
  ++ " (" ++ format_f 5 1 (NFloat percentual) ++ "%) ".

(** One turn of the loop over [most_common()]: the line of a label. *)
Definition linha_distribuicao (detectadas : list string) (item : string * Z)
  : result string :=
  let '(label, count) := item in
  (percentual <- percentual count detectadas ;;
   n <- int_of_float (percentual / 2)%float ;;
   let barra := repeat_str "█" n in
   Return (inicio_linha label count percentual ++ barra))%py.

(** The lines of a distribution: the emotions and the activities are
    written by the same code, up to the three texts given here. *)
Definition linhas_distribuicao (detectadas : list string)
  (titulo predominante nenhuma : string) : result (list string) :=
  let counter := Counter.of_list detectadas in
  if Counter.truthy counter then
    (linhas <- mapM (linha_distribuicao detectadas) (Counter.most_common counter) ;;
     top <- getitem (Counter.most_common_1 counter) 0 ;;
     Return (List.concat
               [ [ "Total de Registros:   "
                     ++ str_of_int (Z.of_nat (List.length detectadas));
                   ""; titulo ];
                 linhas;
                 [ ""; predominante ++ fst top ] ]))%py
  else Return [nenhuma].

(** The lines of one anomaly, numbered [i]. *)
Definition linhas_anomalia (i : Z) (a : anomalia) : list string :=
  [ "  " ++ str_of_int i ++ ". [" ++ timestamp a ++ "] Frame " ++ str_of_int (frame a);
    "     Tipo: " ++ tipo a;
    "     Descrição: " ++ descricao a;
    "" ].

(** [enumerate(l, i)] *)
Fixpoint enumerate {A} (i : Z) (l : list A) : list (Z * A) :=
  match l with
  | [] => []
  | a :: rest => (i, a) :: enumerate (i + 1) rest
  end.

(** The lines under [# Informações Gerais]. *)
Definition secao_informacoes_gerais (self : VideoAnalysisReport) (duracao : float)
  : list string :=
  [ "📋 INFORMAÇÕES GERAIS"; repeat_str "-" 80;
    "Vídeo Analisado:     " ++ basename (video_path self);
    "Data/Hora Análise:   " ++ Datetime.strftime_date_time (inicio_analise self);
    "Duração da Análise:  " ++ format_f 0 2 (NFloat duracao) ++ " segundos";
    "" ].

(** The lines under [# Estatísticas de Frames]. *)
Definition secao_estatisticas_frames (self : VideoAnalysisReport)
  (percentual_faces : num) : list string :=
  [ "🎬 ESTATÍSTICAS DE FRAMES"; repeat_str "-" 80;
    "Total de Frames Analisados:     " ++ str_of_int (total_frames self);
    "Frames com Faces Detectadas:   " ++ str_of_int (frames_com_faces self);
    "Percentual de Detecção:         " ++ format_f 0 2 percentual_faces ++ "%";
    "" ].

(** The lines under [# Anomalias Detectadas]. *)
Definition secao_anomalias (self : VideoAnalysisReport) : list string :=
  List.concat
    [ [ "⚠️  ANOMALIAS DETECTADAS"; repeat_str "-" 80;
        "Número de Anomalias:  "
          ++ str_of_int (Z.of_nat (List.length (anomalias self))) ];
      match anomalias self with
      | [] => [ "Nenhuma anomalia detectada no vídeo" ]
      | _ :: _ =>
          "" :: "Detalhamento das Anomalias:"
          :: flat_map (fun ia => linhas_anomalia (fst ia) (snd ia))
               (enumerate 1 (anomalias self))
      end ].

(** The list [relatorio] of [gerar_relatorio_texto]: the appended lines,
    section by section. *)
Definition linhas_relatorio_texto (self : VideoAnalysisReport)
  : result (list string) :=
  (duracao <- duracao self ;;
   percentual_faces <- percentual_faces self ;;
   emocoes <- linhas_distribuicao (emocoes_detectadas self)
                "Distribuição das Emoções:" "Emoção Predominante:  "
                "Nenhuma emoção detectada" ;;
   atividades <- linhas_distribuicao (atividades_detectadas self)
                   "Distribuição das Atividades:" "Atividade Predominante:  "
                   "Nenhuma atividade detectada" ;;
   Return
     (List.concat
        [ [ repeat_str "=" 80; "RELATÓRIO DE ANÁLISE DE VÍDEO"; repeat_str "=" 80; "" ];
          secao_informacoes_gerais self duracao;
          secao_estatisticas_frames self percentual_faces;
          [ "😊 EMOÇÕES DETECTADAS"; repeat_str "-" 80 ];
          emocoes;
          [ "" ];
          [ "🏃 ATIVIDADES DETECTADAS"; repeat_str "-" 80 ];
          atividades;
          [ "" ];
          secao_anomalias self;
          [ ""; repeat_str "=" 80; "FIM DO RELATÓRIO"; repeat_str "=" 80 ] ]))%py.

(** [self.gerar_relatorio_texto()] *)
Definition gerar_relatorio_texto (self : VideoAnalysisReport) : result string :=
  (relatorio <- linhas_relatorio_texto self ;;
   Return (join (String "010"%char "") relatorio))%py.

(** [most_common(1)[0][0] if counter else None] *)
Definition predominante (counter : Counter.t) : result json :=
  if Counter.truthy counter then
    (top <- getitem (Counter.most_common_1 counter) 0 ;;
     Return (JStr (fst top)))%py
  else Return JNull.

(** [dict(counter)] as a document. *)
Definition distribuicao (counter : Counter.t) : json :=
  JDict (map (fun kv => (fst kv, JInt (snd kv))) counter).

Definition json_anomalia (a : anomalia) : json :=
  JDict [ ("tipo", JStr (tipo a)); ("descricao", JStr (descricao a));
          ("frame", JInt (frame a)); ("timestamp", JStr (timestamp a)) ].

(** The dict [relatorio] of [gerar_relatorio_json], which the method
    returns serialised by [json.dumps]. *)
Definition gerar_relatorio_json (self : VideoAnalysisReport) : result json :=
  (duracao <- duracao self ;;
   let emocoes_counter := Counter.of_list (emocoes_detectadas self) in
   let atividades_counter := Counter.of_list (atividades_detectadas self) in
   percentual_faces <- percentual_faces self ;;
   emocao_predominante <- predominante emocoes_counter ;;
   atividade_predominante <- predominante atividades_counter ;;
   Return
     (JDict
        [ ("informacoes_gerais",
           JDict [ ("video", JStr (basename (video_path self)));
                   ("data_analise",
                    JStr (Datetime.strftime_date_time (inicio_analise self)));
                   ("duracao_analise_segundos",
                    Json.of_num (round (NFloat duracao) 2)) ]);
          ("estatisticas_frames",
           JDict [ ("total_frames_analisados", JInt (total_frames self));
                   ("frames_com_faces", JInt (frames_com_faces self));
                   ("percentual_deteccao",
                    Json.of_num (round percentual_faces 2)) ]);
          ("emocoes",
           JDict [ ("total_registros",
                    JInt (Z.of_nat (List.length (emocoes_detectadas self))));
                   ("distribuicao", distribuicao emocoes_counter);
                   ("emocao_predominante", emocao_predominante) ]);
          ("atividades",
           JDict [ ("total_registros",
                    JInt (Z.of_nat (List.length (atividades_detectadas self))));
                   ("distribuicao", distribuicao atividades_counter);
                   ("atividade_predominante", atividade_predominante) ]);
          ("anomalias",
           JDict [ ("numero_anomalias",
                    JInt (Z.of_nat (List.length (anomalias self))));
                   ("detalhes", JList (map json_anomalia (anomalias self))) ]) ]))%py.

(** [rows] are the lines of the items [items], one each and in their
    order: the text of [inicio_linha] for the label, the count and the
    percentage of the item, which is printed with one decimal place, and
    then a bar. *)
Definition rows_of (detectadas : list string) (items : Counter.t)
  (rows : list string) : Prop :=
  Forall2
    (fun item row =>
       exists pct barra,
         percentual (snd item) detectadas = Return pct /\
         decimal_places (format_f 5 1 (NFloat pct)) 1 /\
         row = inicio_linha (fst item) (snd item) pct ++ barra)
    items rows.

(** [part] is a run of consecutive elements of [whole]. *)
Definition segment {A} (part whole : list A) : Prop :=
  exists before after, whole = (before ++ part ++ after)%list.



(** A call on the report of a session. *)
Inductive call : Type :=
| RegistrarFrame (tem_face : value) (emocao atividade : option string)
| RegistrarAnomalia (tipo descricao : string) (frame_numero : Z) (now : Datetime.t).

Definition step (self : VideoAnalysisReport) (c : call) : VideoAnalysisReport :=
  match c with
  | RegistrarFrame f e a => registrar_frame self f e a
  | RegistrarAnomalia t d n now => registrar_anomalia self t d n now
  end.

(** The label arguments of the [registrar_frame] calls among [cs]. *)
Definition emocoes_of (cs : list call) : list (option string) :=
  flat_map (fun c => match c with
                     | RegistrarFrame _ e _ => [e]
                     | RegistrarAnomalia _ _ _ _ => []
                     end) cs.

Definition atividades_of (cs : list call) : list (option string) :=
  flat_map (fun c => match c with
                     | RegistrarFrame _ _ a => [a]
                     | RegistrarAnomalia _ _ _ _ => []
                     end) cs.

(** [label is not None] *)
Definition non_null (label : option string) : bool :=
  match label with
  | Some _ => true
  | None => false
  end.

(** The number of labels that satisfy [p]. *)
Definition count_labels (p : option string -> bool) (labels : list (option string)) : Z :=
  Z.of_nat (List.length (filter p labels)).

(** The labels that [registrar_frame] appends: the truthy ones. *)
Definition kept (labels : list (option string)) : list string :=
  flat_map (fun label => match label with
                         | Some s => if truthy_str label then [s] else []
                         | None => []
                         end) labels.

(** The report after the calls [cs], made in order on a new report. *)
Definition session (video_path : string) (start : Datetime.t) (cs : list call)
  : VideoAnalysisReport :=
  fold_left step cs (init video_path start).

End Report.

(** Two sessions of three frames, each with a face and an emotion, and
    no anomaly, finalized after two and a half seconds. *)
Module Examples.

Import Report.
Open Scope string_scope.

Definition inicio : Datetime.t := Datetime.mk 0 "01/01/2026" "10:00:00".
Definition fim : Datetime.t := Datetime.mk 2500000 "01/01/2026" "10:00:02".

Definition frames (emocoes : list string) : list call :=
  map (fun e => RegistrarFrame (VBool true) (Some e) None) emocoes.

Definition feliz_feliz_triste : VideoAnalysisReport :=
  finalizar (session "video.mp4" inicio (frames ["Feliz"; "Feliz"; "Triste"])) fim.

Definition triste_feliz_feliz : VideoAnalysisReport :=
  finalizar (session "video.mp4" inicio (frames ["Triste"; "Feliz"; "Feliz"])) fim.

(** The lines of the text report of both sessions. *)
Definition linhas : list string :=
  [ "================================================================================";
    "RELATÓRIO DE ANÁLISE DE VÍDEO";
    "================================================================================";
    "";
    "📋 INFORMAÇÕES GERAIS";
    "--------------------------------------------------------------------------------";
    "Vídeo Analisado:     video.mp4";
    "Data/Hora Análise:   01/01/2026 10:00:00";
    "Duração da Análise:  2.50 segundos";
    "";
    "🎬 ESTATÍSTICAS DE FRAMES";
    "--------------------------------------------------------------------------------";
    "Total de Frames Analisados:     3";
    "Frames com Faces Detectadas:   3";
    "Percentual de Detecção:         100.00%";
    "";
    "😊 EMOÇÕES DETECTADAS";
    "--------------------------------------------------------------------------------";
    "Total de Registros:   3";
    "";
    "Distribuição das Emoções:";
    "  Feliz          :     2 ( 66.7%) █████████████████████████████████";
    "  Triste         :     1 ( 33.3%) ████████████████";
    "";
    "Emoção Predominante:  Feliz";
    "";
    "🏃 ATIVIDADES DETECTADAS";
    "--------------------------------------------------------------------------------";
    "Nenhuma atividade detectada";
    "";
    "⚠️  ANOMALIAS DETECTADAS";
    "--------------------------------------------------------------------------------";
    "Número de Anomalias:  0";
    "Nenhuma anomalia detectada no vídeo";
    "";
    "================================================================================";
    "FIM DO RELATÓRIO";
    "================================================================================" ].

End Examples.

(* ================================================================== *)
(** * main_report.py: VideoAnalyzer.detectar_anomalias *)
(* ================================================================== *)

Module Analyzer.

Import PyStr.
Open Scope string_scope.
Open Scope Z_scope.

(** The dict [frame_info].  [None] stands for a missing key in
    [num_faces], and for a missing key or the value [None] in the labels
    (which [dict.get] does not tell apart). *)
Record frame_info : Type := mk_frame_info {
  num_faces : option Z;
  emocao : option string;
  atividade : option string
}.

(** An entry of the list the detector returns. *)
Record anomalia : Type := mk_anomalia {
  tipo : string;
  descricao : string;
  frame : Z
}.

(** [d.get(k, default)] *)
Definition get_default {A} (field : option A) (default : A) : A :=
  match field with
  | Some v => v
  | None => default
  end.

(** [label in [a, b]], [None] being in no list of texts. *)
Definition label_in (label : option string) (l : list string) : bool :=
  match label with
  | Some s => existsb (String.eqb s) l
  | None => false
  end.

(** [VideoAnalyzer.detectar_anomalias(frame_info, frame_numero)] *)
Definition detectar_anomalias (frame_info : frame_info) (frame_numero : Z)
  : list anomalia :=
  let multiplas :=
    if 3 <? get_default (num_faces frame_info) 0
    then [ {| tipo := "Múltiplas Faces";
              descricao := str_of_int (get_default (num_faces frame_info) 0)
                           ++ " faces detectadas simultaneamente";
              frame := frame_numero |} ]
    else [] in
  let negativa :=
    if label_in (emocao frame_info) ["Triste"; "Raiva"]
    then [ {| tipo := "Emoção Negativa";
              descricao := "Emoção " ++ get_default (emocao frame_info) ""
                           ++ " detectada";
              frame := frame_numero |} ]
    else [] in
  let nao_identificada :=
    if label_in (atividade frame_info) ["unknown"; "Desconhecido"]
    then if frame_numero mod 100 =? 0
         then [ {| tipo := "Atividade Não Identificada";
                   descricao := "Não foi possível identificar a atividade";
                   frame := frame_numero |} ]
         else []
    else [] in
  List.concat [multiplas; negativa; nao_identificada].

(** The anomaly of an unidentified activity at a frame. *)
Definition nao_identificada (frame_numero : Z) : anomalia :=
  {| tipo := "Atividade Não Identificada";
     descricao := "Não foi possível identificar a atividade";
     frame := frame_numero |}.

Definition is_nao_identificada (a : anomalia) : bool :=
  String.eqb (tipo a) "Atividade Não Identificada".

(** The activity label is one of the two texts for an unknown activity. *)
Definition unknown_activity (frame_info : frame_info) : Prop :=
  atividade frame_info = Some "unknown" \/ atividade frame_info = Some "Desconhecido".

(** The frame triggers neither of the two other rules. *)
Definition no_other_anomaly (frame_info : frame_info) : Prop :=
  get_default (num_faces frame_info) 0 <= 3 /\
  emocao frame_info <> Some "Triste" /\ emocao frame_info <> Some "Raiva".

(** The frame numbers [1 .. n]. *)
Definition frames_up_to (n : nat) : list Z := map Z.of_nat (seq 1 n).

(** The anomalies of a run: those of every frame, in the order of the
    frames, [frame_info_at i] being the result of frame [i]. *)
Definition anomalias_do_video (frame_info_at : Z -> frame_info) (frames : list Z)
  : list anomalia :=
  flat_map (fun i => detectar_anomalias (frame_info_at i) i) frames.

End Analyzer.

(* ================================================================== *)
(** * The overlays that [process_frame] draws *)
(* ================================================================== *)

(** A text drawn on the frame by [cv2.putText], and where. *)
Module Overlay.

Record t : Type := mk { text : string; org : Z * Z }.

(** [a, b, c = seq]: unpacking into exactly three targets. *)
Definition unpack3 {A} (l : list A) : result (A * A * A) :=
  match l with
  | [a; b; c] => Return (a, b, c)
  | _ => Raise ValueError
  end.

(** [d.get(k, default)] on a dict of texts. *)
Definition dict_get (d : list (string * string)) (k default : string) : string :=
  match find (fun kv => String.eqb (fst kv) k) d with
  | Some kv => snd kv
  | None => default
  end.

End Overlay.

(** A frame of the video as the capture reads it: a BGR image, an array of
    its height, its width and three channels.  The conversion of the
    colours and the drawings of the boxes, which the modules make on the
    frame before they write a text, are made for such frames. *)
Module Frame.

Record t : Type := mk { height : Z; width : Z }.

(** [frame.shape] *)
Definition shape (frame : t) : list Z := [height frame; width frame; 3%Z].

End Frame.

(** [ActivityRecognitionModule]: the table of the labels of the
    activities, in which [process_frame] looks the key of a pose up. *)
Module ActivityFrame.

Open Scope string_scope.

(** [self.activities] *)
Definition activities : list (string * string) :=
  [ ("standing", "Em pé");
    ("sitting", "Sentado");
    ("waving", "Acenando");
    ("raising_hand", "Levantando a mão");
    ("unknown", "Desconhecido") ].

(** [self.activities.get(activity_key, 'Desconhecido')] *)
Definition label (activity_key : string) : string :=
  Overlay.dict_get activities activity_key "Desconhecido".

End ActivityFrame.

(** [EmotionDetectionModule.process_frame] on a frame: the text of the
    emotion of every face and its place. *)
Module EmotionFrame.

Import EmotionDetection.
Open Scope string_scope.
Open Scope Z_scope.

(** One turn of the loop over the face meshes. *)
Definition annotate (frame : Frame.t) (face_landmarks : list Landmark.t)
  : result Overlay.t :=
  (emotion <- analyze_emotion face_landmarks (Frame.shape frame) ;;
   '(h, w, _) <- Overlay.unpack3 (Frame.shape frame) ;;
   Return {| Overlay.text := "Emocao: " ++ emotion;
             Overlay.org := (10, h - 50) |})%py.

(** [results.multi_face_landmarks] is [None] or the list of the meshes; an
    empty list is falsy, and the loop over it has no turn. *)
Definition process_frame (multi_face_landmarks : option (list (list Landmark.t)))
  (frame : Frame.t) : result (list Overlay.t) :=
  match multi_face_landmarks with
  | None => Return []
  | Some [] => Return []
  | Some faces => mapM (annotate frame) faces
  end.

End EmotionFrame.

(* ================================================================== *)
(** * app/face_recognition.py *)
(* ================================================================== *)

Module FaceRecognition.

Import PyNum PyStr.
Open Scope string_scope.
Open Scope Z_scope.

(** A detection of the face detector: its scores and the corner of its
    relative bounding box. *)
Record detection : Type := mk_detection {
  score : list float;
  xmin : float;
  ymin : float
}.

(** One turn of the loop of [process_frame], after the box of the
    detection is drawn: the text of the detection and its place. *)
Definition annotate (frame : Frame.t) (d : detection) : result Overlay.t :=
  (confidence <- getitem (score d) 0 ;;
   '(h, w, _) <- Overlay.unpack3 (Frame.shape frame) ;;
   x <- int_of_float (xmin d * float_of_int w)%float ;;
   y <- int_of_float (ymin d * float_of_int h)%float ;;
   Return {| Overlay.text := "Face: " ++ format_f 0 2 (NFloat confidence);
             Overlay.org := (x, y - 10) |})%py.

(** [FaceRecognitionModule.process_frame] on a frame: [results.detections]
    is [None] or the list of the detections. *)
Definition process_frame (detections : option (list detection)) (frame : Frame.t)
  : result (list Overlay.t) :=
  match detections with
  | None => Return []
  | Some ds => mapM (annotate frame) ds
  end.

End FaceRecognition.

(* ================================================================== *)
(** * main_report.py: what [process_video] records *)
(* ================================================================== *)

Module Driver.

Import Report.
Open Scope string_scope.
Open Scope Z_scope.

(** The calls of [registrar_anomalia] for the anomalies of a frame, the
    [k]-th reading the clock at [clock k]. *)
Fixpoint registrar_anomalias (report : VideoAnalysisReport)
  (anomalias : list Analyzer.anomalia) (clock : nat -> Datetime.t) (k : nat)
  : VideoAnalysisReport :=
  match anomalias with
  | [] => report
  | a :: rest =>
      registrar_anomalias
        (registrar_anomalia report (Analyzer.tipo a) (Analyzer.descricao a)
           (Analyzer.frame a) (clock k))
        rest clock (S k)
  end.

(** What a turn of the loop records, [frame_count] being the number of the
    frame: the values the code puts in the place of the results of the
    modules, and the anomalies the detector finds in them. *)
Definition registrar_iteracao (report : VideoAnalysisReport) (frame_count : Z)
  (clock : nat -> Datetime.t) : VideoAnalysisReport :=
  let tem_face := frame_count mod 2 =? 0 in
  let emocao := "Neutro" in
  let atividade := "standing" in
  let report := registrar_frame report (VBool tem_face) (Some emocao) (Some atividade) in
  let frame_info :=
    {| Analyzer.num_faces := Some (if tem_face then 1 else 0);
       Analyzer.emocao := Some emocao;
       Analyzer.atividade := Some atividade |} in
  let anomalias := Analyzer.detectar_anomalias frame_info frame_count in
  registrar_anomalias report anomalias clock 0.

(** The report of [process_video] after [frames_read] turns of its loop
    (the frames read before the end of the video or the key [q]), then
    finalized; [clock i] are the readings of the clock during frame [i]. *)
Definition process_video_report (video_source : string) (start : Datetime.t)
  (clock : Z -> nat -> Datetime.t) (frames_read : nat) (fim : Datetime.t)
  : VideoAnalysisReport :=
  finalizar
    (fold_left (fun report i => registrar_iteracao report i (clock i))
       (Analyzer.frames_up_to frames_read) (init video_source start))
    fim.

End Driver.

(* ================================================================== *)
(** * main_report.py: VideoAnalysisReport.salvar_relatorio *)
(* ================================================================== *)

(** The files of the system are a state passed along.  The failures that
    depend on what the disk holds (permissions, a full disk, a file where
    the directory is to be) are left out. *)
Module Persistence.

Import Report.
Open Scope string_scope.

(** What a file holds: a text, or the serialisation by [json.dumps] of a
    document. *)
Inductive content : Type :=
| Text (s : string)
| JsonDumps (j : json).

Record filesystem : Type := mk_fs {
  dirs : list string;
  files : string -> option content
}.

(** Besides the exceptions of the reports: the one of a local variable
    read before any assignment, and the one of a path that names no file
    or directory. *)
Inductive error : Type :=
| PyError (e : Py.exn)
| UnboundLocalError
| FileNotFoundError.

Inductive outcome (A : Type) : Type :=
| Done (a : A)
| Failed (e : error).
Arguments Done {A} a.
Arguments Failed {A} e.

(** [os.makedirs(d, exist_ok=True)]: the empty path names no directory. *)
Definition makedirs (d : string) (fs : filesystem) : filesystem * option error :=
  if String.eqb d "" then (fs, Some FileNotFoundError)
  else ({| dirs := d :: dirs fs; files := files fs |}, None).

(** Writing a whole file, as [open(path, 'w')] followed by [write] does. *)
Definition write_file (path : string) (c : content) (fs : filesystem) : filesystem :=
  {| dirs := dirs fs;
     files := fun q => if String.eqb q path then Some c else files fs q |}.

(** [s.endswith('/')] *)
Fixpoint ends_with_slash (s : string) : bool :=
  match s with
  | EmptyString => false
  | String c EmptyString => Ascii.eqb c "/"%char
  | String _ rest => ends_with_slash rest
  end.

(** [os.path.join(a, b)] *)
Definition path_join (a b : string) : string :=
  if String.prefix "/" b then b
  else if String.eqb a "" || ends_with_slash a then a ++ b
  else a ++ "/" ++ b.

(** [self.salvar_relatorio(formato, output_dir)], [timestamp] being the
    text of [datetime.now().strftime('%Y%m%d_%H%M%S')].  The file is opened,
    and so emptied, before the report is generated. *)
Definition salvar_relatorio (self : VideoAnalysisReport)
  (formato output_dir timestamp : string) (fs : filesystem)
  : filesystem * outcome string :=
  match makedirs output_dir fs with
  | (fs, Some e) => (fs, Failed e)
  | (fs, None) =>
      if String.eqb formato "txt" then
        let filename := "relatorio_analise_" ++ timestamp ++ ".txt" in
        let filepath := path_join output_dir filename in
        let fs := write_file filepath (Text "") fs in
        match gerar_relatorio_texto self with
        | Return s => (write_file filepath (Text s) fs, Done filepath)
        | Raise e => (fs, Failed (PyError e))
        end
      else if String.eqb formato "json" then
        let filename := "relatorio_analise_" ++ timestamp ++ ".json" in
        let filepath := path_join output_dir filename in
        let fs := write_file filepath (Text "") fs in
        match gerar_relatorio_json self with
        | Return j => (write_file filepath (JsonDumps j) fs, Done filepath)
        | Raise e => (fs, Failed (PyError e))
        end
      else (fs, Failed UnboundLocalError)
  end.

(** The end of [process_video]: [report.salvar_relatorio('txt')] and then
    [report.salvar_relatorio('json')], each with the default directory and
    its own reading of the clock. *)
Definition salvar_relatorios (report : VideoAnalysisReport)
  (timestamp_txt timestamp_json : string) (fs : filesystem)
  : filesystem * outcome (string * string) :=
  match salvar_relatorio report "txt" "data/output" timestamp_txt fs with
  | (fs, Failed e) => (fs, Failed e)
  | (fs, Done txt_path) =>
      match salvar_relatorio report "json" "data/output" timestamp_json fs with
      | (fs, Failed e) => (fs, Failed e)
      | (fs, Done json_path) => (fs, Done (txt_path, json_path))
      end
  end.

End Persistence.

(* ================================================================== *)
(** * main_codespace.py: the loop of [process_video_codespace] *)
(* ================================================================== *)

Module Codespace.

Import PyNum.
Open Scope Z_scope.

(** [int((frame_count / total_frames) * (width - 20))] *)
Definition progress_width (frame_count total_frames width : Z) : result Z :=
  (q <- truediv frame_count total_frames ;;
   int_of_float (q * float_of_int (width - 20))%float)%py.

(** The numbers of the progress line. *)
Record progress : Type := mk_progress {
  progresso : float;
  tempo_decorrido : Z;
  tempo_restante : Z
}.

(** The progress line of a frame: printed every 30 frames and at the last
    frame, [None] for the other frames. *)
Definition progress_line (frame_count total_frames fps : Z)
  : result (option progress) :=
  if (frame_count mod 30 =? 0) || (frame_count =? total_frames) then
    (q <- truediv frame_count total_frames ;;
     let progresso := (q * 100)%float in
     tempo_decorrido <- truediv frame_count fps ;;
     tempo_restante <- truediv (total_frames - frame_count) fps ;;
     decorrido <- int_of_float tempo_decorrido ;;
     restante <- int_of_float tempo_restante ;;
     Return (Some {| progresso := progresso;
                     tempo_decorrido := decorrido;
                     tempo_restante := restante |}))%py
  else Return None.

(** The loop over the frames that the capture delivers, [frames_read] of
    them; [modules i] is the exception that the three modules raise on
    frame [i], if any.  The frame counter and the bar that the loop itself
    draws on the frame are taken to be drawn.  The result is the number of
    frames written and the exception that ended the loop, if any: the
    handler of the loop prints it, and the function goes on to its
    summary. *)
Fixpoint frames_loop (modules : Z -> option exn) (fps width total_frames : Z)
  (frames_read : nat) (frame_count written : Z) : Z * option exn :=
  match frames_read with
  | O => (written, None)
  | S rest =>
      let frame_count := frame_count + 1 in
      match modules frame_count with
      | Some e => (written, Some e)
      | None =>
          match progress_width frame_count total_frames width with
          | Raise e => (written, Some e)
          | Return _ =>
              let written := written + 1 in
              match progress_line frame_count total_frames fps with
              | Raise e => (written, Some e)
              | Return _ =>
                  frames_loop modules fps width total_frames rest
                    frame_count written
              end
          end
      end
  end.

(** [process_video_codespace] once the video is open and the header is
    printed: [fps], [width] and [total_frames] are what the capture
    reports, [writer_opened] is [out.isOpened()].  When the writer is not
    open the function returns before the loop. *)
Definition process_video_codespace (modules : Z -> option exn)
  (fps width total_frames : Z) (writer_opened : bool) (frames_read : nat)
  : Z * option exn :=
  if writer_opened
  then frames_loop modules fps width total_frames frames_read 0 0
  else (0, None).

End Codespace.

(* ================================================================== *)
(** * Vocabulary for the properties of the anomaly rules and the log *)
(* ================================================================== *)

Module AnalyzerSpec.

Import Analyzer.
Open Scope string_scope.
Open Scope Z_scope.

Definition is_multiplas_faces (a : anomalia) : bool :=
  String.eqb (tipo a) "Múltiplas Faces".

Definition is_emocao_negativa (a : anomalia) : bool :=
  String.eqb (tipo a) "Emoção Negativa".

(** The anomaly of [n] faces at a frame. *)
Definition multiplas_faces (n frame_numero : Z) : anomalia :=
  {| tipo := "Múltiplas Faces";
     descricao := PyStr.str_of_int n ++ " faces detectadas simultaneamente";
     frame := frame_numero |}.

(** The anomaly of the negative emotion [e] at a frame. *)
Definition emocao_negativa (e : string) (frame_numero : Z) : anomalia :=
  {| tipo := "Emoção Negativa";
     descricao := "Emoção " ++ e ++ " detectada";
     frame := frame_numero |}.

End AnalyzerSpec.

Module ReportSpec.

Import Report.
Open Scope string_scope.
Open Scope Z_scope.

(** The entries that the [registrar_anomalia] calls among [cs] append, in
    the order of the calls. *)
Definition anomalias_of (cs : list call) : list anomalia :=
  flat_map (fun c => match c with
                     | RegistrarFrame _ _ _ => []
                     | RegistrarAnomalia t d n now =>
                         [ {| tipo := t; descricao := d; frame := n;
                              timestamp := Datetime.strftime_time now |} ]
                     end) cs.

(** The [registrar_frame] calls among [cs]. *)
Definition frames_only (cs : list call) : list call :=
  filter (fun c => match c with
                   | RegistrarFrame _ _ _ => true
                   | RegistrarAnomalia _ _ _ _ => false
                   end) cs.

(** The first line of the [i]-th anomaly of the text report. *)
Definition cabecalho_anomalia (i : Z) (a : anomalia) : string :=
  "  " ++ PyStr.str_of_int i ++ ". [" ++ timestamp a ++ "] Frame "
  ++ PyStr.str_of_int (frame a).

(** The sum of the counts of a distribution of the structured report. *)
Fixpoint soma_contagens (items : list (string * json)) : option Z :=
  match items with
  | [] => Some 0
  | (_, JInt n) :: rest => option_map (Z.add n) (soma_contagens rest)
  | _ :: _ => None
  end.

Definition soma_distribuicao (j : json) : option Z :=
  match j with
  | JDict items => soma_contagens items
  | _ => None
  end.

(** [d] is the distribution of the labels [l]: a dict with one item for
    each label of [l] and no other, the count of a label being the number
    of its occurrences; the counts add up to the number of labels. *)
Definition counts_of (l : list string) (d : json) : Prop :=
  exists items,
    d = JDict items /\
    NoDup (map fst items) /\
    (forall k, In k (map fst items) <-> In k l) /\
    (forall k v, In (k, v) items ->
       v = JInt (Counter.occurrences k l) /\ 1 <= Counter.occurrences k l) /\
    soma_distribuicao d = Some (Z.of_nat (List.length l)).

(** The two reports have the same counters and labels. *)
Definition same_counters (a b : VideoAnalysisReport) : Prop :=
  total_frames a = total_frames b /\
  frames_com_faces a = frames_com_faces b /\
  emocoes_detectadas a = emocoes_detectadas b /\
  atividades_detectadas a = atividades_detectadas b.

(** [c] has no slash. *)
Definition no_slash (s : string) : Prop :=
  existsb (Ascii.eqb "/"%char) (list_ascii_of_string s) = false.

End ReportSpec.
(* ================================================================== *)
(** * The range of the binary64 numbers that the arithmetic yields *)
(* ================================================================== *)

(** The rounding of the specification of floats ([binary_round_aux]) keeps
    the magnitude of a number up to one binary digit, and yields a valid
    binary64 number.  This gives the quotients and the percentages of the
    reports their range. *)

Module FloatRangeFacts.

Import PyNum.
Open Scope Z_scope.

Lemma fexp_eq e : SpecFloat.fexp prec emax e = Z.max (e - 53) (-1074).
Proof. reflexivity. Qed.

Lemma digits2_size p : digits2_pos p = Pos.size p.
Proof. induction p as [p IH|p IH|]; cbn; now rewrite ?IH. Qed.

Lemma Zdigits2_log2 m : 0 < m -> Zdigits2 m = Z.log2 m + 1.
Proof.
  destruct m as [|p|p]; try lia. intros _. cbn [Zdigits2].
  rewrite digits2_size. destruct p as [p|p|]; cbn [Pos.size Z.log2];
    rewrite ?Pos2Z.inj_succ; lia.
Qed.

Lemma Zdigits2_nonneg m : 0 <= Zdigits2 m.
Proof. destruct m; cbn; lia. Qed.

Lemma Zdigits2_bounds m :
  0 < m -> 2 ^ (Zdigits2 m - 1) <= m < 2 ^ Zdigits2 m.
Proof.
  intros H. rewrite (Zdigits2_log2 m H).
  pose proof (Z.log2_spec m H) as S.
  replace (Z.log2 m + 1 - 1) with (Z.log2 m) by lia.
  replace (Z.log2 m + 1) with (Z.succ (Z.log2 m)) by lia. exact S.
Qed.

Lemma Zdigits2_lt_pow m k : 0 <= m -> 0 <= k -> m < 2 ^ k -> Zdigits2 m <= k.
Proof.
  intros M K H. destruct (Z.eq_dec m 0) as [->|N]; [cbn; lia|].
  rewrite Zdigits2_log2 by lia.
  apply Z.log2_lt_pow2 in H; lia.
Qed.

Lemma Zdigits2_ge_pow m k : 0 <= k -> 2 ^ k <= m -> k + 1 <= Zdigits2 m.
Proof.
  intros K H. assert (0 < m) by (pose proof (Z.pow_pos_nonneg 2 k); lia).
  rewrite Zdigits2_log2 by lia.
  apply Z.log2_le_pow2 in H; lia.
Qed.

Lemma Zdigits2_le a b : 0 <= a <= b -> Zdigits2 a <= Zdigits2 b.
Proof.
  intros [A B]. destruct (Z.eq_dec a 0) as [->|N]; [apply Zdigits2_nonneg|].
  rewrite !Zdigits2_log2 by lia. pose proof (Z.log2_le_mono a b B). lia.
Qed.

(** ** Shifting to the right *)

Lemma shr_1_m r : 0 <= shr_m r -> shr_m (shr_1 r) = shr_m r / 2.
Proof.
  destruct r as [m rb sb]. cbn [shr_m shr_1]. intros H.
  rewrite <- Z.div2_div.
  destruct m as [|p|p]; [reflexivity| |lia]. destruct p; reflexivity.
Qed.

Lemma iter_shr_m p r :
  0 <= shr_m r -> shr_m (iter_pos shr_1 p r) = shr_m r / 2 ^ Zpos p.
Proof.
  revert r. induction p as [p IH|p IH|]; intros r H; cbn [iter_pos].
  - assert (H1 : 0 <= shr_m (shr_1 r)).
    { rewrite shr_1_m by exact H. apply Z.div_pos; lia. }
    assert (H2 : 0 <= shr_m (iter_pos shr_1 p (shr_1 r))).
    { rewrite IH by exact H1. apply Z.div_pos; [exact H1|]. apply Z.pow_pos_nonneg; lia. }
    rewrite IH by exact H2. rewrite IH by exact H1. rewrite shr_1_m by exact H.
    rewrite !Z.div_div by (try apply Z.pow_pos_nonneg; lia).
    f_equal. rewrite Pos2Z.inj_xI.
    replace (2 * Z.pos p + 1) with (1 + Z.pos p + Z.pos p) by lia.
    rewrite !Z.pow_add_r by lia. rewrite Z.pow_1_r. ring.
  - assert (H2 : 0 <= shr_m (iter_pos shr_1 p r)).
    { rewrite IH by exact H. apply Z.div_pos; [exact H|]. apply Z.pow_pos_nonneg; lia. }
    rewrite IH by exact H2. rewrite IH by exact H.
    rewrite Z.div_div by (try apply Z.pow_pos_nonneg; lia).
    f_equal. rewrite <- Z.pow_add_r by lia. f_equal. lia.
  - rewrite shr_1_m by exact H. reflexivity.
Qed.

Lemma shr_record_of_loc_m m l : shr_m (shr_record_of_loc m l) = m.
Proof. destruct l as [|[| |]]; reflexivity. Qed.

Lemma shr_fexp_m m e l :
  0 <= m ->
  let n := Z.max (SpecFloat.fexp prec emax (Zdigits2 m + e) - e) 0 in
  shr_m (fst (shr_fexp prec emax m e l)) = m / 2 ^ n /\
  snd (shr_fexp prec emax m e l) = e + n.
Proof.
  intros H. cbv zeta. unfold shr_fexp, shr.
  destruct (SpecFloat.fexp prec emax (Zdigits2 m + e) - e) as [|p|p] eqn:E;
    cbn [fst snd].
  - rewrite shr_record_of_loc_m. cbn. rewrite Z.div_1_r. lia.
  - rewrite iter_shr_m by (rewrite shr_record_of_loc_m; exact H).
    rewrite shr_record_of_loc_m. replace (Z.max (Z.pos p) 0) with (Z.pos p) by lia.
    split; [reflexivity|lia].
  - rewrite shr_record_of_loc_m. replace (Z.max (Z.neg p) 0) with 0 by lia.
    cbn. rewrite Z.div_1_r. lia.
Qed.

Lemma round_nearest_even_cases m l :
  round_nearest_even m l = m \/ round_nearest_even m l = m + 1.
Proof.
  destruct l as [|[| |]]; cbn; auto. destruct (Z.even m); auto.
Qed.

Lemma div_pow2_digits m n :
  0 < m -> 0 <= n ->
  (n < Zdigits2 m -> 0 < m / 2 ^ n /\ Zdigits2 (m / 2 ^ n) = Zdigits2 m - n) /\
  (Zdigits2 m <= n -> m / 2 ^ n = 0).
Proof.
  intros M N. pose proof (Zdigits2_bounds m M) as [L U].
  pose proof (Zdigits2_nonneg m) as D.
  assert (P : 0 < 2 ^ n) by (apply Z.pow_pos_nonneg; lia).
  split.
  - intros H.
    assert (Q : 2 ^ (Zdigits2 m - 1 - n) <= m / 2 ^ n).
    { apply Z.div_le_lower_bound; [exact P|].
      rewrite <- Z.pow_add_r by lia.
      replace (n + (Zdigits2 m - 1 - n)) with (Zdigits2 m - 1) by lia. exact L. }
    assert (R : m / 2 ^ n < 2 ^ (Zdigits2 m - n)).
    { apply Z.div_lt_upper_bound; [exact P|].
      rewrite <- Z.pow_add_r by lia.
      replace (n + (Zdigits2 m - n)) with (Zdigits2 m) by lia. exact U. }
    assert (0 < 2 ^ (Zdigits2 m - 1 - n)) by (apply Z.pow_pos_nonneg; lia).
    split; [lia|].
    apply Z.le_antisymm.
    + apply Zdigits2_lt_pow; lia.
    + pose proof (Zdigits2_ge_pow (m / 2 ^ n) (Zdigits2 m - 1 - n)). lia.
  - intros H. apply Z.div_small. split; [lia|].
    apply Z.lt_le_trans with (1 := U). apply Z.pow_le_mono_r; lia.
Qed.

Lemma Zdigits2_succ m : 0 <= m -> Zdigits2 (m + 1) <= Zdigits2 m + 1.
Proof.
  intros H. destruct (Z.eq_dec m 0) as [->|N]; [cbn; lia|].
  pose proof (Zdigits2_bounds m ltac:(lia)) as [_ U].
  pose proof (Zdigits2_nonneg m).
  apply Zdigits2_lt_pow; [lia|lia|].
  rewrite Z.pow_add_r, Z.pow_1_r by lia. lia.
Qed.

(** The rounding of the positive [m * 2^e] to binary64: zero, or a number
    of about the same magnitude, canonical when [m] has digits enough,
    unless that is out of range. *)
Lemma binary_round_aux_cases s m e l :
  0 <= m ->
  let M := Zdigits2 m + e in
  let f := Z.max (M - 53) (-1074) in
  binary_round_aux prec emax s m e l = S754_zero s
  \/ exists m3 e3,
       binary_round_aux prec emax s m e l
       = (if e3 <=? emax - prec then S754_finite s m3 e3 else S754_infinity s) /\
       e3 <= Z.max e f + 1 /\
       Zdigits2 (Zpos m3) + e3 <= Z.max M (-1074) + 1 /\
       (e <= f -> canonical_mantissa prec emax m3 e3 = true).
Proof.
  intros H. cbv zeta. unfold binary_round_aux.
  pose proof (shr_fexp_m m e l H) as [A1 A2]. rewrite fexp_eq in A1, A2.
  destruct (shr_fexp prec emax m e l) as [r1 e1]. cbn [fst snd] in A1, A2.
  set (d := Zdigits2 m) in *. set (M := d + e) in *.
  set (f := Z.max (M - 53) (-1074)) in *.
  set (n1 := Z.max (f - e) 0) in *.
  pose proof (Zdigits2_nonneg m) as D. fold d in D.
  assert (X0 : 0 <= shr_m r1).
  { rewrite A1. apply Z.div_pos; [exact H|]. apply Z.pow_pos_nonneg; lia. }
  (* the digits of the shifted mantissa *)
  assert (X : (shr_m r1 = 0 /\ (m = 0 \/ (0 < m /\ d <= n1)))
              \/ (0 < shr_m r1 /\ Zdigits2 (shr_m r1) = d - n1 /\ n1 < d)).
  { destruct (Z.eq_dec m 0) as [->|N].
    - left. rewrite A1. split; [apply Z.div_0_l; apply Z.pow_nonzero; lia|now left].
    - destruct (div_pow2_digits m n1) as [P Q]; [lia|lia|]. fold d in P, Q.
      destruct (Z_lt_le_dec n1 d) as [L|L].
      + right. rewrite A1. destruct (P L). repeat split; assumption.
      + left. rewrite A1. split; [now apply Q|]. right. lia. }
  set (m2 := round_nearest_even (shr_m r1) (loc_of_shr_record r1)).
  assert (R : m2 = shr_m r1 \/ m2 = shr_m r1 + 1)
    by apply round_nearest_even_cases.
  assert (R0 : 0 <= m2) by lia.
  pose proof (shr_fexp_m m2 e1 loc_Exact R0) as [B1 B2]. rewrite fexp_eq in B1, B2.
  destruct (shr_fexp prec emax m2 e1 loc_Exact) as [r2 e2]. cbn [fst snd] in B1, B2.
  set (d2 := Zdigits2 m2) in *.
  assert (D2 : d2 <= Zdigits2 (shr_m r1) + 1).
  { destruct R as [R|R]; unfold d2; rewrite R; [lia|now apply Zdigits2_succ]. }
  assert (D2' : Zdigits2 (shr_m r1) <= d2).
  { unfold d2. apply Zdigits2_le. lia. }
  assert (D2n : 0 <= d2) by apply Zdigits2_nonneg.
  assert (D1 : Zdigits2 (shr_m r1) <= 53).
  { destruct X as [[X _]|[_ [X _]]]; [rewrite X; cbn; lia|]. rewrite X. unfold n1, f, M. lia. }
  assert (E1 : e1 = Z.max e f) by (unfold n1 in A2; lia).
  assert (E1' : -1074 <= e1) by (unfold f in E1; lia).
  set (n2 := Z.max (Z.max (d2 + e1 - 53) (-1074) - e1) 0) in *.
  assert (N2 : (n2 = 0 /\ d2 <= 53) \/ (n2 = 1 /\ d2 = 54)) by (unfold n2; lia).
  destruct (shr_m r2) as [|p|p] eqn:S2.
  - now left.
  - right. exists p, e2. split; [reflexivity|].
    assert (M2 : 0 < m2).
    { destruct (Z.eq_dec m2 0) as [Z|Z]; [|lia].
      rewrite Z in B1. rewrite Z.div_0_l in B1 by (apply Z.pow_nonzero; lia).
      discriminate B1. }
    destruct N2 as [[N2 L2]|[N2 L2]]; rewrite N2 in B1, B2.
    + (* no second shift *)
      rewrite Z.pow_0_r, Z.div_1_r in B1.
      assert (P2 : Zdigits2 (Z.pos p) = d2) by (unfold d2; now rewrite <- B1).
      rewrite P2. split; [lia|]. split.
      * destruct X as [[X [Xm|[Xm Xd]]]|[X1 [X2 X3]]].
        -- rewrite X in D2. cbn in D2. subst m. unfold M, d in *. cbn in *. lia.
        -- rewrite X in D2. cbn in D2. unfold n1, f, M in *. lia.
        -- unfold M, n1 in *. lia.
      * intros Pre. unfold canonical_mantissa.
        change (Z.pos (digits2_pos p)) with (Zdigits2 (Z.pos p)).
        rewrite P2, fexp_eq. apply Z.eqb_eq.
        destruct (Z.eq_dec f (-1074)) as [F|F]; [lia|].
        destruct X as [[X [Xm|[Xm Xd]]]|[X1 [X2 X3]]].
        -- subst m. unfold f, M, d in *. cbn in *. lia.
        -- unfold n1, f, M in *. lia.
        -- unfold n1, f, M in *. lia.
    + (* the mantissa was rounded up to a power of two *)
      rewrite Z.pow_1_r in B1.
      destruct (div_pow2_digits m2 1) as [P _]; [lia|lia|].
      rewrite Z.pow_1_r in P. fold d2 in P. destruct P as [_ P]; [lia|].
      rewrite <- B1 in P.
      rewrite P. split; [lia|]. split.
      * destruct X as [[X _]|[X1 [X2 X3]]].
        -- rewrite X in D2. cbn in D2. lia.
        -- unfold M, n1 in *. lia.
      * intros Pre. unfold canonical_mantissa.
        change (Z.pos (digits2_pos p)) with (Zdigits2 (Z.pos p)).
        rewrite P, fexp_eq. apply Z.eqb_eq. lia.
  - exfalso. assert (0 <= m2 / 2 ^ n2); [|lia].
    apply Z.div_pos; [exact R0|]. apply Z.pow_pos_nonneg; lia.
Qed.

(** ** Numbers of bounded magnitude *)

Lemma bounded_by_le B B' x : B <= B' -> bounded_by B x -> bounded_by B' x.
Proof. destruct x; cbn; auto. lia. Qed.

Lemma valid_exponent s m e :
  valid_binary (S754_finite s m e) = true ->
  e = Z.max (Zdigits2 (Zpos m) + e - 53) (-1074) /\ e <= 971.
Proof.
  cbn [valid_binary]. unfold bounded, canonical_mantissa.
  rewrite andb_true_iff, Z.eqb_eq, Z.leb_le, fexp_eq.
  change (Z.pos (digits2_pos m)) with (Zdigits2 (Z.pos m)).
  change (emax - prec) with 971. lia.
Qed.

Lemma binary_round_aux_bound s m e l B :
  0 <= m -> e <= 970 -> Zdigits2 m + e < B -> -1074 < B -> B <= 1024 ->
  bounded_by B (binary_round_aux prec emax s m e l) /\
  (e <= Z.max (Zdigits2 m + e - 53) (-1074) ->
   valid_binary (binary_round_aux prec emax s m e l) = true).
Proof.
  intros H E M B0 B1.
  pose proof (binary_round_aux_cases s m e l H) as K. cbv zeta in K.
  destruct K as [->|(m3 & e3 & -> & E3 & M3 & C)];
    [split; [exact I|reflexivity]|].
  change (emax - prec) with 971.
  destruct (Z.leb_spec e3 971) as [L|L]; [|exfalso; lia].
  split; [cbn [bounded_by]; lia|]. intros Pre. cbn [valid_binary]. unfold bounded.
  rewrite (C Pre). change (emax - prec) with 971. cbn [andb]. now apply Z.leb_le.
Qed.

(** ** Division *)

Lemma SFdiv_core_bounds m1 e1 m2 e2 :
  0 < m1 -> 0 < m2 ->
  let M0 := Zdigits2 m1 + e1 - (Zdigits2 m2 + e2) in
  let q := fst (fst (SFdiv_core_binary prec emax m1 e1 m2 e2)) in
  let e' := snd (fst (SFdiv_core_binary prec emax m1 e1 m2 e2)) in
  0 <= q /\ e' <= e1 - e2 /\ e' <= Z.max (M0 - 53) (-1074) /\
  Zdigits2 q + e' <= Z.max (M0 + 1) (-1074) /\
  e' <= Z.max (Zdigits2 q + e' - 53) (-1074).
Proof.
  intros P1 P2. cbv zeta. unfold SFdiv_core_binary. rewrite fexp_eq.
  set (d1 := Zdigits2 m1). set (d2 := Zdigits2 m2).
  set (M0 := d1 + e1 - (d2 + e2)).
  set (e' := Z.min (Z.max (M0 - 53) (-1074)) (e1 - e2)).
  set (s := e1 - e2 - e').
  assert (S0 : 0 <= s) by (unfold s, e'; lia).
  set (m' := match s with Z.pos _ => Z.shiftl m1 s | Z0 => m1 | Z.neg _ => 0 end).
  assert (Em : m' = m1 * 2 ^ s).
  { unfold m'. destruct s as [|p|p] eqn:Es; [cbn; lia| |lia].
    now rewrite Z.shiftl_mul_pow2 by lia. }
  assert (P : 0 < 2 ^ s) by (apply Z.pow_pos_nonneg; lia).
  assert (Pm : 0 < m') by (rewrite Em; lia).
  pose proof (Zdigits2_bounds m1 P1) as [L1 U1]. fold d1 in L1, U1.
  pose proof (Zdigits2_bounds m2 P2) as [L2 U2]. fold d2 in L2, U2.
  assert (D1 : 1 <= d1).
  { unfold d1. destruct m1; cbn; lia. }
  assert (D2 : 1 <= d2).
  { unfold d2. destruct m2; cbn; lia. }
  assert (Lm : 2 ^ (d1 + s - 1) <= m').
  { rewrite Em. replace (d1 + s - 1) with (d1 - 1 + s) by lia.
    rewrite Z.pow_add_r by lia. apply Z.mul_le_mono_nonneg_r; lia. }
  assert (Um : m' < 2 ^ (d1 + s)).
  { rewrite Em. rewrite Z.pow_add_r by lia. apply Z.mul_lt_mono_pos_r; lia. }
  pose proof (Z.div_eucl_eq m' m2 ltac:(lia)) as Q.
  pose proof (Z.mod_pos_bound m' m2 P2) as Rb. unfold Z.modulo in Rb.
  destruct (Z.div_eucl m' m2) as [q r]. cbn [fst snd].
  assert (Q0 : 0 <= q) by nia.
  split; [exact Q0|]. split; [unfold e'; lia|]. split; [unfold e'; lia|].
  destruct (Z.eq_dec q 0) as [->|Qn].
  - (* the quotient is below one unit *)
    assert (d1 + s <= d2).
    { destruct (Z_lt_le_dec d2 (d1 + s)) as [G|G]; [|exact G]. exfalso.
      assert (2 ^ d2 <= 2 ^ (d1 + s - 1)) by (apply Z.pow_le_mono_r; lia). lia. }
    cbn [Zdigits2]. unfold e', s, M0 in *. lia.
  - assert (Qp : 0 < q) by lia.
    assert (Uq : Zdigits2 q <= Z.max (d1 + s - d2 + 1) 1).
    { apply Zdigits2_lt_pow; [lia|lia|].
      destruct (Z_lt_le_dec (d1 + s - d2 + 1) 1) as [G|G].
      - replace (Z.max (d1 + s - d2 + 1) 1) with 1 by lia.
        assert (2 ^ (d1 + s) <= 2 ^ d2) by (apply Z.pow_le_mono_r; lia).
        change (2 ^ 1) with 2.
        assert (m' < 2 * m2).
        { assert (2 ^ d2 = 2 * 2 ^ (d2 - 1)).
          { replace d2 with (1 + (d2 - 1)) at 1 by lia.
            rewrite Z.pow_add_r by lia. reflexivity. }
          lia. }
        nia.
      - replace (Z.max (d1 + s - d2 + 1) 1) with (d1 + s - d2 + 1) by lia.
        assert (E2 : 2 ^ (d1 + s) = 2 ^ (d1 + s - d2 + 1) * 2 ^ (d2 - 1)).
        { rewrite <- Z.pow_add_r by lia. f_equal. lia. }
        assert (0 < 2 ^ (d1 + s - d2 + 1)) by (apply Z.pow_pos_nonneg; lia).
        nia. }
    assert (Lq : d1 + s - d2 <= Zdigits2 q).
    { pose proof (Zdigits2_bounds q Qp) as [_ Uq'].
      pose proof (Zdigits2_nonneg q).
      destruct (Z_lt_le_dec (Zdigits2 q) (d1 + s - d2)) as [G|G]; [|exact G].
      exfalso.
      assert (A : 2 ^ (Zdigits2 q) * 2 ^ d2 <= 2 ^ (d1 + s - 1)).
      { rewrite <- Z.pow_add_r by lia. apply Z.pow_le_mono_r; lia. }
      assert (q + 1 <= 2 ^ Zdigits2 q) by lia.
      assert ((q + 1) * m2 <= 2 ^ Zdigits2 q * 2 ^ d2).
      { apply Z.mul_le_mono_nonneg; lia. }
      nia. }
    assert (Gq : d2 <= d1 + s).
    { destruct (Z_lt_le_dec (d1 + s) d2) as [G|G]; [|exact G]. exfalso.
      assert (2 ^ (d1 + s) <= 2 ^ (d2 - 1)) by (apply Z.pow_le_mono_r; lia).
      nia. }
    unfold e', s, M0 in *. lia.
Qed.

Lemma SFdiv_finite_bound sx mx ex sy my ey B :
  Zdigits2 (Zpos mx) + ex - (Zdigits2 (Zpos my) + ey) + 1 < B ->
  -1074 < B -> B <= 1024 ->
  bounded_by B (SFdiv prec emax (S754_finite sx mx ex) (S754_finite sy my ey)) /\
  valid_binary (SFdiv prec emax (S754_finite sx mx ex) (S754_finite sy my ey)) = true.
Proof.
  intros M B0 B1. cbn [SFdiv].
  pose proof (SFdiv_core_bounds (Zpos mx) ex (Zpos my) ey ltac:(lia) ltac:(lia)) as K.
  cbv zeta in K.
  destruct (SFdiv_core_binary prec emax (Z.pos mx) ex (Z.pos my) ey) as [[q e'] l].
  cbn [fst snd] in K. destruct K as (Q0 & _ & E1 & M1 & Pre).
  destruct (binary_round_aux_bound (xorb sx sy) q e' l B) as [A V]; try lia.
  split; [exact A|]. apply V. exact Pre.
Qed.

(** The quotient of two [int]s is a binary64 number, and of the magnitude
    of the quotient. *)
Lemma div_int_bound a b B :
  b <> 0 -> Zdigits2 a - Zdigits2 b + 1 < B -> -1074 < B -> B <= 1024 ->
  bounded_by B (div_int a b) /\ valid_binary (div_int a b) = true.
Proof.
  intros Nb M B0 B1. unfold div_int.
  destruct b as [|pb|pb]; [contradiction| |];
    destruct a as [|pa|pa]; cbn [sf_of_int];
    try (split; [exact I|reflexivity]);
    apply SFdiv_finite_bound; cbn [Zdigits2] in *; lia.
Qed.

Lemma truediv_bound a b B :
  b <> 0 -> Zdigits2 a - Zdigits2 b + 1 < B -> -1074 < B -> B <= 1024 ->
  exists q, truediv a b = Return q /\ bounded_by B (Prim2SF q).
Proof.
  intros Nb M B0 B1. unfold truediv.
  destruct (Z.eqb_spec b 0); [contradiction|].
  destruct (div_int_bound a b B Nb M B0 B1) as [A V].
  eexists. split; [reflexivity|]. now rewrite Prim2SF_SF2Prim.
Qed.

Lemma Zdigits2_mul a b :
  0 < a -> 0 < b -> Zdigits2 (a * b) <= Zdigits2 a + Zdigits2 b.
Proof.
  intros A B. rewrite !Zdigits2_log2 by lia.
  pose proof (Z.log2_mul_above a b). lia.
Qed.

(** ** The two float operations of a percentage *)

Lemma mul_100_bound x A :
  bounded_by A (Prim2SF x) -> A + 8 <= 1024 ->
  bounded_by (Z.max (A + 8) (-1073)) (Prim2SF (x * 100)%float).
Proof.
  intros H L. rewrite mul_spec.
  change (Prim2SF 100) with (S754_finite false 7036874417766400 (-46)).
  pose proof (Prim2SF_valid x) as V.
  destruct (Prim2SF x) as [s|s| |s m e]; cbn [bounded_by] in H; try contradiction.
  - exact I.
  - apply valid_exponent in V. destruct V as [V1 V2].
    unfold SF64mul. cbn [SFmul].
    apply binary_round_aux_bound; try lia.
    change (Z.pos (m * 7036874417766400)) with (Z.pos m * 7036874417766400).
    pose proof (Zdigits2_mul (Z.pos m) 7036874417766400 ltac:(lia) ltac:(lia)) as D.
    change (Zdigits2 7036874417766400) with 53 in D. lia.
Qed.

Lemma div_2_bound x A :
  bounded_by A (Prim2SF x) -> A <= 1024 ->
  bounded_by (Z.max A (-1073)) (Prim2SF (x / 2)%float).
Proof.
  intros H L. rewrite div_spec.
  change (Prim2SF 2) with (S754_finite false 4503599627370496 (-51)).
  destruct (Prim2SF x) as [s|s| |s m e]; cbn [bounded_by] in H; try contradiction.
  - exact I.
  - unfold SF64div. apply SFdiv_finite_bound; try lia.
    change (Zdigits2 4503599627370496) with 53. lia.
Qed.


Lemma int_of_float_bounded x B :
  bounded_by B (Prim2SF x) -> exists n, int_of_float x = Return n.
Proof.
  unfold int_of_float. destruct (Prim2SF x); cbn [bounded_by]; try contradiction; eauto.
Qed.

End FloatRangeFacts.


(* ================================================================== *)
(** * Facts about the order of binary64 numbers *)
(* ================================================================== *)

Module FloatOrderFacts.

Import FloatOrder.

Open Scope Z_scope.

Lemma SFcompare_rank x y : SFcompare x y = cmp_rank x y.
Proof.
  unfold cmp_rank.
  destruct x as [[|]|[|]| |[|] m1 e1], y as [[|]|[|]| |[|] m2 e2];
    try reflexivity; cbn [SFcompare rank lex].
  rewrite Z.compare_opp, (Z.compare_antisym e1 e2).
  cbn [Z.compare]. change (Pos.compare_cont Eq m1 m2) with (Pos.compare m1 m2).
  destruct (e1 ?= e2); reflexivity.
Qed.

Lemma lex_Lt a b : lex a b = Lt <-> lex_lt a b.
Proof.
  destruct a as [[a1 a2] a3], b as [[b1 b2] b3]; unfold lex, lex_lt.
  destruct (Z.compare_spec a1 b1); [destruct (Z.compare_spec a2 b2);
    [destruct (Z.compare_spec a3 b3)|..]|..];
    split; intros; try discriminate; try reflexivity; lia.
Qed.

Lemma lex_Eq a b : lex a b = Eq <-> a = b.
Proof.
  destruct a as [[a1 a2] a3], b as [[b1 b2] b3]; unfold lex.
  destruct (Z.compare_spec a1 b1); [destruct (Z.compare_spec a2 b2);
    [destruct (Z.compare_spec a3 b3)|..]|..];
    split; intros E; try discriminate; try reflexivity;
    try (inversion E; lia); subst; reflexivity.
Qed.

Lemma lex_Gt a b : lex a b = Gt <-> lex_lt b a.
Proof.
  destruct a as [[a1 a2] a3], b as [[b1 b2] b3]; unfold lex, lex_lt.
  destruct (Z.compare_spec a1 b1); [destruct (Z.compare_spec a2 b2);
    [destruct (Z.compare_spec a3 b3)|..]|..];
    split; intros; try discriminate; try reflexivity; lia.
Qed.

Lemma lex_lt_trans a b c : lex_lt a b -> lex_lt b c -> lex_lt a c.
Proof.
  destruct a as [[a1 a2] a3], b as [[b1 b2] b3], c as [[c1 c2] c3].
  unfold lex_lt. lia.
Qed.

Lemma lex_lt_irrefl a : ~ lex_lt a a.
Proof. destruct a as [[a1 a2] a3]. unfold lex_lt. lia. Qed.

Lemma lex_lt_total a b : lex_lt a b \/ a = b \/ lex_lt b a.
Proof.
  destruct (lex a b) eqn:E.
  - right; left; now apply lex_Eq.
  - left; now apply lex_Lt.
  - right; right; now apply lex_Gt.
Qed.

Open Scope float_scope.

Lemma ltb_frank x y :
  (x <? y) = true <-> exists a b, frank x = Some a /\ frank y = Some b /\ lex_lt a b.
Proof.
  rewrite ltb_spec. unfold SFltb, frank. rewrite SFcompare_rank. unfold cmp_rank.
  destruct (rank (Prim2SF x)) as [a|], (rank (Prim2SF y)) as [b|];
    try (split; [discriminate | intros (? & ? & ? & ? & ?); discriminate]).
  destruct (lex a b) eqn:E; split; try discriminate; try reflexivity.
  - intros (a' & b' & Ha & Hb & L). inversion Ha; inversion Hb; subst.
    apply lex_Eq in E. subst. now apply lex_lt_irrefl in L.
  - intros _. exists a, b. repeat split. now apply lex_Lt.
  - intros (a' & b' & Ha & Hb & L). inversion Ha; inversion Hb; subst.
    apply lex_Gt in E. exfalso. apply (lex_lt_irrefl a'). eapply lex_lt_trans; eauto.
Qed.

Lemma leb_frank x y :
  (x <=? y) = true <->
  exists a b, frank x = Some a /\ frank y = Some b /\ (lex_lt a b \/ a = b).
Proof.
  rewrite leb_spec. unfold SFleb, frank. rewrite SFcompare_rank. unfold cmp_rank.
  destruct (rank (Prim2SF x)) as [a|], (rank (Prim2SF y)) as [b|];
    try (split; [discriminate | intros (? & ? & ? & ? & ?); discriminate]).
  destruct (lex a b) eqn:E; split; try discriminate; try reflexivity.
  - intros _. exists a, b. repeat split. right. now apply lex_Eq.
  - intros _. exists a, b. repeat split. left. now apply lex_Lt.
  - intros (a' & b' & Ha & Hb & L). inversion Ha; inversion Hb; subst.
    apply lex_Gt in E. exfalso. destruct L as [L | ->].
    + apply (lex_lt_irrefl a'). eapply lex_lt_trans; eauto.
    + now apply lex_lt_irrefl in E.
Qed.

Lemma is_nan_frank x : is_nan x = true <-> frank x = None.
Proof.
  unfold is_nan. rewrite eqb_spec. unfold SFeqb, frank.
  rewrite SFcompare_rank. unfold cmp_rank.
  destruct (rank (Prim2SF x)) as [a|].
  - replace (lex a a) with Eq by (symmetry; now apply lex_Eq).
    split; discriminate.
  - split; reflexivity.
Qed.

Lemma not_nan_frank x : is_nan x = false -> exists a, frank x = Some a.
Proof.
  intros H. destruct (frank x) as [a|] eqn:E; [now exists a|].
  apply is_nan_frank in E. congruence.
Qed.

(** [x <= y] excludes [y < x]. *)
Lemma leb_not_gt x y : (x <=? y) = true -> (y <? x) = false.
Proof.
  intros H. apply leb_frank in H. destruct H as (a & b & Ha & Hb & L).
  apply not_true_is_false. intros G. apply ltb_frank in G.
  destruct G as (b' & a' & Hb' & Ha' & G).
  rewrite Ha in Ha'. rewrite Hb in Hb'. inversion Ha'; inversion Hb'; subst.
  destruct L as [L | ->].
  - apply (lex_lt_irrefl a'). eapply lex_lt_trans; eauto.
  - now apply lex_lt_irrefl in G.
Qed.

Lemma ltb_leb x y : (x <? y) = true -> (x <=? y) = true.
Proof.
  intros H. apply ltb_frank in H. destruct H as (a & b & Ha & Hb & L).
  apply leb_frank. exists a, b. auto.
Qed.

Lemma ltb_leb_trans x y z : (x <? y) = true -> (y <=? z) = true -> (x <? z) = true.
Proof.
  intros H G. apply ltb_frank in H. apply leb_frank in G.
  destruct H as (a & b & Ha & Hb & L), G as (b' & c & Hb' & Hc & G).
  rewrite Hb in Hb'. inversion Hb'; subst.
  apply ltb_frank. exists a, c. repeat split; auto.
  destruct G as [G | ->]; auto. eapply lex_lt_trans; eauto.
Qed.

Lemma leb_ltb_trans x y z : (x <=? y) = true -> (y <? z) = true -> (x <? z) = true.
Proof.
  intros H G. apply leb_frank in H. apply ltb_frank in G.
  destruct H as (a & b & Ha & Hb & L), G as (b' & c & Hb' & Hc & G).
  rewrite Hb in Hb'. inversion Hb'; subst.
  apply ltb_frank. exists a, c. repeat split; auto.
  destruct L as [L | ->]; auto. eapply lex_lt_trans; eauto.
Qed.

(** Two numbers are always comparable. *)
Lemma ltb_total x y :
  is_nan x = false -> is_nan y = false -> (x <? y) = false -> (y <=? x) = true.
Proof.
  intros Nx Ny H.
  destruct (not_nan_frank _ Nx) as (a & Ha), (not_nan_frank _ Ny) as (b & Hb).
  apply leb_frank. exists b, a. repeat split; auto.
  destruct (lex_lt_total a b) as [L | [-> | L]]; auto.
  assert ((x <? y) = true) by (apply ltb_frank; exists a, b; auto). congruence.
Qed.

Lemma ltb_not_nan x y : (x <? y) = true -> is_nan x = false /\ is_nan y = false.
Proof.
  intros H. apply ltb_frank in H. destruct H as (a & b & Ha & Hb & _).
  split; apply not_true_is_false; intros N; apply is_nan_frank in N; congruence.
Qed.

End FloatOrderFacts.

(* ================================================================== *)
(** * The emotion classifier *)
(* ================================================================== *)

Module EmotionFacts.

Import FloatOrder FloatOrderFacts EmotionDetection.
Open Scope string_scope.
Open Scope float_scope.

(** With two image dimensions and the three points in place the classifier
    is the threshold cascade on the mouth height. *)
Lemma analyze_emotion_points lm shape ml mr nt :
  (2 <= List.length shape)%nat ->
  nth_error lm 61 = Some ml -> nth_error lm 291 = Some mr ->
  nth_error lm 13 = Some nt ->
  analyze_emotion lm shape =
  let mouth_height := abs ((Landmark.y ml + Landmark.y mr) / 2 - Landmark.y nt) in
  Return (if mouth_height <? 0.02 then "Neutro"
          else if mouth_height <? 0.04 then "Feliz"
          else if mouth_height <? 0.06 then "Surpreso"
          else "Triste").
Proof.
  intros Hs H61 H291 H13. unfold analyze_emotion, getitem, slice_to.
  destruct shape as [|h [|w rest]]; cbn [List.length] in Hs; try lia.
  cbn [firstn unpack2 bind]. rewrite H61, H291, H13. cbn [bind].
  cbv zeta.
  repeat match goal with |- context [if ?c then _ else _] => destruct c end;
    reflexivity.
Qed.

Lemma mesh_points ml mr nt :
  nth_error (mesh ml mr nt) 61 = Some ml /\
  nth_error (mesh ml mr nt) 291 = Some mr /\
  nth_error (mesh ml mr nt) 13 = Some nt.
Proof. repeat split. Qed.

(** C1. For every face mesh holding the two mouth corners and the nose tip
    (and an image shape of two dimensions or more),
    [mouth_height = |avg(left.y, right.y) - nose.y|] decides the label:
    Neutro below 0.02, Feliz in [0.02, 0.04), Surpreso in [0.04, 0.06),
    Triste in every other case; a height of exactly 0.02 gives Feliz, exactly
    0.04 Surpreso and exactly 0.06 Triste. *)
Theorem analyze_emotion_bands lm shape ml mr nt :
  (2 <= List.length shape)%nat ->
  nth_error lm 61 = Some ml -> nth_error lm 291 = Some mr ->
  nth_error lm 13 = Some nt ->
  let mouth_height := abs ((Landmark.y ml + Landmark.y mr) / 2 - Landmark.y nt) in
  let neutral := (mouth_height <? 0.02) = true in
  let happy := (0.02 <=? mouth_height) = true /\ (mouth_height <? 0.04) = true in
  let surprised := (0.04 <=? mouth_height) = true /\ (mouth_height <? 0.06) = true in
  (neutral -> analyze_emotion lm shape = Return "Neutro") /\
  (happy -> analyze_emotion lm shape = Return "Feliz") /\
  (surprised -> analyze_emotion lm shape = Return "Surpreso") /\
  (~ neutral -> ~ happy -> ~ surprised ->
   analyze_emotion lm shape = Return "Triste") /\
  (mouth_height = 0.02 -> analyze_emotion lm shape = Return "Feliz") /\
  (mouth_height = 0.04 -> analyze_emotion lm shape = Return "Surpreso") /\
  (mouth_height = 0.06 -> analyze_emotion lm shape = Return "Triste").
Proof.
  intros Hs H61 H291 H13 mh neutral happy surprised.
  rewrite (analyze_emotion_points lm shape ml mr nt Hs H61 H291 H13).
  cbv zeta. fold mh. subst neutral happy surprised.
  assert (N2 : is_nan 0.02 = false) by reflexivity.
  assert (N4 : is_nan 0.04 = false) by reflexivity.
  repeat split.
  - intros ->. reflexivity.
  - intros [L U]. rewrite (leb_not_gt _ _ L), U. reflexivity.
  - intros [L U].
    assert (L2 : (0.02 <=? mh) = true).
    { apply ltb_leb. eapply ltb_leb_trans; [|exact L]. reflexivity. }
    assert (L4 : (mh <? 0.04) = false) by now apply leb_not_gt.
    rewrite (leb_not_gt _ _ L2), L4, U. reflexivity.
  - intros Hn Hh Hs'.
    destruct (mh <? 0.02) eqn:E2; [now elim Hn|].
    destruct (mh <? 0.04) eqn:E4.
    { elim Hh. split; auto. apply ltb_total; auto.
      now apply ltb_not_nan in E4. }
    destruct (mh <? 0.06) eqn:E6; [|reflexivity].
    elim Hs'. split; auto. apply ltb_total; auto.
    now apply ltb_not_nan in E6.
  - intros ->. reflexivity.
  - intros ->. reflexivity.
  - intros ->. reflexivity.
Qed.

(** The bands of C1 at a mesh whose mouth height is exactly 0.02. *)
Lemma analyze_emotion_bands_witness :
  analyze_emotion
    (mesh (Landmark.at_y 0.02) (Landmark.at_y 0.02) (Landmark.at_y 0))
    [480; 640; 3]%Z = Return "Feliz".
Proof.
  refine (proj1 (proj2 (proj2 (proj2 (proj2
    (analyze_emotion_bands
       (mesh (Landmark.at_y 0.02) (Landmark.at_y 0.02) (Landmark.at_y 0))
       [480; 640; 3]%Z
       (Landmark.at_y 0.02) (Landmark.at_y 0.02) (Landmark.at_y 0)
       _ _ _ _))))) _).
  - cbn [List.length]. lia.
  - reflexivity.
  - reflexivity.
  - reflexivity.
  - reflexivity.
Defined.

(** C2, as the code has it.  The classifier has no null result: with the
    image dimensions in place it raises [IndexError] exactly when one of the
    three points is missing, and returns one of the four labels otherwise;
    [process_frame] calls it only for a detected face mesh and classifies
    nothing when there is none. *)
Theorem analyze_emotion_missing_point lm shape :
  (2 <= List.length shape)%nat ->
  (missing_point lm -> analyze_emotion lm shape = Raise IndexError) /\
  (~ missing_point lm ->
   exists label, analyze_emotion lm shape = Return label /\
                 In label ["Neutro"; "Feliz"; "Surpreso"; "Triste"]) /\
  process_frame_emotions None shape = Return [] /\
  process_frame_emotions (Some []) shape = Return [].
Proof.
  intros Hs. repeat split.
  - intros M. unfold analyze_emotion, getitem, slice_to.
    destruct shape as [|h [|w rest]]; cbn [List.length] in Hs; try lia.
    cbn [firstn unpack2 bind].
    destruct (nth_error lm 61) as [ml|] eqn:H61; [|reflexivity].
    destruct (nth_error lm 291) as [mr|] eqn:H291; [|reflexivity].
    destruct (nth_error lm 13) as [nt|] eqn:H13; [|reflexivity].
    destruct M as [M | [M | M]]; congruence.
  - intros M. unfold missing_point in M.
    destruct (nth_error lm 61) as [ml|] eqn:H61; [|tauto].
    destruct (nth_error lm 291) as [mr|] eqn:H291; [|tauto].
    destruct (nth_error lm 13) as [nt|] eqn:H13; [|tauto].
    rewrite (analyze_emotion_points lm shape ml mr nt Hs H61 H291 H13).
    cbv zeta.
    repeat match goal with |- context [if ?c then _ else _] => destruct c end;
      eexists; (split; [reflexivity|]); cbn; tauto.
Qed.

Lemma analyze_emotion_missing_point_witness :
  analyze_emotion [] [480; 640; 3]%Z = Raise IndexError.
Proof.
  refine (proj1 (analyze_emotion_missing_point [] [480; 640; 3]%Z _) _).
  - cbn [List.length]. lia.
  - left. reflexivity.
Defined.

(** C2 as stated fails: on a face mesh without the three points the
    classifier raises instead of returning. *)
Lemma analyze_emotion_raises :
  missing_point [] /\
  raises (analyze_emotion [] [480; 640; 3]%Z) /\
  forall v, analyze_emotion [] [480; 640; 3]%Z <> Return v.
Proof.
  split; [left; reflexivity|]. split.
  - exists IndexError. reflexivity.
  - intros v. discriminate.
Qed.

End EmotionFacts.

(* ================================================================== *)
(** * The activity classifier *)
(* ================================================================== *)

Module ActivityFacts.

Import FloatOrder FloatOrderFacts ActivityRecognition.
Open Scope string_scope.
Open Scope float_scope.

(** With two image dimensions and the seven points in place the classifier
    is the decision below. *)
Lemma analyze_activity_points lm shape p :
  (2 <= List.length shape)%nat -> has_points lm p ->
  analyze_activity lm shape =
  Return
    (if (Landmark.y (left_wrist p) <? shoulder_y p - 0.1)
        || (Landmark.y (right_wrist p) <? shoulder_y p - 0.1)
     then if (Landmark.y (left_wrist p) <? Landmark.y (nose p))
             || (Landmark.y (right_wrist p) <? Landmark.y (nose p))
          then "waving" else "raising_hand"
     else if torso_length p <? 0.2 then "sitting"
     else if 0.25 <? torso_length p then "standing"
     else "unknown").
Proof.
  intros Hs (H0 & H11 & H12 & H23 & H24 & H15 & H16).
  unfold analyze_activity, getitem, slice_to.
  destruct shape as [|h [|w rest]]; cbn [List.length] in Hs; try lia.
  cbn [firstn unpack2 bind].
  rewrite H0, H11, H12, H23, H24, H15, H16. cbn [bind]. cbv zeta.
  fold (shoulder_y p). fold (torso_length p).
  repeat match goal with |- context [if ?c then _ else _] => destruct c end;
    reflexivity.
Qed.

Lemma pose_has_points p : has_points (pose p) p.
Proof. repeat split. Qed.

(** Of two wrists, one below the line [s] and not below [n], the other
    cannot be below [n] without being below [s]. *)
Lemma raised_not_above l r n s :
  (l <? s) = true \/ (r <? s) = true ->
  ~ (((l <? s) = true /\ (l <? n) = true) \/ ((r <? s) = true /\ (r <? n) = true)) ->
  (l <? n) = false /\ (r <? n) = false.
Proof.
  intros R A.
  assert (K : forall a b, (a <? s) = true -> (a <? n) = false ->
                          (b <? s) = false -> (b <? n) = true -> False).
  { intros a b As An Bs Bn.
    assert (S1 : (s <=? b) = true).
    { apply ltb_total; auto; [now apply ltb_not_nan in Bn|now apply ltb_not_nan in As]. }
    assert (C : (a <? n) = true).
    { eapply ltb_leb_trans; [exact As|]. apply ltb_leb.
      eapply leb_ltb_trans; eauto. }
    congruence. }
  assert (A1 : (l <? s) = true -> (l <? n) = false).
  { intros H. apply not_true_is_false. intros G. apply A. left. auto. }
  assert (A2 : (r <? s) = true -> (r <? n) = false).
  { intros H. apply not_true_is_false. intros G. apply A. right. auto. }
  clear A. destruct R as [R | R].
  - split; [auto|]. apply not_true_is_false. intros G.
    destruct (r <? s) eqn:Rs.
    + rewrite A2 in G by reflexivity. discriminate.
    + eapply (K l r); eauto.
  - split; [|auto]. apply not_true_is_false. intros G.
    destruct (l <? s) eqn:Ls.
    + rewrite A1 in G by reflexivity. discriminate.
    + eapply (K r l); eauto.
Qed.

(** C3. For every pose holding the seven points (and an image shape of
    two dimensions or more): when a wrist is raised above the shoulder line
    by the margin, the result is waving if a raised wrist is also above the
    nose and raising_hand otherwise, whatever the hips are: the torso rule
    is not consulted. *)
Theorem analyze_activity_raised_wrist lm shape p :
  (2 <= List.length shape)%nat -> has_points lm p ->
  raised p (left_wrist p) \/ raised p (right_wrist p) ->
  let raised_above_nose :=
    (raised p (left_wrist p) /\ above_nose p (left_wrist p)) \/
    (raised p (right_wrist p) /\ above_nose p (right_wrist p)) in
  (raised_above_nose -> analyze_activity lm shape = Return "waving") /\
  (~ raised_above_nose -> analyze_activity lm shape = Return "raising_hand") /\
  (forall lm' hip_l hip_r,
     has_points lm' (mk_pose (nose p) (left_shoulder p) (right_shoulder p)
                       hip_l hip_r (left_wrist p) (right_wrist p)) ->
     analyze_activity lm' shape = analyze_activity lm shape).
Proof.
  intros Hs Hp R ran.
  assert (Ror : (Landmark.y (left_wrist p) <? shoulder_y p - 0.1)
                || (Landmark.y (right_wrist p) <? shoulder_y p - 0.1) = true).
  { apply orb_true_iff. exact R. }
  repeat split.
  - intros A. rewrite (analyze_activity_points lm shape p Hs Hp), Ror.
    replace ((Landmark.y (left_wrist p) <? Landmark.y (nose p))
             || (Landmark.y (right_wrist p) <? Landmark.y (nose p))) with true;
      [reflexivity|].
    symmetry. apply orb_true_iff. unfold ran, above_nose in A. tauto.
  - intros A. rewrite (analyze_activity_points lm shape p Hs Hp), Ror.
    replace ((Landmark.y (left_wrist p) <? Landmark.y (nose p))
             || (Landmark.y (right_wrist p) <? Landmark.y (nose p))) with false;
      [reflexivity|].
    symmetry. apply orb_false_iff.
    apply (raised_not_above _ _ _ (shoulder_y p - 0.1)); [exact R | exact A].
  - intros lm' hl hr Hp'.
    rewrite (analyze_activity_points lm shape p Hs Hp).
    rewrite (analyze_activity_points lm' shape _ Hs Hp').
    unfold shoulder_y in *. cbn [left_shoulder right_shoulder left_wrist right_wrist nose].
    rewrite Ror. reflexivity.
Qed.

Lemma analyze_activity_raised_wrist_witness :
  analyze_activity
    (pose (mk_pose (Landmark.at_y 0.2) (Landmark.at_y 0.4) (Landmark.at_y 0.4)
             (Landmark.at_y 0.7) (Landmark.at_y 0.7)
             (Landmark.at_y 0.1) (Landmark.at_y 0.6)))
    [480; 640; 3]%Z = Return "waving".
Proof.
  refine (proj1
    (analyze_activity_raised_wrist
       (pose (mk_pose (Landmark.at_y 0.2) (Landmark.at_y 0.4) (Landmark.at_y 0.4)
                (Landmark.at_y 0.7) (Landmark.at_y 0.7)
                (Landmark.at_y 0.1) (Landmark.at_y 0.6)))
       [480; 640; 3]%Z
       (mk_pose (Landmark.at_y 0.2) (Landmark.at_y 0.4) (Landmark.at_y 0.4)
          (Landmark.at_y 0.7) (Landmark.at_y 0.7)
          (Landmark.at_y 0.1) (Landmark.at_y 0.6))
       _ _ _) _).
  - cbn [List.length]. lia.
  - repeat split.
  - left. reflexivity.
  - left. split; reflexivity.
Defined.

(** C4. For every pose holding the seven points (and an image shape of
    two dimensions or more): when neither wrist is raised, the torso length
    [|shoulder_y - avg(left_hip.y, right_hip.y)|] decides: sitting below
    0.2, standing above 0.25, unknown on the whole closed interval
    [0.2, 0.25], both endpoints included. *)
Theorem analyze_activity_torso lm shape p :
  (2 <= List.length shape)%nat -> has_points lm p ->
  ~ raised p (left_wrist p) -> ~ raised p (right_wrist p) ->
  ((torso_length p <? 0.2) = true -> analyze_activity lm shape = Return "sitting") /\
  ((0.25 <? torso_length p) = true -> analyze_activity lm shape = Return "standing") /\
  ((0.2 <=? torso_length p) = true -> (torso_length p <=? 0.25) = true ->
   analyze_activity lm shape = Return "unknown") /\
  (torso_length p = 0.2 -> analyze_activity lm shape = Return "unknown") /\
  (torso_length p = 0.25 -> analyze_activity lm shape = Return "unknown").
Proof.
  intros Hs Hp Nl Nr.
  rewrite (analyze_activity_points lm shape p Hs Hp).
  unfold raised in Nl, Nr.
  apply not_true_is_false in Nl. apply not_true_is_false in Nr.
  rewrite Nl, Nr. cbn [orb].
  repeat split.
  - intros ->. reflexivity.
  - intros H.
    assert (L : (torso_length p <? 0.2) = false).
    { apply leb_not_gt. apply ltb_leb. eapply ltb_leb_trans; [|apply ltb_leb; exact H].
      reflexivity. }
    rewrite L, H. reflexivity.
  - intros L U. rewrite (leb_not_gt _ _ L), (leb_not_gt _ _ U). reflexivity.
  - intros ->. reflexivity.
  - intros ->. reflexivity.
Qed.

Lemma analyze_activity_torso_witness :
  analyze_activity
    (pose (mk_pose (Landmark.at_y 0.2) (Landmark.at_y 0.25) (Landmark.at_y 0.25)
             (Landmark.at_y 0.5) (Landmark.at_y 0.5)
             (Landmark.at_y 0.6) (Landmark.at_y 0.6)))
    [480; 640; 3]%Z = Return "unknown".
Proof.
  refine (proj2 (proj2 (proj2 (proj2
    (analyze_activity_torso
       (pose (mk_pose (Landmark.at_y 0.2) (Landmark.at_y 0.25) (Landmark.at_y 0.25)
                (Landmark.at_y 0.5) (Landmark.at_y 0.5)
                (Landmark.at_y 0.6) (Landmark.at_y 0.6)))
       [480; 640; 3]%Z
       (mk_pose (Landmark.at_y 0.2) (Landmark.at_y 0.25) (Landmark.at_y 0.25)
          (Landmark.at_y 0.5) (Landmark.at_y 0.5)
          (Landmark.at_y 0.6) (Landmark.at_y 0.6))
       _ _ _ _)))) _).
  - cbn [List.length]. lia.
  - repeat split.
  - unfold raised. vm_compute. discriminate.
  - unfold raised. vm_compute. discriminate.
  - vm_compute. reflexivity.
Defined.

End ActivityFacts.

(* ================================================================== *)
(** * The anomaly rules *)
(* ================================================================== *)

Module AnalyzerFacts.

Import Analyzer.
Open Scope string_scope.
Open Scope Z_scope.

Lemma unknown_activity_label_in fi :
  unknown_activity fi <->
  label_in (atividade fi) ["unknown"; "Desconhecido"] = true.
Proof.
  unfold unknown_activity, label_in. destruct (atividade fi) as [s|].
  - cbn [existsb]. rewrite orb_false_r, orb_true_iff, !String.eqb_eq.
    split; (intros [H|H]; [left|right]); congruence.
  - split; [intros [H|H]; discriminate | discriminate].
Qed.

(** The records of an unidentified activity among those of a frame. *)
Lemma filter_nao_identificada fi n :
  filter is_nao_identificada (detectar_anomalias fi n) =
  if label_in (atividade fi) ["unknown"; "Desconhecido"] && (n mod 100 =? 0)
  then [nao_identificada n] else [].
Proof.
  unfold detectar_anomalias.
  destruct (3 <? get_default (num_faces fi) 0);
    destruct (label_in (emocao fi) ["Triste"; "Raiva"]);
    destruct (label_in (atividade fi) ["unknown"; "Desconhecido"]);
    destruct (n mod 100 =? 0); reflexivity.
Qed.

(** A frame with an unknown activity and no other trigger. *)
Lemma detectar_anomalias_quiet fi n :
  unknown_activity fi -> no_other_anomaly fi ->
  detectar_anomalias fi n = if n mod 100 =? 0 then [nao_identificada n] else [].
Proof.
  intros U (F & E1 & E2). unfold detectar_anomalias.
  apply unknown_activity_label_in in U. rewrite U.
  replace (3 <? get_default (num_faces fi) 0) with false by (symmetry; apply Z.ltb_ge; exact F).
  replace (label_in (emocao fi) ["Triste"; "Raiva"]) with false.
  - destruct (n mod 100 =? 0); reflexivity.
  - symmetry. unfold label_in. destruct (emocao fi) as [s|]; [|reflexivity].
    cbn [existsb]. rewrite orb_false_r. apply orb_false_iff.
    split; apply String.eqb_neq; congruence.
Qed.

Lemma anomalias_do_video_ext f g frames :
  (forall i, In i frames -> detectar_anomalias (f i) i = g i) ->
  anomalias_do_video f frames = flat_map g frames.
Proof.
  intros H. unfold anomalias_do_video.
  induction frames as [|i rest IH]; [reflexivity|].
  cbn [flat_map]. rewrite H by (left; reflexivity).
  rewrite IH; [reflexivity|]. intros j Hj. apply H. right. exact Hj.
Qed.

(** C5. A frame yields a record of an unidentified activity exactly when
    its activity label is unknown and its number is a multiple of 100, and
    then it yields one; so the frames 1..250 of a run, all with an unknown
    activity and without any other trigger, yield exactly two records, at
    the frames 100 and 200. *)
Theorem detectar_anomalias_throttled :
  (forall fi n,
     unknown_activity fi /\ n mod 100 = 0 ->
     filter is_nao_identificada (detectar_anomalias fi n) = [nao_identificada n]) /\
  (forall fi n,
     ~ (unknown_activity fi /\ n mod 100 = 0) ->
     filter is_nao_identificada (detectar_anomalias fi n) = []) /\
  (forall frame_info_at,
     (forall i, unknown_activity (frame_info_at i) /\
                no_other_anomaly (frame_info_at i)) ->
     anomalias_do_video frame_info_at (frames_up_to 250)
     = [nao_identificada 100; nao_identificada 200]) /\
  anomalias_do_video
    (fun i => {| num_faces := Some (i mod 2); emocao := Some "Neutro";
                 atividade := Some "unknown" |})
    (frames_up_to 250)
  = [ {| tipo := "Atividade Não Identificada";
         descricao := "Não foi possível identificar a atividade";
         frame := 100 |};
      {| tipo := "Atividade Não Identificada";
         descricao := "Não foi possível identificar a atividade";
         frame := 200 |} ].
Proof.
  split; [|split; [|split; [|vm_compute; reflexivity]]].
  - intros fi n [U M]. rewrite filter_nao_identificada.
    apply unknown_activity_label_in in U. rewrite U.
    apply Z.eqb_eq in M. rewrite M. reflexivity.
  - intros fi n H. rewrite filter_nao_identificada.
    destruct (label_in (atividade fi) ["unknown"; "Desconhecido"]) eqn:U;
      [|reflexivity].
    destruct (n mod 100 =? 0) eqn:M; [|reflexivity].
    elim H. split; [now apply unknown_activity_label_in | now apply Z.eqb_eq].
  - intros f H.
    rewrite (anomalias_do_video_ext f
               (fun i => if i mod 100 =? 0 then [nao_identificada i] else [])).
    + vm_compute. reflexivity.
    + intros i _. destruct (H i) as [U Q]. now apply detectar_anomalias_quiet.
Qed.

End AnalyzerFacts.

(* ================================================================== *)
(** * Numbers printed with a fixed number of decimal places *)
(* ================================================================== *)

Module FormatFacts.

Import PyNum PyStr.
Open Scope string_scope.

Lemma append_assoc (a b c : string) : (a ++ b) ++ c = a ++ b ++ c.
Proof. induction a as [|ch a IH]; cbn; [reflexivity|now rewrite IH]. Qed.

Lemma decimal_places_prefix pre s d :
  decimal_places s d -> decimal_places (pre ++ s) d.
Proof.
  intros (whole & frac & -> & L). exists (pre ++ whole), frac.
  split; [now rewrite append_assoc|exact L].
Qed.

(** The last [d] digits, for [d] of one or two. *)
Lemma zero_pad_length d n :
  (d = 1 \/ d = 2)%nat -> (0 <= n < 10 ^ Z.of_nat d)%Z ->
  String.length (zero_pad d n) = d.
Proof.
  intros D B.
  assert (F : forall d', (d' = 1 \/ d' = 2)%nat ->
            forallb (fun i => Nat.eqb (String.length (zero_pad d' (Z.of_nat i))) d')
              (seq 0 (Z.to_nat (10 ^ Z.of_nat d'))) = true).
  { intros d' [-> | ->]; vm_compute; reflexivity. }
  specialize (F d D). rewrite forallb_forall in F.
  specialize (F (Z.to_nat n)). rewrite Z2Nat.id in F by lia.
  apply Nat.eqb_eq. apply F. apply in_seq. lia.
Qed.

(** A number printed by [format(x, '.df')], [d] one or two, has exactly [d]
    decimal places. *)
Lemma fixed_decimal_places d x :
  (d = 1 \/ d = 2)%nat -> finite x -> decimal_places (fixed d x) d.
Proof.
  intros D F. unfold finite in F. unfold fixed.
  destruct (Prim2SF x) as [s|s| |s m e]; try contradiction.
  - exists ((if s then "-" else "") ++ "0"), (zero_pad d 0).
    split; [now rewrite append_assoc|].
    apply zero_pad_length; [exact D|]. destruct D as [-> | ->]; cbn; lia.
  - cbv zeta.
    exists ((if s then "-" else "")
            ++ str_of_int (scaled_round d m e / 10 ^ Z.of_nat d)),
           (zero_pad d (scaled_round d m e mod 10 ^ Z.of_nat d)).
    split; [now rewrite append_assoc|].
    apply zero_pad_length; [exact D|].
    apply Z.mod_pos_bound. destruct D as [-> | ->]; cbn; lia.
Qed.

Lemma format_f_decimal_places width d x :
  (d = 1 \/ d = 2)%nat -> finite (to_float x) -> decimal_places (format_f width d x) d.
Proof.
  intros D F. unfold format_f, rjust. apply decimal_places_prefix.
  now apply fixed_decimal_places.
Qed.

(** [int(x / 2)] is computed only for a number [x]. *)
Lemma int_of_float_half_finite x n :
  int_of_float (x / 2)%float = Return n -> finite x.
Proof.
  unfold int_of_float, finite. rewrite div_spec.
  change (Prim2SF 2) with (S754_finite false 4503599627370496 (-51)).
  destruct (Prim2SF x) as [s|s| |s m e]; cbn; auto; discriminate.
Qed.

End FormatFacts.

(* ================================================================== *)
(** * Counters: counting, ranking, the most common item *)
(* ================================================================== *)

Module CounterFacts.

Import Counter.
Open Scope Z_scope.

(** ** Counting *)

Lemma total_incr k c : total (incr k c) = total c + 1.
Proof.
  induction c as [|[k' n] rest IH]; cbn [incr total fold_right snd].
  - reflexivity.
  - destruct (String.eqb k' k); cbn [total fold_right snd]; fold (total rest);
      fold (total (incr k rest)); lia.
Qed.

Lemma total_fold l c :
  total (fold_left (fun c k => incr k c) l c) = total c + Z.of_nat (List.length l).
Proof.
  revert c. induction l as [|k rest IH]; intros c; cbn [fold_left List.length].
  - lia.
  - rewrite IH, total_incr. lia.
Qed.

(** The counts of a counter add up to the number of counted elements. *)
Lemma total_of_list l : total (of_list l) = Z.of_nat (List.length l).
Proof. unfold of_list. rewrite total_fold. reflexivity. Qed.

Lemma get_incr k k' c :
  get k' (incr k c) = get k' c + (if String.eqb k k' then 1 else 0).
Proof.
  induction c as [|[k0 n] rest IH]; cbn [incr get].
  - destruct (String.eqb k k'); reflexivity.
  - destruct (String.eqb k0 k) eqn:E0; cbn [get].
    + apply String.eqb_eq in E0. subst k0.
      destruct (String.eqb k k'); lia.
    + destruct (String.eqb k0 k') eqn:E1; [|exact IH].
      apply String.eqb_eq in E1. subst k0. rewrite String.eqb_sym, E0. lia.
Qed.

Lemma get_fold k l c :
  get k (fold_left (fun c k => incr k c) l c) = get k c + occurrences k l.
Proof.
  revert c. induction l as [|k0 rest IH]; intros c; cbn [fold_left occurrences].
  - lia.
  - rewrite IH, get_incr. lia.
Qed.

(** Every label is counted as often as it occurs. *)
Lemma get_of_list k l : get k (of_list l) = occurrences k l.
Proof. unfold of_list. rewrite get_fold. reflexivity. Qed.

Lemma truthy_of_list l : truthy (of_list l) = negb (Nat.eqb (List.length l) 0).
Proof.
  pose proof (total_of_list l) as T.
  destruct (of_list l) as [|x rest] eqn:E; destruct l as [|k l']; try reflexivity.
  - cbn in T. lia.
  - discriminate E.
Qed.

(** ** The keys are in first-seen order *)

Lemma keys_incr_in k c :
  In k (map fst c) -> map fst (incr k c) = map fst c.
Proof.
  induction c as [|[k' n] rest IH]; cbn [incr map fst In]; [tauto|].
  intros H. destruct (String.eqb k' k) eqn:E; cbn [map fst]; [reflexivity|].
  f_equal. apply IH. destruct H as [H|H]; [|exact H].
  apply String.eqb_neq in E. congruence.
Qed.

Lemma keys_incr_notin k c :
  ~ In k (map fst c) -> map fst (incr k c) = map fst c ++ [k].
Proof.
  induction c as [|[k' n] rest IH]; cbn [incr map fst In app]; [reflexivity|].
  intros H. destruct (String.eqb k' k) eqn:E.
  - apply String.eqb_eq in E. tauto.
  - cbn [map fst]. f_equal. apply IH. tauto.
Qed.

Lemma existsb_eqb_In k ks : existsb (String.eqb k) ks = true <-> In k ks.
Proof.
  rewrite existsb_exists. split.
  - intros (x & Hx & E). apply String.eqb_eq in E. now subst.
  - intros H. exists k. split; [exact H | apply String.eqb_refl].
Qed.

Lemma keys_fold l c :
  map fst (fold_left (fun c k => incr k c) l c) = add_keys (map fst c) l.
Proof.
  revert c. induction l as [|k rest IH]; intros c; cbn [fold_left add_keys].
  - reflexivity.
  - rewrite IH. f_equal.
    destruct (existsb (String.eqb k) (map fst c)) eqn:E.
    + apply keys_incr_in. now apply existsb_eqb_In.
    + apply keys_incr_notin. intros H. apply existsb_eqb_In in H. congruence.
Qed.

Lemma filter_twice {A} (f g : A -> bool) l :
  filter f (filter g l) = filter (fun a => g a && f a) l.
Proof.
  induction l as [|a rest IH]; cbn [filter]; [reflexivity|].
  destruct (g a); cbn [filter andb]; [destruct (f a)|]; now rewrite IH.
Qed.

Lemma add_keys_first_seen l ks :
  add_keys ks l =
  ks ++ filter (fun k => negb (existsb (String.eqb k) ks)) (first_seen l).
Proof.
  revert ks. induction l as [|k rest IH]; intros ks; cbn [add_keys first_seen filter].
  - now rewrite app_nil_r.
  - rewrite IH. destruct (existsb (String.eqb k) ks) eqn:E; cbn [negb].
    + f_equal. rewrite filter_twice. apply filter_ext_in.
      intros k' _.
      destruct (String.eqb k k') eqn:E'; cbn [negb andb]; [|reflexivity].
      apply String.eqb_eq in E'. subst k'. now rewrite E.
    + rewrite <- app_assoc. cbn [app]. f_equal. f_equal.
      rewrite filter_twice. apply filter_ext.
      intros k'. rewrite existsb_app. cbn [existsb]. rewrite orb_false_r.
      rewrite negb_orb. rewrite (String.eqb_sym k' k). apply andb_comm.
Qed.

(** The keys of [Counter(l)] are the labels of [l], each once, in the order
    in which they were first seen. *)
Lemma keys_of_list l : map fst (of_list l) = first_seen l.
Proof.
  unfold of_list. rewrite keys_fold. cbn [map]. rewrite add_keys_first_seen.
  cbn [app existsb negb].
  induction (first_seen l) as [|k rest IH]; cbn [filter]; congruence.
Qed.

(** ** Ranking *)

Lemma insert_perm x l : Permutation (insert x l) (x :: l).
Proof.
  induction l as [|y rest IH]; cbn [insert]; [reflexivity|].
  destruct (snd x <? snd y); [|reflexivity].
  rewrite IH. apply perm_swap.
Qed.

Lemma sorted_reverse_perm l : Permutation (sorted_reverse l) l.
Proof.
  induction l as [|x rest IH]; cbn [sorted_reverse fold_right]; [reflexivity|].
  fold (sorted_reverse rest). rewrite insert_perm. now apply perm_skip.
Qed.

Lemma insert_sorted x l :
  StronglySorted ge_count l -> StronglySorted ge_count (insert x l).
Proof.
  induction 1 as [|y rest S IH F]; cbn [insert].
  - repeat constructor.
  - destruct (Z.ltb_spec (snd x) (snd y)) as [L|L].
    + constructor; [exact IH|].
      apply (Permutation_Forall (Permutation_sym (insert_perm x rest))).
      constructor; [unfold ge_count; lia | exact F].
    + constructor; [now constructor|].
      constructor; [exact L|].
      eapply Forall_impl; [|exact F]. unfold ge_count. intros; lia.
Qed.

Lemma sorted_reverse_sorted l : StronglySorted ge_count (sorted_reverse l).
Proof.
  induction l as [|x rest IH]; cbn [sorted_reverse fold_right]; [constructor|].
  now apply insert_sorted.
Qed.

(** An item passes only items of another count: the items of equal count
    keep their order. *)
Lemma insert_with_count n x l :
  with_count n (insert x l) = with_count n (x :: l).
Proof.
  induction l as [|y rest IH]; cbn [insert]; [reflexivity|].
  destruct (Z.ltb_spec (snd x) (snd y)) as [L|L]; [|reflexivity].
  unfold with_count in *. cbn [filter] in *. rewrite IH.
  destruct (Z.eqb_spec (snd x) n), (Z.eqb_spec (snd y) n); try reflexivity. lia.
Qed.

Lemma sorted_reverse_stable n l :
  with_count n (sorted_reverse l) = with_count n l.
Proof.
  induction l as [|x rest IH]; cbn [sorted_reverse fold_right]; [reflexivity|].
  fold (sorted_reverse rest). rewrite insert_with_count.
  unfold with_count in *. cbn [filter]. now rewrite IH.
Qed.

(** ** The most common item *)

Lemma first_max_cons z y rest :
  first_max z (y :: rest) =
  if snd z <? snd (first_max y rest) then first_max y rest else z.
Proof. reflexivity. Qed.

Lemma max_from_first_max best l : max_from best l = first_max best l.
Proof.
  revert best. induction l as [|y rest IH]; intros best; [reflexivity|].
  cbn [max_from]. rewrite IH, first_max_cons.
  destruct rest as [|w rest'].
  - cbn [first_max]. reflexivity.
  - rewrite !first_max_cons.
    set (W := first_max w rest').
    destruct (Z.ltb_spec (snd best) (snd y)) as [A|A];
      destruct (Z.ltb_spec (snd y) (snd W)) as [B|B];
      try destruct (Z.ltb_spec (snd best) (snd W)) as [C|C];
      try destruct (Z.ltb_spec (snd best) (snd y)) as [D|D];
      try reflexivity; lia.
Qed.

Lemma sorted_reverse_head x rest :
  exists tail, sorted_reverse (x :: rest) = first_max x rest :: tail.
Proof.
  revert x. induction rest as [|y rest IH]; intros x.
  - exists []. reflexivity.
  - destruct (IH y) as (tail & E).
    change (sorted_reverse (x :: y :: rest))
      with (insert x (sorted_reverse (y :: rest))).
    rewrite E, first_max_cons. cbn [insert].
    destruct (snd x <? snd (first_max y rest)); eexists; reflexivity.
Qed.

(** [most_common(1)] is the head of [most_common()]. *)
Lemma most_common_1_head c : most_common_1 c = firstn 1 (most_common c).
Proof.
  destruct c as [|x rest]; [reflexivity|].
  unfold most_common_1, most_common.
  destruct (sorted_reverse_head x rest) as (tail & ->).
  rewrite max_from_first_max. reflexivity.
Qed.

Lemma first_max_first_largest x l : first_largest (first_max x l) (x :: l).
Proof.
  revert x. induction l as [|y rest IH]; intros x.
  - exists [], []. repeat split; constructor.
  - rewrite first_max_cons.
    destruct (IH y) as (before & after & E & B & A).
    destruct (Z.ltb_spec (snd x) (snd (first_max y rest))) as [L|L].
    + exists (x :: before), after. rewrite E. repeat split; auto.
    + exists [], (y :: rest). repeat split; [constructor|].
      rewrite E. apply Forall_app. split.
      * eapply Forall_impl; [|exact B]. cbn beta. intros; lia.
      * constructor; [lia|]. eapply Forall_impl; [|exact A]. cbn beta. intros; lia.
Qed.

(** The item of [most_common(1)] is the first of the most frequent ones. *)
Lemma most_common_1_first_largest c :
  c <> [] -> exists m, most_common_1 c = [m] /\ first_largest m c.
Proof.
  destruct c as [|x rest]; [congruence|]. intros _.
  exists (max_from x rest). split; [reflexivity|].
  rewrite max_from_first_max. apply first_max_first_largest.
Qed.

(** ** The items of a counter *)

Lemma first_seen_NoDup l : NoDup (first_seen l).
Proof.
  induction l as [|k rest IH]; cbn [first_seen]; constructor.
  - intros H. apply filter_In in H. destruct H as [_ H].
    rewrite String.eqb_refl in H. discriminate.
  - now apply NoDup_filter.
Qed.

Lemma items_from_keys (c : t) :
  NoDup (map fst c) -> c = map (fun k => (k, get k c)) (map fst c).
Proof.
  induction c as [|[k n] rest IH]; cbn [map fst]; [reflexivity|].
  intros H. inversion H as [|? ? N D]; subst.
  cbn [get]. rewrite String.eqb_refl. f_equal.
  rewrite (IH D) at 1. apply map_ext_in. intros k' Hk'.
  destruct (String.eqb k k') eqn:E; [|reflexivity].
  apply String.eqb_eq in E. subst. contradiction.
Qed.

(** [Counter(l)] holds the labels of [l] in first-seen order, each with
    the number of its occurrences. *)
Lemma of_list_items l :
  of_list l = map (fun k => (k, occurrences k l)) (first_seen l).
Proof.
  rewrite (items_from_keys (of_list l)) at 1.
  - rewrite keys_of_list. apply map_ext. intros k. now rewrite get_of_list.
  - rewrite keys_of_list. apply first_seen_NoDup.
Qed.

End CounterFacts.

(* ================================================================== *)
(** * The session report *)
(* ================================================================== *)

Module ReportFacts.

Import PyNum PyStr Report CounterFacts FormatFacts.
Open Scope string_scope.
Open Scope Z_scope.

(** ** What a session records *)

Lemma kept_cons label labels :
  kept (label :: labels)
  = (match label with
     | Some s => if truthy_str label then [s] else []
     | None => []
     end ++ kept labels)%list.
Proof. reflexivity. Qed.

Lemma emocoes_of_cons c cs :
  emocoes_of (c :: cs)
  = (match c with
     | RegistrarFrame _ e _ => [e]
     | RegistrarAnomalia _ _ _ _ => []
     end ++ emocoes_of cs)%list.
Proof. reflexivity. Qed.

Lemma atividades_of_cons c cs :
  atividades_of (c :: cs)
  = (match c with
     | RegistrarFrame _ _ a => [a]
     | RegistrarAnomalia _ _ _ _ => []
     end ++ atividades_of cs)%list.
Proof. reflexivity. Qed.

Lemma fold_step_emocoes cs r :
  emocoes_detectadas (fold_left step cs r)
  = (emocoes_detectadas r ++ kept (emocoes_of cs))%list.
Proof.
  revert r. induction cs as [|c rest IH]; intros r; cbn [fold_left].
  - cbn. now rewrite app_nil_r.
  - rewrite IH, emocoes_of_cons. destruct c as [f e a|t d n now]; cbn [step app].
    + rewrite kept_cons. cbn [registrar_frame emocoes_detectadas].
      destruct e as [s|]; [destruct (truthy_str (Some s))|];
        cbn [app]; rewrite <- ?app_assoc; reflexivity.
    + reflexivity.
Qed.

Lemma fold_step_atividades cs r :
  atividades_detectadas (fold_left step cs r)
  = (atividades_detectadas r ++ kept (atividades_of cs))%list.
Proof.
  revert r. induction cs as [|c rest IH]; intros r; cbn [fold_left].
  - cbn. now rewrite app_nil_r.
  - rewrite IH, atividades_of_cons. destruct c as [f e a|t d n now]; cbn [step app].
    + rewrite kept_cons. cbn [registrar_frame atividades_detectadas].
      destruct a as [s|]; [destruct (truthy_str (Some s))|];
        cbn [app]; rewrite <- ?app_assoc; reflexivity.
    + reflexivity.
Qed.

Lemma fold_step_total_frames cs r :
  total_frames (fold_left step cs r)
  = total_frames r + Z.of_nat (List.length (emocoes_of cs)).
Proof.
  revert r. induction cs as [|c rest IH]; intros r; cbn [fold_left].
  - cbn. lia.
  - rewrite IH, emocoes_of_cons. destruct c as [f e a|t d n now];
      cbn [step registrar_frame registrar_anomalia total_frames app List.length];
      lia.
Qed.

Lemma fold_step_frames_com_faces cs r :
  frames_com_faces r <= frames_com_faces (fold_left step cs r)
  /\ frames_com_faces (fold_left step cs r) - frames_com_faces r
     <= total_frames (fold_left step cs r) - total_frames r.
Proof.
  revert r. induction cs as [|c rest IH]; intros r; cbn [fold_left].
  - lia.
  - destruct (IH (step r c)) as [A B].
    destruct c as [f e a|t d n now];
      cbn [step registrar_frame registrar_anomalia total_frames frames_com_faces] in *;
      [destruct (truthy f)|]; lia.
Qed.

Lemma length_kept labels :
  Z.of_nat (List.length (kept labels)) = count_labels truthy_str labels.
Proof.
  unfold count_labels. f_equal.
  induction labels as [|o rest IH]; [reflexivity|].
  rewrite kept_cons. cbn [filter].
  destruct o as [s|]; [destruct (truthy_str (Some s)) eqn:E|];
    cbn [truthy_str app List.length]; rewrite ?IH; reflexivity.
Qed.

Lemma session_emocoes path start cs :
  emocoes_detectadas (session path start cs) = kept (emocoes_of cs).
Proof. unfold session. now rewrite fold_step_emocoes. Qed.

Lemma session_atividades path start cs :
  atividades_detectadas (session path start cs) = kept (atividades_of cs).
Proof. unfold session. now rewrite fold_step_atividades. Qed.

Lemma session_total_frames path start cs :
  total_frames (session path start cs) = Z.of_nat (List.length (emocoes_of cs)).
Proof. unfold session. now rewrite fold_step_total_frames. Qed.

(** The frames with a face are among the frames. *)
Lemma session_frames_com_faces path start cs :
  0 <= frames_com_faces (session path start cs)
    <= total_frames (session path start cs).
Proof.
  unfold session.
  pose proof (fold_step_frames_com_faces cs (init path start)) as [A B].
  cbn [init frames_com_faces total_frames] in A, B. lia.
Qed.

Lemma length_atividades_of cs :
  List.length (atividades_of cs) = List.length (emocoes_of cs).
Proof.
  induction cs as [|c rest IH]; [reflexivity|].
  rewrite atividades_of_cons, emocoes_of_cons.
  destruct c; cbn [app List.length]; now rewrite ?IH.
Qed.

Lemma count_labels_le p labels :
  count_labels p labels <= Z.of_nat (List.length labels).
Proof.
  unfold count_labels. apply inj_le. apply filter_length_le.
Qed.

Lemma count_non_empty labels :
  (forall label, In label labels -> label <> Some "") ->
  count_labels truthy_str labels = count_labels non_null labels.
Proof.
  intros H. unfold count_labels. f_equal. f_equal.
  apply filter_ext_in. intros o Ho. destruct o as [s|]; [|reflexivity].
  cbn [truthy_str non_null]. apply negb_true_iff. apply String.eqb_neq.
  intros ->. now apply (H (Some "")).
Qed.

(** C10. [registrar_frame] tests its arguments for truthiness: a falsy
    face value ([False], [0], an empty text) and an empty label are recorded
    as [None] is, the frame counter alone growing. *)
Theorem registrar_frame_truthiness self tem_face emocao atividade :
  registrar_frame self (VInt 0) emocao atividade
    = registrar_frame self VNone emocao atividade /\
  registrar_frame self (VBool false) emocao atividade
    = registrar_frame self VNone emocao atividade /\
  registrar_frame self (VStr "") emocao atividade
    = registrar_frame self VNone emocao atividade /\
  registrar_frame self tem_face (Some "") atividade
    = registrar_frame self tem_face None atividade /\
  registrar_frame self tem_face emocao (Some "")
    = registrar_frame self tem_face emocao None /\
  total_frames (registrar_frame self tem_face emocao atividade)
    = total_frames self + 1 /\
  frames_com_faces (registrar_frame self VNone emocao atividade)
    = frames_com_faces self /\
  emocoes_detectadas (registrar_frame self tem_face None atividade)
    = emocoes_detectadas self /\
  atividades_detectadas (registrar_frame self tem_face emocao None)
    = atividades_detectadas self /\
  Counter.of_list (emocoes_detectadas (registrar_frame self tem_face (Some "") atividade))
    = Counter.of_list (emocoes_detectadas self) /\
  Counter.of_list (atividades_detectadas (registrar_frame self tem_face emocao (Some "")))
    = Counter.of_list (atividades_detectadas self).
Proof. repeat split. Qed.

(** C6, as the code has it.  After any calls, the counts of each
    distribution add up to the number of recorded frames whose label is
    truthy (not [None] and not empty), every such frame counted once; this
    is the number of non-null labels when no label is empty, and it is at
    most [total_frames], below it for a frame without a label. *)
Theorem distribution_total path start cs :
  let r := session path start cs in
  Counter.total (Counter.of_list (emocoes_detectadas r))
    = count_labels truthy_str (emocoes_of cs) /\
  Counter.total (Counter.of_list (atividades_detectadas r))
    = count_labels truthy_str (atividades_of cs) /\
  ((forall label, In label (emocoes_of cs) -> label <> Some "") ->
   Counter.total (Counter.of_list (emocoes_detectadas r))
     = count_labels non_null (emocoes_of cs)) /\
  ((forall label, In label (atividades_of cs) -> label <> Some "") ->
   Counter.total (Counter.of_list (atividades_detectadas r))
     = count_labels non_null (atividades_of cs)) /\
  total_frames r = Z.of_nat (List.length (emocoes_of cs)) /\
  Counter.total (Counter.of_list (emocoes_detectadas r)) <= total_frames r /\
  Counter.total (Counter.of_list (atividades_detectadas r)) <= total_frames r /\
  Counter.total
    (Counter.of_list
       (emocoes_detectadas
          (session path start [RegistrarFrame (VBool true) None (Some "standing")])))
  < total_frames
      (session path start [RegistrarFrame (VBool true) None (Some "standing")]).
Proof.
  intros r. subst r.
  rewrite !total_of_list, session_emocoes, session_atividades, !length_kept,
    session_total_frames.
  repeat split.
  - intros H. now apply count_non_empty.
  - intros H. now apply count_non_empty.
  - apply count_labels_le.
  - rewrite <- length_atividades_of. apply count_labels_le.
Qed.

(** C6 as stated fails: a frame recorded with an empty emotion label has a
    non-null label and is counted in no distribution. *)
Lemma distribution_total_empty_label :
  let cs := [RegistrarFrame (VBool true) (Some "") (Some "standing")] in
  let r := session "video.mp4" (Datetime.mk 0 "01/01/2026" "10:00:00") cs in
  count_labels non_null (emocoes_of cs) = 1 /\
  Counter.total (Counter.of_list (emocoes_detectadas r)) = 0 /\
  gerar_relatorio_json
    (finalizar r (Datetime.mk 1000000 "01/01/2026" "10:00:01"))
  = Return
      (JDict
         [ ("informacoes_gerais",
            JDict [ ("video", JStr "video.mp4");
                    ("data_analise", JStr "01/01/2026 10:00:00");
                    ("duracao_analise_segundos", JFloat 1) ]);
           ("estatisticas_frames",
            JDict [ ("total_frames_analisados", JInt 1);
                    ("frames_com_faces", JInt 1);
                    ("percentual_deteccao", JFloat 100) ]);
           ("emocoes",
            JDict [ ("total_registros", JInt 0);
                    ("distribuicao", JDict []);
                    ("emocao_predominante", JNull) ]);
           ("atividades",
            JDict [ ("total_registros", JInt 1);
                    ("distribuicao", JDict [("standing", JInt 1)]);
                    ("atividade_predominante", JStr "standing") ]);
           ("anomalias",
            JDict [ ("numero_anomalias", JInt 0); ("detalhes", JList []) ]) ]).
Proof. vm_compute. repeat split. Qed.

(** ** The structured report of a finalized session *)

Lemma duracao_finalizar r fim :
  duracao (finalizar r fim)
  = Return (SF2Prim (div_int (Datetime.micros fim - Datetime.micros (inicio_analise r))
                       1000000)).
Proof. reflexivity. Qed.

Lemma percentual_faces_returns r :
  exists pct, percentual_faces r = Return pct /\
              (total_frames r <= 0 -> pct = NInt 0).
Proof.
  unfold percentual_faces, truediv.
  destruct (Z.ltb_spec 0 (total_frames r)) as [L|L].
  - destruct (Z.eqb_spec (total_frames r) 0) as [E|E]; [lia|].
    cbn [bind]. eexists. split; [reflexivity|lia].
  - exists (NInt 0). split; reflexivity.
Qed.

Lemma predominante_returns c :
  (c = [] /\ predominante c = Return JNull) \/
  (exists top, Counter.most_common_1 c = [top] /\
               predominante c = Return (JStr (fst top))).
Proof.
  destruct c as [|x rest]; [left; split; reflexivity|].
  right. exists (Counter.max_from x rest). split; reflexivity.
Qed.

(** The structured report of a finalized session is always produced: no
    step of it raises. *)
Lemma gerar_relatorio_json_finalizar r fim :
  exists dur pct pe pa,
    duracao (finalizar r fim) = Return dur /\
    percentual_faces r = Return pct /\
    predominante (Counter.of_list (emocoes_detectadas r)) = Return pe /\
    predominante (Counter.of_list (atividades_detectadas r)) = Return pa /\
    gerar_relatorio_json (finalizar r fim)
    = Return
        (JDict
           [ ("informacoes_gerais",
              JDict [ ("video", JStr (basename (video_path r)));
                      ("data_analise",
                       JStr (Datetime.strftime_date_time (inicio_analise r)));
                      ("duracao_analise_segundos",
                       Json.of_num (round (NFloat dur) 2)) ]);
             ("estatisticas_frames",
              JDict [ ("total_frames_analisados", JInt (total_frames r));
                      ("frames_com_faces", JInt (frames_com_faces r));
                      ("percentual_deteccao", Json.of_num (round pct 2)) ]);
             ("emocoes",
              JDict [ ("total_registros",
                       JInt (Z.of_nat (List.length (emocoes_detectadas r))));
                      ("distribuicao",
                       distribuicao (Counter.of_list (emocoes_detectadas r)));
                      ("emocao_predominante", pe) ]);
             ("atividades",
              JDict [ ("total_registros",
                       JInt (Z.of_nat (List.length (atividades_detectadas r))));
                      ("distribuicao",
                       distribuicao (Counter.of_list (atividades_detectadas r)));
                      ("atividade_predominante", pa) ]);
             ("anomalias",
              JDict [ ("numero_anomalias",
                       JInt (Z.of_nat (List.length (anomalias r))));
                      ("detalhes", JList (map json_anomalia (anomalias r))) ]) ]).
Proof.
  destruct (percentual_faces_returns r) as (pct & Hpct & _).
  assert (He : exists pe, predominante (Counter.of_list (emocoes_detectadas r)) = Return pe).
  { destruct (predominante_returns (Counter.of_list (emocoes_detectadas r)))
      as [[_ H]|(top & _ & H)]; eauto. }
  assert (Ha : exists pa, predominante (Counter.of_list (atividades_detectadas r)) = Return pa).
  { destruct (predominante_returns (Counter.of_list (atividades_detectadas r)))
      as [[_ H]|(top & _ & H)]; eauto. }
  destruct He as (pe & He), Ha as (pa & Ha).
  eexists _, pct, pe, pa. split; [apply duracao_finalizar|].
  repeat (split; [assumption|]).
  unfold gerar_relatorio_json. rewrite duracao_finalizar. cbn [bind].
  change (percentual_faces (finalizar r fim)) with (percentual_faces r).
  rewrite Hpct. cbn [bind].
  cbn [finalizar emocoes_detectadas atividades_detectadas].
  rewrite He, Ha. reflexivity.
Qed.

(** C7. A session without a recorded frame can be finalized and rendered:
    the structured report is produced, without any exception, with the
    detection percentage 0 and no predominant emotion or activity. *)
Theorem zero_frame_report path start fim cs :
  emocoes_of cs = [] ->
  exists j,
    gerar_relatorio_json (finalizar (session path start cs) fim) = Return j /\
    Json.field2 "estatisticas_frames" "total_frames_analisados" j = Some (JInt 0) /\
    Json.field2 "estatisticas_frames" "percentual_deteccao" j = Some (JInt 0) /\
    Json.field2 "emocoes" "distribuicao" j = Some (JDict []) /\
    Json.field2 "emocoes" "emocao_predominante" j = Some JNull /\
    Json.field2 "atividades" "distribuicao" j = Some (JDict []) /\
    Json.field2 "atividades" "atividade_predominante" j = Some JNull.
Proof.
  intros Z0.
  assert (A0 : atividades_of cs = []).
  { apply length_zero_iff_nil. rewrite length_atividades_of, Z0. reflexivity. }
  destruct (gerar_relatorio_json_finalizar (session path start cs) fim)
    as (dur & pct & pe & pa & _ & Hpct & Hpe & Hpa & ->).
  rewrite session_emocoes, session_atividades, Z0, A0 in *.
  destruct (percentual_faces_returns (session path start cs)) as (pct' & Hp & P0).
  rewrite Hp in Hpct. inversion Hpct; subst pct'.
  rewrite P0 by (rewrite session_total_frames, Z0; cbn; lia).
  cbn in Hpe, Hpa. inversion Hpe. inversion Hpa.
  rewrite session_total_frames, Z0.
  eexists. split; [reflexivity|]. repeat split.
Qed.

Lemma zero_frame_report_witness :
  exists j,
    gerar_relatorio_json
      (finalizar
         (session "video.mp4" (Datetime.mk 0 "01/01/2026" "10:00:00")
            [RegistrarAnomalia "Teste" "sem frames" 0
               (Datetime.mk 10 "01/01/2026" "10:00:00")])
         (Datetime.mk 1500000 "01/01/2026" "10:00:01")) = Return j /\
    Json.field2 "estatisticas_frames" "total_frames_analisados" j = Some (JInt 0) /\
    Json.field2 "estatisticas_frames" "percentual_deteccao" j = Some (JInt 0) /\
    Json.field2 "emocoes" "distribuicao" j = Some (JDict []) /\
    Json.field2 "emocoes" "emocao_predominante" j = Some JNull /\
    Json.field2 "atividades" "distribuicao" j = Some (JDict []) /\
    Json.field2 "atividades" "atividade_predominante" j = Some JNull.
Proof.
  apply (zero_frame_report "video.mp4" (Datetime.mk 0 "01/01/2026" "10:00:00")
           (Datetime.mk 1500000 "01/01/2026" "10:00:01")
           [RegistrarAnomalia "Teste" "sem frames" 0
              (Datetime.mk 10 "01/01/2026" "10:00:00")]).
  reflexivity.
Defined.

(** ** The text report *)

Lemma mapM_Forall2 {A B} (f : A -> result B) l bs :
  mapM f l = Return bs -> Forall2 (fun a b => f a = Return b) l bs.
Proof.
  revert bs. induction l as [|a rest IH]; intros bs; cbn [mapM].
  - intros H. inversion H. constructor.
  - destruct (f a) as [b|e] eqn:E; cbn [bind]; [|discriminate].
    destruct (mapM f rest) as [bs'|e]; cbn [bind]; [|discriminate].
    intros H. inversion H. constructor; auto.
Qed.

Lemma linha_distribuicao_inv detectadas item row :
  linha_distribuicao detectadas item = Return row ->
  exists pct barra,
    percentual (snd item) detectadas = Return pct /\
    decimal_places (format_f 5 1 (NFloat pct)) 1 /\
    row = inicio_linha (fst item) (snd item) pct ++ barra.
Proof.
  destruct item as [label count]. unfold linha_distribuicao. cbn [fst snd].
  destruct (percentual count detectadas) as [pct|e]; cbn [bind]; [|discriminate].
  destruct (int_of_float (pct / 2)) as [n|e] eqn:I; cbn [bind]; [|discriminate].
  intros H. inversion H. eexists _, _. split; [reflexivity|]. split; [|reflexivity].
  apply format_f_decimal_places; [now left|].
  exact (int_of_float_half_finite _ _ I).
Qed.

Lemma mapM_rows_of detectadas items rows :
  mapM (linha_distribuicao detectadas) items = Return rows ->
  rows_of detectadas items rows.
Proof.
  intros H. apply mapM_Forall2 in H. unfold rows_of.
  induction H as [|item row items rows H _ IH]; constructor; auto.
  now apply linha_distribuicao_inv.
Qed.

(** The lines of a distribution: none but the marker for no label at all,
    and else the rows in the order of [most_common()] and the item of
    [most_common(1)]. *)
Lemma linhas_distribuicao_inv detectadas titulo pred nenhuma ls :
  linhas_distribuicao detectadas titulo pred nenhuma = Return ls ->
  (detectadas = [] /\ ls = [nenhuma]) \/
  (detectadas <> [] /\
   exists rows top,
     rows_of detectadas (Counter.most_common (Counter.of_list detectadas)) rows /\
     Counter.most_common_1 (Counter.of_list detectadas) = [top] /\
     ls = List.concat
            [ [ "Total de Registros:   "
                  ++ str_of_int (Z.of_nat (List.length detectadas)); ""; titulo ];
              rows;
              [ ""; pred ++ fst top ] ]).
Proof.
  unfold linhas_distribuicao. rewrite truthy_of_list.
  destruct detectadas as [|k rest].
  - cbn. intros H. inversion H. left. split; reflexivity.
  - cbn [List.length Nat.eqb negb]. intros H. right. split; [discriminate|].
    destruct (mapM (linha_distribuicao (k :: rest))
                (Counter.most_common (Counter.of_list (k :: rest))))
      as [rows|e] eqn:M; cbn [bind] in H; [|discriminate].
    destruct (predominante_returns (Counter.of_list (k :: rest)))
      as [[E _]|(top & T & _)].
    + pose proof (truthy_of_list (k :: rest)) as T. rewrite E in T. discriminate.
    + rewrite T in H. cbn [getitem nth_error bind] in H. inversion H.
      exists rows, top. repeat split; auto. now apply mapM_rows_of.
Qed.

Lemma linhas_relatorio_texto_inv r lines :
  linhas_relatorio_texto r = Return lines ->
  exists dur pct emocoes atividades,
    duracao r = Return dur /\
    percentual_faces r = Return pct /\
    linhas_distribuicao (emocoes_detectadas r)
      "Distribuição das Emoções:" "Emoção Predominante:  "
      "Nenhuma emoção detectada" = Return emocoes /\
    linhas_distribuicao (atividades_detectadas r)
      "Distribuição das Atividades:" "Atividade Predominante:  "
      "Nenhuma atividade detectada" = Return atividades /\
    segment (secao_informacoes_gerais r dur) lines /\
    segment (secao_estatisticas_frames r pct) lines /\
    segment emocoes lines /\
    segment atividades lines.
Proof.
  unfold linhas_relatorio_texto.
  destruct (duracao r) as [dur|e]; cbn [bind]; [|discriminate].
  destruct (percentual_faces r) as [pct|e]; cbn [bind]; [|discriminate].
  destruct (linhas_distribuicao (emocoes_detectadas r) _ _ _) as [le|e];
    cbn [bind]; [|discriminate].
  destruct (linhas_distribuicao (atividades_detectadas r) _ _ _) as [la|e];
    cbn [bind]; [|discriminate].
  intros H. inversion H as [E]. clear H E.
  exists dur, pct, le, la. repeat (split; [reflexivity|]).
  set (titulo := [repeat_str "=" 80; "RELATÓRIO DE ANÁLISE DE VÍDEO";
                  repeat_str "=" 80; ""]).
  set (info := secao_informacoes_gerais r dur).
  set (stats := secao_estatisticas_frames r pct).
  set (he := ["😊 EMOÇÕES DETECTADAS"; repeat_str "-" 80]).
  set (ha := ["🏃 ATIVIDADES DETECTADAS"; repeat_str "-" 80]).
  set (an := secao_anomalias r).
  set (fim := [""; repeat_str "=" 80; "FIM DO RELATÓRIO"; repeat_str "=" 80]).
  cbn [List.concat]. rewrite app_nil_r.
  repeat split.
  - exists titulo. eexists. reflexivity.
  - exists (titulo ++ info)%list. eexists. rewrite <- app_assoc. reflexivity.
  - exists (titulo ++ info ++ stats ++ he)%list. eexists.
    rewrite <- !app_assoc. reflexivity.
  - exists (titulo ++ info ++ stats ++ he ++ le ++ [""] ++ ha)%list. eexists.
    rewrite <- !app_assoc. reflexivity.
Qed.

Lemma segment_In {A} (part whole : list A) a :
  segment part whole -> In a part -> In a whole.
Proof.
  intros (before & after & ->) H. apply in_or_app. right.
  apply in_or_app. left. exact H.
Qed.


(** ** Ranking and predominant label *)

(** C8, as the code has it.  The text report ranks each distribution by
    [most_common()]: descending by count, labels of equal count in the
    order in which they were first seen; the structured report lists the
    labels in first-seen order with their counts, and has no percentage of
    a label.  In both the predominant label is the first seen of the most
    frequent labels, the head of the ranking.  Three frames with the
    emotions Feliz, Feliz, Triste give the distribution Feliz 2, Triste 1,
    the predominant label Feliz, 3 frames in all, and in the text report
    the percentages 66.7% and 33.3%. *)
Theorem ranking_and_predominant (detectadas : list string) :
  let c := Counter.of_list detectadas in
  c = map (fun k => (k, Counter.occurrences k detectadas))
        (Counter.first_seen detectadas) /\
  Permutation (Counter.most_common c) c /\
  StronglySorted Counter.ge_count (Counter.most_common c) /\
  (forall n, Counter.with_count n (Counter.most_common c) = Counter.with_count n c) /\
  (forall titulo pred nenhuma ls,
     detectadas <> [] ->
     linhas_distribuicao detectadas titulo pred nenhuma = Return ls ->
     exists rows top,
       rows_of detectadas (Counter.most_common c) rows /\
       Counter.most_common_1 c = [top] /\
       ls = List.concat
              [ [ "Total de Registros:   "
                    ++ str_of_int (Z.of_nat (List.length detectadas)); ""; titulo ];
                rows;
                [ ""; pred ++ fst top ] ]) /\
  distribuicao c
  = JDict (map (fun k => (k, JInt (Counter.occurrences k detectadas)))
             (Counter.first_seen detectadas)) /\
  (detectadas = [] -> predominante c = Return JNull) /\
  (detectadas <> [] ->
   exists top,
     Counter.first_largest top c /\
     Counter.most_common_1 c = [top] /\
     hd_error (Counter.most_common c) = Some top /\
     predominante c = Return (JStr (fst top))) /\
  linhas_relatorio_texto Examples.feliz_feliz_triste = Return Examples.linhas /\
  gerar_relatorio_json Examples.feliz_feliz_triste
  = Return
      (JDict
         [ ("informacoes_gerais",
            JDict [ ("video", JStr "video.mp4");
                    ("data_analise", JStr "01/01/2026 10:00:00");
                    ("duracao_analise_segundos", JFloat 2.5) ]);
           ("estatisticas_frames",
            JDict [ ("total_frames_analisados", JInt 3);
                    ("frames_com_faces", JInt 3);
                    ("percentual_deteccao", JFloat 100) ]);
           ("emocoes",
            JDict [ ("total_registros", JInt 3);
                    ("distribuicao", JDict [("Feliz", JInt 2); ("Triste", JInt 1)]);
                    ("emocao_predominante", JStr "Feliz") ]);
           ("atividades",
            JDict [ ("total_registros", JInt 0);
                    ("distribuicao", JDict []);
                    ("atividade_predominante", JNull) ]);
           ("anomalias",
            JDict [ ("numero_anomalias", JInt 0); ("detalhes", JList []) ]) ]).
Proof.
  intros c. subst c.
  split; [apply of_list_items|].
  split; [apply sorted_reverse_perm|].
  split; [apply sorted_reverse_sorted|].
  split; [intros n; apply sorted_reverse_stable|].
  split.
  { intros titulo pred nenhuma ls N H.
    apply linhas_distribuicao_inv in H. destruct H as [[E _]|[_ H]]; [contradiction|].
    exact H. }
  split.
  { unfold distribuicao. rewrite of_list_items at 1. rewrite map_map. reflexivity. }
  split.
  { intros ->. reflexivity. }
  split.
  { intros N.
    assert (C : Counter.of_list detectadas <> []).
    { intros E. pose proof (truthy_of_list detectadas) as T. rewrite E in T.
      destruct detectadas; [contradiction|discriminate]. }
    destruct (most_common_1_first_largest _ C) as (top & T & F).
    exists top. repeat split; auto.
    - pose proof (most_common_1_head (Counter.of_list detectadas)) as Hd.
      rewrite T in Hd. destruct (Counter.most_common (Counter.of_list detectadas));
        [discriminate|]. inversion Hd. reflexivity.
    - unfold predominante.
      destruct (Counter.of_list detectadas) as [|x rest]; [contradiction|].
      cbn [Counter.truthy]. rewrite T. reflexivity. }
  split; vm_compute; reflexivity.
Qed.

(** C8 as stated fails on its own example: the text report prints the
    percentages of the labels with one decimal place, 66.7% and 33.3%, and
    the structured report has none; and the structured report does not rank
    its distribution: with the emotions Triste, Feliz, Feliz the less
    frequent label comes first. *)
Lemma ranking_percentages_one_decimal :
  linhas_distribuicao (emocoes_detectadas Examples.feliz_feliz_triste)
    "Distribuição das Emoções:" "Emoção Predominante:  " "Nenhuma emoção detectada"
  = Return
      [ "Total de Registros:   3";
        "";
        "Distribuição das Emoções:";
        "  Feliz          :     2 ( 66.7%) █████████████████████████████████";
        "  Triste         :     1 ( 33.3%) ████████████████";
        "";
        "Emoção Predominante:  Feliz" ] /\
  (exists text,
     gerar_relatorio_texto Examples.feliz_feliz_triste = Return text /\
     contains "66.67" text = false /\ contains "33.33" text = false) /\
  (exists j,
     gerar_relatorio_json Examples.feliz_feliz_triste = Return j /\
     Json.field "emocoes" j
     = Some (JDict [ ("total_registros", JInt 3);
                     ("distribuicao", JDict [("Feliz", JInt 2); ("Triste", JInt 1)]);
                     ("emocao_predominante", JStr "Feliz") ])) /\
  (exists j,
     gerar_relatorio_json Examples.triste_feliz_feliz = Return j /\
     Json.field2 "emocoes" "distribuicao" j
     = Some (JDict [("Triste", JInt 1); ("Feliz", JInt 2)])).
Proof.
  split; [vm_compute; reflexivity|].
  split; [eexists; split; [vm_compute; reflexivity|]; split; vm_compute; reflexivity|].
  split; eexists; (split; [vm_compute; reflexivity|]); vm_compute; reflexivity.
Qed.

(** ** The two renderings *)

Lemma predominante_top c top :
  Counter.most_common_1 c = [top] -> predominante c = Return (JStr (fst top)).
Proof.
  intros T. unfold predominante. destruct c as [|x rest]; [discriminate|].
  cbn [Counter.truthy]. rewrite T. reflexivity.
Qed.


(** *** Both reports of a finalized report are produced *)

Import FloatRangeFacts.

Lemma occurrences_le_length k l :
  0 <= Counter.occurrences k l <= Z.of_nat (List.length l).
Proof.
  induction l as [|k' rest IH]; cbn [Counter.occurrences List.length]; [lia|].
  rewrite Nat2Z.inj_succ. destruct (String.eqb k' k); lia.
Qed.

Lemma In_of_list_count l item :
  In item (Counter.of_list l) -> 0 <= snd item <= Z.of_nat (List.length l).
Proof.
  rewrite of_list_items. intros H. apply in_map_iff in H.
  destruct H as (k & <- & _). cbn [snd]. apply occurrences_le_length.
Qed.

Lemma percentage_bound count total :
  0 <= count <= total -> total <> 0 ->
  exists q, truediv count total = Return q /\
            bounded_by 10 (Prim2SF (q * 100)%float).
Proof.
  intros C T.
  destruct (truediv_bound count total 2) as (q & E & B); try lia.
  { pose proof (Zdigits2_le count total C). lia. }
  exists q. split; [exact E|].
  apply (mul_100_bound q 2) in B; [|lia]. exact B.
Qed.

Lemma linha_distribuicao_returns detectadas item :
  detectadas <> [] ->
  0 <= snd item <= Z.of_nat (List.length detectadas) ->
  exists row, linha_distribuicao detectadas item = Return row.
Proof.
  intros N C. destruct item as [label count]. cbn [snd] in C.
  unfold linha_distribuicao, percentual.
  destruct (percentage_bound count (Z.of_nat (List.length detectadas)) C)
    as (q & -> & B).
  { destruct detectadas; [contradiction|]. cbn [List.length]. lia. }
  cbn [bind].
  apply (div_2_bound _ 10) in B; [|lia].
  destruct (int_of_float_bounded _ _ B) as (n & ->). cbn [bind]. eauto.
Qed.

Lemma mapM_returns {A B} (f : A -> result B) l :
  (forall a, In a l -> exists b, f a = Return b) ->
  exists bs, mapM f l = Return bs.
Proof.
  induction l as [|a rest IH]; intros F; [now exists []|].
  cbn [mapM]. destruct (F a (or_introl eq_refl)) as (b & ->). cbn [bind].
  destruct IH as (bs & ->); [intros x Hx; apply F; now right|].
  cbn [bind]. eauto.
Qed.

Lemma linhas_distribuicao_returns detectadas titulo pred nenhuma :
  exists ls, linhas_distribuicao detectadas titulo pred nenhuma = Return ls.
Proof.
  unfold linhas_distribuicao.
  destruct (Counter.of_list detectadas) as [|x rest] eqn:C;
    cbn [Counter.truthy]; [eauto|].
  assert (N : detectadas <> []) by (intros ->; discriminate C).
  destruct (mapM_returns (linha_distribuicao detectadas)
              (Counter.most_common (x :: rest))) as (rows & ->).
  { intros item H. apply linha_distribuicao_returns; [exact N|].
    apply In_of_list_count. rewrite C.
    apply (Permutation_in _ (sorted_reverse_perm (x :: rest))). exact H. }
  cbn [bind Counter.most_common_1 getitem nth_error]. eauto.
Qed.

(** The text report of a finalized report is always produced: the length
    of every bar is a number. *)
Lemma linhas_relatorio_texto_returns r fim :
  exists lines, linhas_relatorio_texto (finalizar r fim) = Return lines.
Proof.
  unfold linhas_relatorio_texto. rewrite duracao_finalizar. cbn [bind].
  change (percentual_faces (finalizar r fim)) with (percentual_faces r).
  destruct (percentual_faces_returns r) as (pct & -> & _). cbn [bind].
  cbn [finalizar emocoes_detectadas atividades_detectadas].
  destruct (linhas_distribuicao_returns (emocoes_detectadas r)
              "Distribuição das Emoções:" "Emoção Predominante:  "
              "Nenhuma emoção detectada") as (le & ->). cbn [bind].
  destruct (linhas_distribuicao_returns (atividades_detectadas r)
              "Distribuição das Atividades:" "Atividade Predominante:  "
              "Nenhuma atividade detectada") as (la & ->). cbn [bind].
  eauto.
Qed.

(** *** The duration and the detection percentage are numbers *)





(** *** Rounding to two decimal places, in the text and in the document *)








End ReportFacts.

(* ================================================================== *)
(** * NaN in the arithmetic of binary64 numbers *)
(* ================================================================== *)

Module FloatNanFacts.

Import FloatOrder FloatOrderFacts.
Open Scope float_scope.

Lemma is_nan_Prim2SF x : is_nan x = true <-> Prim2SF x = S754_nan.
Proof.
  rewrite is_nan_frank. unfold frank, rank.
  destruct (Prim2SF x) as [[|]|[|]| |[|] m e]; split; congruence.
Qed.

Lemma nan_add x y : is_nan x = true \/ is_nan y = true -> is_nan (x + y) = true.
Proof.
  rewrite !is_nan_Prim2SF, add_spec. unfold SF64add, SFadd.
  intros [-> | ->]; [reflexivity|]. destruct (Prim2SF x); reflexivity.
Qed.

Lemma nan_sub x y : is_nan x = true \/ is_nan y = true -> is_nan (x - y) = true.
Proof.
  rewrite !is_nan_Prim2SF, sub_spec. unfold SF64sub, SFsub.
  intros [-> | ->]; [reflexivity|]. destruct (Prim2SF x); reflexivity.
Qed.

Lemma nan_div x y : is_nan x = true \/ is_nan y = true -> is_nan (x / y) = true.
Proof.
  rewrite !is_nan_Prim2SF, div_spec. unfold SF64div, SFdiv.
  intros [-> | ->]; [reflexivity|]. destruct (Prim2SF x); reflexivity.
Qed.

Lemma nan_abs x : is_nan x = true -> is_nan (abs x) = true.
Proof. rewrite !is_nan_Prim2SF, abs_spec. intros ->. reflexivity. Qed.

(** Every comparison with a NaN is false. *)
Lemma nan_ltb x y : is_nan x = true \/ is_nan y = true -> (x <? y) = false.
Proof.
  intros N. apply not_true_is_false. intros H. apply ltb_not_nan in H.
  destruct H, N; congruence.
Qed.

Lemma leb_not_nan_both x y :
  (x <=? y) = true -> is_nan x = false /\ is_nan y = false.
Proof.
  intros H. apply leb_frank in H. destruct H as (a & b & Ha & Hb & _).
  split; apply not_true_is_false; intros N; apply is_nan_frank in N; congruence.
Qed.

(** Not below a number: at or above it, or a NaN. *)
Lemma ltb_false_iff x c :
  is_nan c = false ->
  ((x <? c) = false <-> (c <=? x) = true \/ is_nan x = true).
Proof.
  intros Nc. split.
  - intros H. destruct (is_nan x) eqn:Nx; [now right|left].
    now apply ltb_total.
  - intros [H | H]; [now apply leb_not_gt | apply nan_ltb; now left].
Qed.

(** Not above a number: at or below it, or a NaN. *)
Lemma gtb_false_iff x c :
  is_nan c = false ->
  ((c <? x) = false <-> (x <=? c) = true \/ is_nan x = true).
Proof.
  intros Nc. split.
  - intros H. destruct (is_nan x) eqn:Nx; [now right|left].
    now apply ltb_total.
  - intros [H | H]; [now apply leb_not_gt | apply nan_ltb; now right].
Qed.

End FloatNanFacts.

(* ================================================================== *)
(** * More on the two classifiers *)
(* ================================================================== *)

Module ClassifierExtras.

Import FloatOrder FloatOrderFacts FloatNanFacts.
Import EmotionDetection ActivityRecognition EmotionFacts ActivityFacts.
Open Scope string_scope.
Open Scope float_scope.

(** The facts that place a number [x] against a constant [c]. *)
Lemma against_constant x c :
  is_nan c = false ->
  ((c <=? x) = true -> (x <? c) = false) /\
  ((x <? c) = false -> (c <=? x) = true \/ is_nan x = true) /\
  (is_nan x = true -> (x <? c) = false) /\
  (is_nan x = true -> (c <=? x) = false) /\
  (is_nan x = true -> (c <? x) = false) /\
  (is_nan x = true -> (x <=? c) = false) /\
  ((x <=? c) = true -> (c <? x) = false) /\
  ((c <? x) = false -> (x <=? c) = true \/ is_nan x = true).
Proof.
  intros Nc.
  assert (NL : forall a b, is_nan a = true \/ is_nan b = true -> (a <=? b) = false).
  { intros a b N. apply not_true_is_false. intros H. apply leb_not_nan_both in H.
    destruct H, N; congruence. }
  repeat split.
  - apply leb_not_gt.
  - now apply ltb_false_iff.
  - intros N. apply nan_ltb. now left.
  - intros N. apply NL. now right.
  - intros N. apply nan_ltb. now right.
  - intros N. apply NL. now left.
  - apply leb_not_gt.
  - now apply gtb_false_iff.
Qed.

(** Settles a goal about comparisons once each has a truth value. *)
Ltac settle_comparisons :=
  repeat match goal with
         | H : ?a = ?a -> _ |- _ => specialize (H eq_refl)
         | H : true = false -> _ |- _ => clear H
         | H : false = true -> _ |- _ => clear H
         end;
  repeat split; intros;
  repeat match goal with
         | H : _ /\ _ |- _ => destruct H
         | H : _ \/ _ |- _ => destruct H
         end;
  try congruence;
  try (left; split; congruence); try (left; congruence);
  try (right; split; congruence); try (right; congruence);
  try solve [intuition congruence].

(** X1. With the three points in place, each emotion is returned exactly
    on its band of mouth heights: Neutro below 0.02, Feliz on
    [0.02, 0.04), Surpreso on [0.04, 0.06), and Triste at 0.06 and above or
    when the height is a NaN. *)
Theorem analyze_emotion_label_iff lm shape ml mr nt :
  (2 <= List.length shape)%nat ->
  nth_error lm 61 = Some ml -> nth_error lm 291 = Some mr ->
  nth_error lm 13 = Some nt ->
  let mouth_height := abs ((Landmark.y ml + Landmark.y mr) / 2 - Landmark.y nt) in
  (analyze_emotion lm shape = Return "Neutro"
   <-> (mouth_height <? 0.02) = true) /\
  (analyze_emotion lm shape = Return "Feliz"
   <-> (0.02 <=? mouth_height) = true /\ (mouth_height <? 0.04) = true) /\
  (analyze_emotion lm shape = Return "Surpreso"
   <-> (0.04 <=? mouth_height) = true /\ (mouth_height <? 0.06) = true) /\
  (analyze_emotion lm shape = Return "Triste"
   <-> (0.06 <=? mouth_height) = true \/ is_nan mouth_height = true).
Proof.
  intros Hs H61 H291 H13 mh.
  rewrite (analyze_emotion_points lm shape ml mr nt Hs H61 H291 H13).
  cbv zeta. fold mh.
  destruct (against_constant mh 0.02 eq_refl) as (A2 & B2 & C2 & D2 & _).
  destruct (against_constant mh 0.04 eq_refl) as (A4 & B4 & C4 & D4 & _).
  destruct (against_constant mh 0.06 eq_refl) as (A6 & B6 & C6 & D6 & _).
  assert (U24 : (mh <? 0.02) = true -> (mh <? 0.04) = true).
  { intros H. eapply ltb_leb_trans; [exact H|reflexivity]. }
  assert (U46 : (mh <? 0.04) = true -> (mh <? 0.06) = true).
  { intros H. eapply ltb_leb_trans; [exact H|reflexivity]. }
  destruct (mh <? 0.02), (mh <? 0.04), (mh <? 0.06),
    (0.02 <=? mh), (0.04 <=? mh), (0.06 <=? mh), (is_nan mh);
    settle_comparisons.
Qed.

Lemma analyze_emotion_label_iff_witness :
  analyze_emotion
    (mesh (Landmark.at_y 0.5) (Landmark.at_y 0.5) (Landmark.at_y nan))
    [480; 640; 3]%Z = Return "Triste".
Proof.
  refine (proj2 (proj2 (proj2 (proj2
    (analyze_emotion_label_iff
       (mesh (Landmark.at_y 0.5) (Landmark.at_y 0.5) (Landmark.at_y nan))
       [480; 640; 3]%Z
       (Landmark.at_y 0.5) (Landmark.at_y 0.5) (Landmark.at_y nan)
       _ _ _ _)))) _).
  - cbn [List.length]. lia.
  - reflexivity.
  - reflexivity.
  - reflexivity.
  - right. reflexivity.
Defined.

(** X2. A NaN in the height of a mouth corner or of the nose tip makes the
    emotion Triste. *)
Theorem analyze_emotion_nan lm shape ml mr nt :
  (2 <= List.length shape)%nat ->
  nth_error lm 61 = Some ml -> nth_error lm 291 = Some mr ->
  nth_error lm 13 = Some nt ->
  is_nan (Landmark.y ml) = true \/ is_nan (Landmark.y mr) = true
  \/ is_nan (Landmark.y nt) = true ->
  analyze_emotion lm shape = Return "Triste".
Proof.
  intros Hs H61 H291 H13 N.
  rewrite (analyze_emotion_points lm shape ml mr nt Hs H61 H291 H13). cbv zeta.
  assert (M : is_nan (abs ((Landmark.y ml + Landmark.y mr) / 2 - Landmark.y nt)) = true).
  { apply nan_abs. apply nan_sub. destruct N as [N | [N | N]]; [left|left|now right];
      apply nan_div; left; apply nan_add; tauto. }
  rewrite !(nan_ltb _ _ (or_introl M)). reflexivity.
Qed.

Lemma analyze_emotion_nan_witness :
  analyze_emotion
    (mesh (Landmark.at_y nan) (Landmark.at_y 0.5) (Landmark.at_y 0.5))
    [480; 640; 3]%Z = Return "Triste".
Proof.
  apply (analyze_emotion_nan
           (mesh (Landmark.at_y nan) (Landmark.at_y 0.5) (Landmark.at_y 0.5))
           [480; 640; 3]%Z
           (Landmark.at_y nan) (Landmark.at_y 0.5) (Landmark.at_y 0.5)).
  - cbn [List.length]. lia.
  - reflexivity.
  - reflexivity.
  - reflexivity.
  - left. reflexivity.
Defined.

(** X3. The outcome of the emotion classifier by the sizes of its
    arguments: [ValueError] for an image shape of fewer than two entries,
    whatever the landmarks; else [IndexError] for fewer than 292 landmarks;
    else one of the four labels. *)
Theorem analyze_emotion_outcome lm shape :
  ((List.length shape < 2)%nat -> analyze_emotion lm shape = Raise ValueError) /\
  ((2 <= List.length shape)%nat -> (List.length lm < 292)%nat ->
   analyze_emotion lm shape = Raise IndexError) /\
  ((2 <= List.length shape)%nat -> (292 <= List.length lm)%nat ->
   exists label, analyze_emotion lm shape = Return label /\
                 In label ["Neutro"; "Feliz"; "Surpreso"; "Triste"]).
Proof.
  split; [|split].
  - intros Hs. unfold analyze_emotion, slice_to.
    destruct shape as [|h [|w rest]]; cbn [List.length] in Hs; try lia; reflexivity.
  - intros Hs Hl. unfold analyze_emotion, getitem, slice_to.
    destruct shape as [|h [|w rest]]; cbn [List.length] in Hs; try lia.
    cbn [firstn unpack2 bind].
    assert (N : nth_error lm 291 = None) by (apply nth_error_None; lia).
    rewrite N. destruct (nth_error lm 61); reflexivity.
  - intros Hs Hl.
    destruct (nth_error lm 61) as [ml|] eqn:H61;
      [|apply nth_error_None in H61; lia].
    destruct (nth_error lm 291) as [mr|] eqn:H291;
      [|apply nth_error_None in H291; lia].
    destruct (nth_error lm 13) as [nt|] eqn:H13;
      [|apply nth_error_None in H13; lia].
    rewrite (analyze_emotion_points lm shape ml mr nt Hs H61 H291 H13).
    cbv zeta.
    repeat match goal with |- context [if ?c then _ else _] => destruct c end;
      eexists; (split; [reflexivity|]); cbn; tauto.
Qed.

(** A pose of 25 landmarks or more holds the seven points. *)
Lemma has_points_of_length lm :
  (25 <= List.length lm)%nat -> exists p, has_points lm p.
Proof.
  intros L. unfold has_points, PoseLandmark.NOSE, PoseLandmark.LEFT_SHOULDER,
    PoseLandmark.RIGHT_SHOULDER, PoseLandmark.LEFT_HIP, PoseLandmark.RIGHT_HIP,
    PoseLandmark.LEFT_WRIST, PoseLandmark.RIGHT_WRIST.
  destruct (nth_error lm 0) as [p0|] eqn:H0; [|apply nth_error_None in H0; lia].
  destruct (nth_error lm 11) as [p11|] eqn:H11; [|apply nth_error_None in H11; lia].
  destruct (nth_error lm 12) as [p12|] eqn:H12; [|apply nth_error_None in H12; lia].
  destruct (nth_error lm 23) as [p23|] eqn:H23; [|apply nth_error_None in H23; lia].
  destruct (nth_error lm 24) as [p24|] eqn:H24; [|apply nth_error_None in H24; lia].
  destruct (nth_error lm 15) as [p15|] eqn:H15; [|apply nth_error_None in H15; lia].
  destruct (nth_error lm 16) as [p16|] eqn:H16; [|apply nth_error_None in H16; lia].
  exists (mk_pose p0 p11 p12 p23 p24 p15 p16). repeat split.
Qed.

(** X4. The outcome of the activity classifier by the sizes of its
    arguments: [ValueError] for an image shape of fewer than two entries,
    whatever the landmarks; else [IndexError] for fewer than 25 landmarks
    (the right hip is the last one read); else one of the five keys. *)
Theorem analyze_activity_outcome lm shape :
  ((List.length shape < 2)%nat -> analyze_activity lm shape = Raise ValueError) /\
  ((2 <= List.length shape)%nat -> (List.length lm < 25)%nat ->
   analyze_activity lm shape = Raise IndexError) /\
  ((2 <= List.length shape)%nat -> (25 <= List.length lm)%nat ->
   exists key, analyze_activity lm shape = Return key /\
               In key ["standing"; "sitting"; "waving"; "raising_hand"; "unknown"]).
Proof.
  split; [|split].
  - intros Hs. unfold analyze_activity, slice_to.
    destruct shape as [|h [|w rest]]; cbn [List.length] in Hs; try lia; reflexivity.
  - intros Hs Hl. unfold analyze_activity, getitem, slice_to,
      PoseLandmark.NOSE, PoseLandmark.LEFT_SHOULDER, PoseLandmark.RIGHT_SHOULDER,
      PoseLandmark.LEFT_HIP, PoseLandmark.RIGHT_HIP.
    destruct shape as [|h [|w rest]]; cbn [List.length] in Hs; try lia.
    cbn [firstn unpack2 bind].
    assert (N : nth_error lm 24 = None) by (apply nth_error_None; lia).
    rewrite N.
    destruct (nth_error lm 0); cbn [bind]; [|reflexivity].
    destruct (nth_error lm 11); cbn [bind]; [|reflexivity].
    destruct (nth_error lm 12); cbn [bind]; [|reflexivity].
    destruct (nth_error lm 23); reflexivity.
  - intros Hs Hl. destruct (has_points_of_length lm Hl) as (p & Hp).
    rewrite (analyze_activity_points lm shape p Hs Hp).
    repeat match goal with |- context [if ?c then _ else _] => destruct c end;
      eexists; (split; [reflexivity|]); cbn; tauto.
Qed.

(** X5. With the seven points in place, each activity is returned exactly
    on its condition: waving when a wrist is raised and a wrist is above
    the nose; raising_hand when a wrist is raised and none is above the
    nose; sitting, standing and unknown when no wrist is raised and the
    torso length is below 0.2, above 0.25, and on [0.2, 0.25] or a NaN. *)
Theorem analyze_activity_label_iff lm shape p :
  (2 <= List.length shape)%nat -> has_points lm p ->
  let some_raised := raised p (left_wrist p) \/ raised p (right_wrist p) in
  let some_above :=
    above_nose p (left_wrist p) \/ above_nose p (right_wrist p) in
  (analyze_activity lm shape = Return "waving" <-> some_raised /\ some_above) /\
  (analyze_activity lm shape = Return "raising_hand"
   <-> some_raised /\ ~ some_above) /\
  (analyze_activity lm shape = Return "sitting"
   <-> ~ some_raised /\ (torso_length p <? 0.2) = true) /\
  (analyze_activity lm shape = Return "standing"
   <-> ~ some_raised /\ (0.25 <? torso_length p) = true) /\
  (analyze_activity lm shape = Return "unknown"
   <-> ~ some_raised /\
       (((0.2 <=? torso_length p) = true /\ (torso_length p <=? 0.25) = true)
        \/ is_nan (torso_length p) = true)).
Proof.
  intros Hs Hp some_raised some_above. subst some_raised some_above.
  rewrite (analyze_activity_points lm shape p Hs Hp).
  unfold raised, above_nose.
  set (t := torso_length p).
  destruct (against_constant t 0.2 eq_refl) as (A2 & B2 & C2 & D2 & _).
  destruct (against_constant t 0.25 eq_refl) as (_ & _ & _ & _ & E5 & F5 & G5 & H5).
  assert (U : (t <? 0.2) = true -> (0.25 <? t) = false).
  { intros H. apply leb_not_gt. apply ltb_leb.
    eapply ltb_leb_trans; [exact H|reflexivity]. }
  destruct (Landmark.y (left_wrist p) <? shoulder_y p - 0.1),
    (Landmark.y (right_wrist p) <? shoulder_y p - 0.1),
    (Landmark.y (left_wrist p) <? Landmark.y (nose p)),
    (Landmark.y (right_wrist p) <? Landmark.y (nose p)),
    (t <? 0.2), (0.25 <? t), (0.2 <=? t), (t <=? 0.25), (is_nan t);
    cbn [orb]; settle_comparisons.
Qed.

Lemma analyze_activity_label_iff_witness :
  analyze_activity
    (pose (mk_pose (Landmark.at_y 0.2) (Landmark.at_y 0.25) (Landmark.at_y 0.25)
             (Landmark.at_y 0.6) (Landmark.at_y 0.6)
             (Landmark.at_y 0.6) (Landmark.at_y 0.6)))
    [480; 640; 3]%Z = Return "standing".
Proof.
  refine (proj2 (proj1 (proj2 (proj2 (proj2
    (analyze_activity_label_iff
       (pose (mk_pose (Landmark.at_y 0.2) (Landmark.at_y 0.25) (Landmark.at_y 0.25)
                (Landmark.at_y 0.6) (Landmark.at_y 0.6)
                (Landmark.at_y 0.6) (Landmark.at_y 0.6)))
       [480; 640; 3]%Z
       (mk_pose (Landmark.at_y 0.2) (Landmark.at_y 0.25) (Landmark.at_y 0.25)
          (Landmark.at_y 0.6) (Landmark.at_y 0.6)
          (Landmark.at_y 0.6) (Landmark.at_y 0.6))
       _ _))))) _).
  - cbn [List.length]. lia.
  - repeat split.
  - split; [|reflexivity]. unfold raised. vm_compute. intros [H | H]; discriminate.
Defined.

(** X6. A NaN in the height of a shoulder makes the activity unknown,
    whatever the other points are; a NaN in the height of the nose rules
    out waving. *)
Theorem analyze_activity_nan lm shape p :
  (2 <= List.length shape)%nat -> has_points lm p ->
  (is_nan (Landmark.y (left_shoulder p)) = true
   \/ is_nan (Landmark.y (right_shoulder p)) = true ->
   analyze_activity lm shape = Return "unknown") /\
  (is_nan (Landmark.y (nose p)) = true ->
   analyze_activity lm shape <> Return "waving").
Proof.
  intros Hs Hp. rewrite (analyze_activity_points lm shape p Hs Hp). split.
  - intros N.
    assert (S : is_nan (shoulder_y p) = true).
    { unfold shoulder_y. apply nan_div. left. now apply nan_add. }
    assert (T : is_nan (torso_length p) = true).
    { unfold torso_length. apply nan_abs. apply nan_sub. now left. }
    assert (M : is_nan (shoulder_y p - 0.1) = true) by (apply nan_sub; now left).
    rewrite !(nan_ltb _ (shoulder_y p - 0.1) (or_intror M)).
    rewrite (nan_ltb (torso_length p) 0.2 (or_introl T)).
    rewrite (nan_ltb 0.25 (torso_length p) (or_intror T)). reflexivity.
  - intros N.
    rewrite !(nan_ltb _ (Landmark.y (nose p)) (or_intror N)). cbn [orb].
    repeat match goal with |- context [if ?c then _ else _] => destruct c end;
      discriminate.
Qed.

Lemma analyze_activity_nan_witness :
  analyze_activity
    (pose (mk_pose (Landmark.at_y 0.2) (Landmark.at_y nan) (Landmark.at_y 0.25)
             (Landmark.at_y 0.6) (Landmark.at_y 0.6)
             (Landmark.at_y 0.01) (Landmark.at_y 0.6)))
    [480; 640; 3]%Z = Return "unknown".
Proof.
  refine (proj1
    (analyze_activity_nan
       (pose (mk_pose (Landmark.at_y 0.2) (Landmark.at_y nan) (Landmark.at_y 0.25)
                (Landmark.at_y 0.6) (Landmark.at_y 0.6)
                (Landmark.at_y 0.01) (Landmark.at_y 0.6)))
       [480; 640; 3]%Z
       (mk_pose (Landmark.at_y 0.2) (Landmark.at_y nan) (Landmark.at_y 0.25)
          (Landmark.at_y 0.6) (Landmark.at_y 0.6)
          (Landmark.at_y 0.01) (Landmark.at_y 0.6))
       _ _) _).
  - cbn [List.length]. lia.
  - repeat split.
  - left. reflexivity.
Defined.

End ClassifierExtras.

(* ================================================================== *)
(** * More on the anomaly rules *)
(* ================================================================== *)

Module AnalyzerExtras.

Import Analyzer AnalyzerSpec AnalyzerFacts.
Open Scope string_scope.
Open Scope Z_scope.

(** The records of a frame, rule by rule. *)
Lemma detectar_anomalias_rules fi n :
  detectar_anomalias fi n =
  ((if 3 <? get_default (num_faces fi) 0
    then [multiplas_faces (get_default (num_faces fi) 0) n] else [])
   ++ (if label_in (emocao fi) ["Triste"; "Raiva"]
       then [emocao_negativa (get_default (emocao fi) "") n] else [])
   ++ (if label_in (atividade fi) ["unknown"; "Desconhecido"] && (n mod 100 =? 0)
       then [nao_identificada n] else []))%list.
Proof.
  unfold detectar_anomalias. cbn [List.concat]. rewrite app_nil_r.
  destruct (3 <? get_default (num_faces fi) 0);
    destruct (label_in (emocao fi) ["Triste"; "Raiva"]);
    destruct (label_in (atividade fi) ["unknown"; "Desconhecido"]);
    destruct (n mod 100 =? 0); reflexivity.
Qed.

(** X7. A frame yields a record of multiple faces exactly when
    [num_faces] is there and above 3, and then one, whose description
    starts with the number of faces; without the key it yields none. *)
Theorem detectar_anomalias_multiplas_faces fi n :
  (forall k, num_faces fi = Some k -> 3 < k ->
     filter is_multiplas_faces (detectar_anomalias fi n) = [multiplas_faces k n]) /\
  (forall k, num_faces fi = Some k -> k <= 3 ->
     filter is_multiplas_faces (detectar_anomalias fi n) = []) /\
  (num_faces fi = None ->
     filter is_multiplas_faces (detectar_anomalias fi n) = []).
Proof.
  rewrite detectar_anomalias_rules.
  assert (F : forall k,
            filter is_multiplas_faces
              ((if 3 <? k then [multiplas_faces k n] else [])
               ++ (if label_in (emocao fi) ["Triste"; "Raiva"]
                   then [emocao_negativa (get_default (emocao fi) "") n] else [])
               ++ (if label_in (atividade fi) ["unknown"; "Desconhecido"]
                      && (n mod 100 =? 0)
                   then [nao_identificada n] else []))%list
            = if 3 <? k then [multiplas_faces k n] else []).
  { intros k. destruct (3 <? k);
      destruct (label_in (emocao fi) ["Triste"; "Raiva"]);
      destruct (label_in (atividade fi) ["unknown"; "Desconhecido"] && (n mod 100 =? 0));
      reflexivity. }
  repeat split.
  - intros k -> L. cbn [get_default]. rewrite F.
    apply Z.ltb_lt in L. now rewrite L.
  - intros k -> L. cbn [get_default]. rewrite F.
    apply Z.ltb_ge in L. now rewrite L.
  - intros ->. cbn [get_default]. rewrite F. reflexivity.
Qed.

(** X8. A frame yields a record of a negative emotion exactly when its
    emotion is Triste or Raiva, and then one, whose description names the
    emotion; without an emotion it yields none. *)
Theorem detectar_anomalias_emocao_negativa fi n :
  (forall e, emocao fi = Some e -> e = "Triste" \/ e = "Raiva" ->
     filter is_emocao_negativa (detectar_anomalias fi n) = [emocao_negativa e n]) /\
  (forall e, emocao fi = Some e -> e <> "Triste" -> e <> "Raiva" ->
     filter is_emocao_negativa (detectar_anomalias fi n) = []) /\
  (emocao fi = None ->
     filter is_emocao_negativa (detectar_anomalias fi n) = []).
Proof.
  rewrite detectar_anomalias_rules.
  assert (F : forall (b : bool) e,
            filter is_emocao_negativa
              ((if 3 <? get_default (num_faces fi) 0
                then [multiplas_faces (get_default (num_faces fi) 0) n] else [])
               ++ (if b then [emocao_negativa e n] else [])
               ++ (if label_in (atividade fi) ["unknown"; "Desconhecido"]
                      && (n mod 100 =? 0)
                   then [nao_identificada n] else []))%list
            = if b then [emocao_negativa e n] else []).
  { intros b e. destruct (3 <? get_default (num_faces fi) 0); destruct b;
      destruct (label_in (atividade fi) ["unknown"; "Desconhecido"] && (n mod 100 =? 0));
      reflexivity. }
  repeat split.
  - intros e -> [-> | ->]; rewrite F; reflexivity.
  - intros e -> N1 N2. rewrite F. cbn [label_in existsb].
    apply String.eqb_neq in N1, N2. now rewrite N1, N2.
  - intros ->. rewrite F. reflexivity.
Qed.

(** X9. The records of a frame are at most three, one of each kind and in
    the order multiple faces, negative emotion, unidentified activity; each
    carries the number of the frame; a frame info without any key yields
    none. *)
Theorem detectar_anomalias_shape fi n :
  detectar_anomalias fi n
  = (filter is_multiplas_faces (detectar_anomalias fi n)
     ++ filter is_emocao_negativa (detectar_anomalias fi n)
     ++ filter is_nao_identificada (detectar_anomalias fi n))%list /\
  (List.length (filter is_multiplas_faces (detectar_anomalias fi n)) <= 1)%nat /\
  (List.length (filter is_emocao_negativa (detectar_anomalias fi n)) <= 1)%nat /\
  (List.length (filter is_nao_identificada (detectar_anomalias fi n)) <= 1)%nat /\
  Forall (fun a => frame a = n) (detectar_anomalias fi n) /\
  detectar_anomalias (mk_frame_info None None None) n = [].
Proof.
  rewrite detectar_anomalias_rules.
  destruct (3 <? get_default (num_faces fi) 0);
    destruct (label_in (emocao fi) ["Triste"; "Raiva"]);
    destruct (label_in (atividade fi) ["unknown"; "Desconhecido"] && (n mod 100 =? 0));
    cbn; repeat split; repeat constructor.
Qed.

End AnalyzerExtras.

(* ================================================================== *)
(** * From the classifiers to the overlays and to the anomaly rules *)
(* ================================================================== *)

Module PipelineExtras.

Import PyNum PyStr FormatFacts.
Import EmotionDetection ActivityRecognition EmotionFacts ActivityFacts.
Import Analyzer AnalyzerSpec AnalyzerFacts AnalyzerExtras.
Open Scope string_scope.
Open Scope Z_scope.

Lemma analyze_emotion_returns lm shape label :
  analyze_emotion lm shape = Return label ->
  In label ["Neutro"; "Feliz"; "Surpreso"; "Triste"].
Proof.
  unfold analyze_emotion, getitem, slice_to.
  destruct shape as [|h [|w rest]]; cbn [firstn unpack2 bind]; try discriminate.
  destruct (nth_error lm 61); cbn [bind]; [|discriminate].
  destruct (nth_error lm 291); cbn [bind]; [|discriminate].
  destruct (nth_error lm 13); cbn [bind]; [|discriminate].
  cbv zeta.
  repeat match goal with |- context [if ?c then _ else _] => destruct c end;
    intros H; inversion H; cbn; tauto.
Qed.

Lemma analyze_activity_returns lm shape key :
  analyze_activity lm shape = Return key ->
  In key ["standing"; "sitting"; "waving"; "raising_hand"; "unknown"].
Proof.
  unfold analyze_activity, getitem, slice_to.
  destruct shape as [|h [|w rest]]; cbn [firstn unpack2 bind]; try discriminate.
  repeat match goal with
         | |- context [nth_error lm ?i] =>
             destruct (nth_error lm i); cbn [bind]; [|discriminate]
         end.
  cbv zeta.
  repeat match goal with |- context [if ?c then _ else _] => destruct c end;
    intros H; inversion H; cbn; tauto.
Qed.

(** X10. Whatever the emotion classifier returns for a face, recorded as
    the emotion of a frame: the rule of the negative emotion fires exactly
    for Triste, with the description of that emotion; the classifier never
    returns Raiva, the other emotion of the rule. *)
Theorem emotion_to_anomaly lm shape label faces atividade n :
  analyze_emotion lm shape = Return label ->
  label <> "Raiva" /\
  filter is_emocao_negativa
    (detectar_anomalias (mk_frame_info faces (Some label) atividade) n)
  = (if String.eqb label "Triste" then [emocao_negativa "Triste" n] else []).
Proof.
  intros H. apply analyze_emotion_returns in H.
  rewrite detectar_anomalias_rules. cbn [emocao num_faces Analyzer.atividade].
  destruct (3 <? get_default faces 0);
    destruct (label_in atividade ["unknown"; "Desconhecido"] && (n mod 100 =? 0));
    cbn [In] in H; destruct H as [<- | [<- | [<- | [<- | []]]]];
    (split; [discriminate | reflexivity]).
Qed.

Lemma emotion_to_anomaly_witness :
  "Triste" <> "Raiva" /\
  filter is_emocao_negativa
    (detectar_anomalias (mk_frame_info (Some 1) (Some "Triste") None) 7)
  = [emocao_negativa "Triste" 7].
Proof.
  apply (emotion_to_anomaly
           (mesh (Landmark.at_y 0.5) (Landmark.at_y 0.5) (Landmark.at_y 0.1))
           [480; 640; 3] "Triste" (Some 1) None 7).
  vm_compute. reflexivity.
Defined.

(** X11. Whatever key the activity classifier returns for a pose, the
    label looked up for it is the label of the key in the table of
    activities, never the default of a missing key, and two keys have
    different labels.  Recorded as the activity of a frame, the key and its
    label alike fire the rule of the unidentified activity exactly for the
    key unknown at a frame that is a multiple of 100. *)
Theorem activity_label_and_anomaly lm shape key faces emocao n :
  analyze_activity lm shape = Return key ->
  let label := ActivityFrame.label key in
  In (key, label) ActivityFrame.activities /\
  (forall key', In key' (map fst ActivityFrame.activities) ->
     ActivityFrame.label key' = label -> key' = key) /\
  filter is_nao_identificada
    (detectar_anomalias (mk_frame_info faces emocao (Some key)) n)
  = (if String.eqb key "unknown" && (n mod 100 =? 0)
     then [nao_identificada n] else []) /\
  filter is_nao_identificada
    (detectar_anomalias (mk_frame_info faces emocao (Some label)) n)
  = (if String.eqb key "unknown" && (n mod 100 =? 0)
     then [nao_identificada n] else []).
Proof.
  intros H label. subst label. pose proof (analyze_activity_returns _ _ _ H) as K.
  split; [|split; [|split]].
  - cbn [In] in K. destruct K as [<- | [<- | [<- | [<- | [<- | []]]]]];
      cbn; tauto.
  - intros key' K' E. cbn [In map fst ActivityFrame.activities] in K, K'.
    destruct K as [<- | [<- | [<- | [<- | [<- | []]]]]];
      destruct K' as [<- | [<- | [<- | [<- | [<- | []]]]]];
      try reflexivity; vm_compute in E; discriminate.
  - rewrite filter_nao_identificada. cbn [Analyzer.atividade].
    cbn [In] in K. destruct K as [<- | [<- | [<- | [<- | [<- | []]]]]];
      reflexivity.
  - rewrite filter_nao_identificada. cbn [Analyzer.atividade].
    cbn [In] in K. destruct K as [<- | [<- | [<- | [<- | [<- | []]]]]];
      reflexivity.
Qed.

Lemma activity_label_and_anomaly_witness :
  In ("unknown", ActivityFrame.label "unknown") ActivityFrame.activities /\
  filter is_nao_identificada
    (detectar_anomalias
       (mk_frame_info None None (Some (ActivityFrame.label "unknown"))) 100)
  = [nao_identificada 100].
Proof.
  pose proof
    (activity_label_and_anomaly
       (pose (mk_pose (Landmark.at_y 0.2) (Landmark.at_y 0.25) (Landmark.at_y 0.25)
                (Landmark.at_y 0.5) (Landmark.at_y 0.5)
                (Landmark.at_y 0.6) (Landmark.at_y 0.6)))
       [480; 640; 3] "unknown" None None 100 ltac:(vm_compute; reflexivity)) as H.
  split; [exact (proj1 H)|exact (proj2 (proj2 (proj2 H)))].
Defined.

(** X12. On a frame the face module draws one text for each detection, in
    their order, and none when nothing is detected.  The text of a
    detection is its first score printed with two decimal places, at the
    corner of its box moved up by 10; a detection without a score raises
    [IndexError]. *)
Theorem face_overlays frame :
  FaceRecognition.process_frame None frame = Return [] /\
  FaceRecognition.process_frame (Some []) frame = Return [] /\
  (forall ds overlays,
     FaceRecognition.process_frame (Some ds) frame = Return overlays ->
     Forall2
       (fun d o =>
          exists confidence x y,
            nth_error (FaceRecognition.score d) 0 = Some confidence /\
            int_of_float (FaceRecognition.xmin d * float_of_int (Frame.width frame))
            = Return x /\
            int_of_float (FaceRecognition.ymin d * float_of_int (Frame.height frame))
            = Return y /\
            o = {| Overlay.text := "Face: " ++ format_f 0 2 (NFloat confidence);
                   Overlay.org := (x, y - 10) |} /\
            (finite confidence ->
             decimal_places (format_f 0 2 (NFloat confidence)) 2))
       ds overlays) /\
  (forall d rest,
     FaceRecognition.score d = [] ->
     FaceRecognition.process_frame (Some (d :: rest)) frame = Raise IndexError).
Proof.
  split; [reflexivity|]. split; [reflexivity|]. split.
  - intros ds overlays H. cbn [FaceRecognition.process_frame] in H.
    apply ReportFacts.mapM_Forall2 in H.
    induction H as [|d o ds os H _ IH]; constructor; auto.
    unfold FaceRecognition.annotate, getitem in H.
    destruct (nth_error (FaceRecognition.score d) 0) as [c|]; [|discriminate].
    cbn [bind Overlay.unpack3 Frame.shape] in H.
    destruct (int_of_float _) as [x|] eqn:Ex; [|discriminate]. cbn [bind] in H.
    destruct (int_of_float _) as [y|] eqn:Ey in H; [|discriminate]. cbn [bind] in H.
    inversion H. exists c, x, y. repeat (split; [reflexivity || assumption|]).
    intros F. apply format_f_decimal_places; [now right|exact F].
  - intros d rest E. cbn [FaceRecognition.process_frame mapM].
    unfold FaceRecognition.annotate, getitem. rewrite E. reflexivity.
Qed.

End PipelineExtras.

(* ================================================================== *)
(** * More on the session report *)
(* ================================================================== *)

Module ReportExtras.

Import PyNum PyStr Report ReportSpec CounterFacts FormatFacts ReportFacts.
Open Scope string_scope.
Open Scope Z_scope.

(** ** The calls of a session *)

Lemma fold_step_fim cs r : fim_analise (fold_left step cs r) = fim_analise r.
Proof.
  revert r. induction cs as [|c rest IH]; intros r; cbn [fold_left]; [reflexivity|].
  rewrite IH. destruct c; reflexivity.
Qed.

Lemma fold_step_inicio cs r :
  inicio_analise (fold_left step cs r) = inicio_analise r
  /\ video_path (fold_left step cs r) = video_path r.
Proof.
  revert r. induction cs as [|c rest IH]; intros r; cbn [fold_left]; [tauto|].
  destruct (IH (step r c)) as [A B]. rewrite A, B. destruct c; split; reflexivity.
Qed.

Lemma fold_step_anomalias cs r :
  anomalias (fold_left step cs r) = (anomalias r ++ anomalias_of cs)%list.
Proof.
  revert r. induction cs as [|c rest IH]; intros r; cbn [fold_left].
  - cbn. now rewrite app_nil_r.
  - rewrite IH. destruct c as [f e a|t d n now]; cbn [step].
    + reflexivity.
    + cbn [registrar_anomalia anomalias].
      change (anomalias_of (RegistrarAnomalia t d n now :: rest))
        with ({| tipo := t; descricao := d; frame := n;
                 timestamp := Datetime.strftime_time now |} :: anomalias_of rest).
      now rewrite <- app_assoc.
Qed.

Lemma fold_step_same_counters cs r r' :
  same_counters r r' ->
  same_counters (fold_left step cs r) (fold_left step (frames_only cs) r').
Proof.
  revert r r'. induction cs as [|c rest IH]; intros r r' S; cbn [fold_left frames_only filter].
  - exact S.
  - destruct c as [f e a|t d n now].
    + cbn [fold_left]. apply IH. destruct S as (A & B & C & D).
      unfold same_counters. cbn [step registrar_frame total_frames frames_com_faces
        emocoes_detectadas atividades_detectadas].
      rewrite A, B, C, D. repeat split.
    + apply IH. exact S.
Qed.

Lemma fold_step_finalizar cs r t :
  fold_left step cs (finalizar r t) = finalizar (fold_left step cs r) t.
Proof.
  revert r. induction cs as [|c rest IH]; intros r; cbn [fold_left]; [reflexivity|].
  rewrite <- IH. f_equal. destruct c; reflexivity.
Qed.

(** X13. A report that was not finalized cannot be rendered: after any
    calls of [registrar_frame] and [registrar_anomalia] on a new report,
    the text report and the structured report raise [TypeError]. *)
Theorem render_before_finalizar path start cs :
  fim_analise (session path start cs) = None /\
  linhas_relatorio_texto (session path start cs) = Raise TypeError /\
  gerar_relatorio_texto (session path start cs) = Raise TypeError /\
  gerar_relatorio_json (session path start cs) = Raise TypeError.
Proof.
  assert (F : fim_analise (session path start cs) = None).
  { unfold session. now rewrite fold_step_fim. }
  assert (D : duracao (session path start cs) = Raise TypeError).
  { unfold duracao. now rewrite F. }
  split; [exact F|].
  unfold gerar_relatorio_texto, linhas_relatorio_texto, gerar_relatorio_json.
  rewrite D. repeat split.
Qed.

(** X14. [finalizar] freezes nothing: the calls made after it are recorded
    as if made before it, the frame counter growing with every frame; a
    second [finalizar] replaces the end of the analysis. *)
Theorem finalizar_does_not_freeze r t cs :
  fold_left step cs (finalizar r t) = finalizar (fold_left step cs r) t /\
  total_frames (fold_left step cs (finalizar r t))
  = total_frames r + Z.of_nat (List.length (emocoes_of cs)) /\
  anomalias (fold_left step cs (finalizar r t))
  = (anomalias r ++ anomalias_of cs)%list /\
  fim_analise (fold_left step cs (finalizar r t)) = Some t /\
  (forall t', finalizar (finalizar r t) t' = finalizar r t').
Proof.
  rewrite fold_step_finalizar. split; [reflexivity|].
  cbn [finalizar total_frames anomalias fim_analise].
  rewrite fold_step_total_frames, fold_step_anomalias. repeat split.
Qed.

(** X15. The anomalies of a session are the entries of its
    [registrar_anomalia] calls, in the order of the calls: later calls only
    append.  These calls change no counter and no label, and the structured
    report counts and lists them in that order. *)
Theorem anomaly_log path start cs cs' fim :
  anomalias (session path start cs) = anomalias_of cs /\
  anomalias (session path start (cs ++ cs'))
  = (anomalias (session path start cs) ++ anomalias_of cs')%list /\
  same_counters (session path start cs) (session path start (frames_only cs)) /\
  exists j,
    gerar_relatorio_json (finalizar (session path start cs) fim) = Return j /\
    Json.field2 "anomalias" "numero_anomalias" j
    = Some (JInt (Z.of_nat (List.length (anomalias_of cs)))) /\
    Json.field2 "anomalias" "detalhes" j
    = Some (JList (map json_anomalia (anomalias_of cs))).
Proof.
  assert (A : forall l, anomalias (session path start l) = anomalias_of l).
  { intros l. unfold session. now rewrite fold_step_anomalias. }
  split; [apply A|]. split.
  { rewrite !A. unfold anomalias_of. now rewrite flat_map_app. }
  split.
  { unfold session. apply fold_step_same_counters. repeat split. }
  destruct (gerar_relatorio_json_finalizar (session path start cs) fim)
    as (dur & pct & pe & pa & _ & _ & _ & _ & ->).
  eexists. split; [reflexivity|]. rewrite A. split; reflexivity.
Qed.

(** X16. After any calls the counters are consistent: the frames with a
    face are among the frames, and no distribution has more records than
    there are frames. *)
Theorem session_counters path start cs :
  let r := session path start cs in
  0 <= frames_com_faces r <= total_frames r /\
  Z.of_nat (List.length (emocoes_detectadas r)) <= total_frames r /\
  Z.of_nat (List.length (atividades_detectadas r)) <= total_frames r.
Proof.
  intros r. subst r. split; [apply session_frames_com_faces|].
  rewrite session_emocoes, session_atividades, !length_kept, session_total_frames.
  split; [apply count_labels_le|].
  rewrite <- length_atividades_of. apply count_labels_le.
Qed.

(** ** The predominant label *)

Lemma In_first_seen k l : In k (Counter.first_seen l) <-> In k l.
Proof.
  induction l as [|k' rest IH]; cbn [Counter.first_seen In]; [tauto|].
  rewrite filter_In, IH. split.
  - intros [H | [H _]]; auto.
  - intros [H | H]; [now left|].
    destruct (String.eqb k' k) eqn:E.
    + left. now apply String.eqb_eq.
    + right. split; [exact H|]. reflexivity.
Qed.

Lemma occurrences_nonneg k l : 0 <= Counter.occurrences k l.
Proof.
  induction l as [|k' rest IH]; cbn [Counter.occurrences]; [lia|].
  destruct (String.eqb k' k); lia.
Qed.

Lemma occurrences_In k l : In k l -> 1 <= Counter.occurrences k l.
Proof.
  induction l as [|k' rest IH]; cbn [Counter.occurrences In]; [tauto|].
  pose proof (occurrences_nonneg k rest).
  intros [-> | H']; [rewrite String.eqb_refl; lia|].
  specialize (IH H'). destruct (String.eqb k' k); lia.
Qed.

Lemma occurrences_not_In k l : ~ In k l -> Counter.occurrences k l = 0.
Proof.
  induction l as [|k' rest IH]; cbn [Counter.occurrences In]; [reflexivity|].
  intros N. destruct (String.eqb k' k) eqn:E.
  - apply String.eqb_eq in E. tauto.
  - rewrite IH; tauto.
Qed.

(** X17. When a label was recorded, the predominant label of both reports
    is a recorded label that no label exceeds in occurrences; every label
    first seen before it occurs less often. *)
Theorem predominante_is_most_frequent (detectadas : list string) :
  detectadas <> [] ->
  exists label before after,
    predominante (Counter.of_list detectadas) = Return (JStr label) /\
    Counter.most_common_1 (Counter.of_list detectadas)
    = [(label, Counter.occurrences label detectadas)] /\
    In label detectadas /\
    (forall k, Counter.occurrences k detectadas
               <= Counter.occurrences label detectadas) /\
    Counter.first_seen detectadas = (before ++ label :: after)%list /\
    (forall k, In k before ->
       Counter.occurrences k detectadas < Counter.occurrences label detectadas).
Proof.
  intros N.
  assert (C : Counter.of_list detectadas <> []).
  { intros E. pose proof (truthy_of_list detectadas) as T. rewrite E in T.
    destruct detectadas; [contradiction|discriminate]. }
  destruct (most_common_1_first_largest _ C) as (top & T & (b & a & E & B & A)).
  rewrite of_list_items in E.
  apply map_eq_app in E. destruct E as (fb & rest & Efs & Eb & Erest).
  symmetry in Erest. destruct rest as [|label fa]; [discriminate|].
  cbn [map] in Erest. inversion Erest as [[Etop Ea]]. clear Erest. subst top a b.
  exists label, fb, fa.
  assert (Hin : In label detectadas).
  { apply In_first_seen. rewrite Efs. apply in_or_app. right. now left. }
  assert (Hb : forall k, In k fb ->
            Counter.occurrences k detectadas < Counter.occurrences label detectadas).
  { intros k Hk. rewrite Forall_forall in B.
    specialize (B (k, Counter.occurrences k detectadas)).
    cbn [snd] in B. apply B.
    apply in_map_iff. exists k. split; [reflexivity|exact Hk]. }
  assert (Ha : forall k, In k fa ->
            Counter.occurrences k detectadas <= Counter.occurrences label detectadas).
  { intros k Hk. rewrite Forall_forall in A.
    specialize (A (k, Counter.occurrences k detectadas)).
    cbn [snd] in A. apply A.
    apply in_map_iff. exists k. split; [reflexivity|exact Hk]. }
  split; [rewrite (predominante_top _ _ T); reflexivity|].
  split; [exact T|].
  split; [exact Hin|]. split; [|split; [exact Efs|exact Hb]].
  intros k. destruct (in_dec string_dec k detectadas) as [I | I].
  - apply In_first_seen in I. rewrite Efs in I.
    apply in_app_or in I. destruct I as [I | [-> | I]].
    + specialize (Hb k I). lia.
    + lia.
    + now apply Ha.
  - rewrite (occurrences_not_In _ _ I). pose proof (occurrences_In _ _ Hin). lia.
Qed.

Lemma predominante_is_most_frequent_witness :
  exists label before after,
    predominante (Counter.of_list ["Triste"; "Feliz"; "Neutro"; "Feliz"; "Triste"])
    = Return (JStr label) /\
    Counter.most_common_1 (Counter.of_list ["Triste"; "Feliz"; "Neutro"; "Feliz"; "Triste"])
    = [(label, Counter.occurrences label ["Triste"; "Feliz"; "Neutro"; "Feliz"; "Triste"])] /\
    In label ["Triste"; "Feliz"; "Neutro"; "Feliz"; "Triste"] /\
    (forall k, Counter.occurrences k ["Triste"; "Feliz"; "Neutro"; "Feliz"; "Triste"]
               <= Counter.occurrences label ["Triste"; "Feliz"; "Neutro"; "Feliz"; "Triste"]) /\
    Counter.first_seen ["Triste"; "Feliz"; "Neutro"; "Feliz"; "Triste"]
    = (before ++ label :: after)%list /\
    (forall k, In k before ->
       Counter.occurrences k ["Triste"; "Feliz"; "Neutro"; "Feliz"; "Triste"]
       < Counter.occurrences label ["Triste"; "Feliz"; "Neutro"; "Feliz"; "Triste"]).
Proof.
  apply (predominante_is_most_frequent ["Triste"; "Feliz"; "Neutro"; "Feliz"; "Triste"]).
  discriminate.
Defined.

(** ** The anomalies in the text report *)

Lemma enumerate_segment {A} (g : Z * A -> list string) (l : list A) k i a :
  nth_error l i = Some a ->
  segment (g (k + Z.of_nat i, a)) (flat_map g (enumerate k l)).
Proof.
  revert k i. induction l as [|x rest IH]; intros k i H.
  - destruct i; discriminate.
  - destruct i as [|i]; cbn [nth_error] in H.
    + inversion H. subst x. cbn [enumerate flat_map].
      replace (k + Z.of_nat 0) with k by lia.
      exists [], (flat_map g (enumerate (k + 1) rest)). reflexivity.
    + destruct (IH (k + 1) i H) as (b & a' & E).
      cbn [enumerate flat_map]. rewrite E.
      replace (k + Z.of_nat (S i)) with (k + 1 + Z.of_nat i) by lia.
      exists (g (k, x) ++ b)%list, a'. now rewrite <- app_assoc.
Qed.

Lemma length_flat_map_enumerate (l : list anomalia) k :
  List.length (flat_map (fun ia => linhas_anomalia (fst ia) (snd ia)) (enumerate k l))
  = (4 * List.length l)%nat.
Proof.
  revert k. induction l as [|x rest IH]; intros k; [reflexivity|].
  cbn [enumerate flat_map]. rewrite length_app, IH. cbn [List.length linhas_anomalia]. lia.
Qed.

Lemma secao_anomalias_segment r lines :
  linhas_relatorio_texto r = Return lines -> segment (secao_anomalias r) lines.
Proof.
  unfold linhas_relatorio_texto.
  generalize (secao_anomalias r) as an. intros an.
  destruct (duracao r) as [dur|e]; cbn [bind]; [|discriminate].
  destruct (percentual_faces r) as [pct|e]; cbn [bind]; [|discriminate].
  destruct (linhas_distribuicao (emocoes_detectadas r) _ _ _) as [le|e];
    cbn [bind]; [|discriminate].
  destruct (linhas_distribuicao (atividades_detectadas r) _ _ _) as [la|e];
    cbn [bind]; [|discriminate].
  set (titulo := [repeat_str "=" 80; "RELATÓRIO DE ANÁLISE DE VÍDEO";
                  repeat_str "=" 80; ""]).
  set (info := secao_informacoes_gerais r dur).
  set (stats := secao_estatisticas_frames r pct).
  set (he := ["😊 EMOÇÕES DETECTADAS"; repeat_str "-" 80]).
  set (ha := ["🏃 ATIVIDADES DETECTADAS"; repeat_str "-" 80]).
  set (fim := [""; repeat_str "=" 80; "FIM DO RELATÓRIO"; repeat_str "=" 80]).
  cbn [List.concat]. rewrite app_nil_r.
  intros H.
  apply (f_equal (fun x => match x with Return v => v | Raise _ => [] end)) in H.
  cbv beta iota in H. subst lines.
  exists (titulo ++ info ++ stats ++ he ++ le ++ [""] ++ ha ++ la ++ [""])%list, fim.
  rewrite <- !app_assoc. reflexivity.
Qed.

(** X18. The text report numbers the anomalies from 1 in the order of the
    log and gives each four lines, its number, time and frame in the first;
    without an anomaly it has the marker of none instead. *)
Theorem text_anomalias r :
  (anomalias r = [] ->
   secao_anomalias r
   = [ "⚠️  ANOMALIAS DETECTADAS"; repeat_str "-" 80;
       "Número de Anomalias:  0"; "Nenhuma anomalia detectada no vídeo" ]) /\
  (anomalias r <> [] ->
   List.length (secao_anomalias r) = (5 + 4 * List.length (anomalias r))%nat /\
   In ("Número de Anomalias:  "
       ++ str_of_int (Z.of_nat (List.length (anomalias r)))) (secao_anomalias r) /\
   ~ In "Nenhuma anomalia detectada no vídeo" (firstn 5 (secao_anomalias r)) /\
   forall i a,
     nth_error (anomalias r) i = Some a ->
     segment
       [ cabecalho_anomalia (Z.of_nat i + 1) a;
         "     Tipo: " ++ tipo a;
         "     Descrição: " ++ descricao a;
         "" ]
       (secao_anomalias r)) /\
  (forall lines,
     linhas_relatorio_texto r = Return lines -> segment (secao_anomalias r) lines).
Proof.
  split; [|split].
  - intros E. unfold secao_anomalias. rewrite E. reflexivity.
  - intros N. unfold secao_anomalias.
    destruct (anomalias r) as [|a0 rest] eqn:E; [contradiction|].
    cbn [List.concat]. rewrite app_nil_r.
    split; [|split; [|split]].
    + cbn [app List.length]. rewrite length_flat_map_enumerate.
      cbn [List.length]. lia.
    + cbn [app In]. right. right. left. reflexivity.
    + cbn [app firstn In]. intros [H | [H | [H | [H | [H | []]]]]];
        discriminate H.
    + intros i a H.
      pose proof (enumerate_segment
                    (fun ia => linhas_anomalia (fst ia) (snd ia))
                    (a0 :: rest) 1 i a H) as (b & a' & S).
      rewrite S. cbn [fst snd linhas_anomalia].
      replace (1 + Z.of_nat i) with (Z.of_nat i + 1) by lia.
      eexists (_ :: _ :: _ :: _ :: _ :: b)%list, a'. reflexivity.
  - apply secao_anomalias_segment.
Qed.

(** ** The distributions of the structured report *)

Lemma soma_contagens_items (c : Counter.t) :
  soma_contagens (map (fun kv => (fst kv, JInt (snd kv))) c)
  = Some (Counter.total c).
Proof.
  induction c as [|[k n] rest IH]; [reflexivity|].
  cbn [map fst snd soma_contagens]. rewrite IH. reflexivity.
Qed.

Lemma counts_of_distribuicao l : counts_of l (distribuicao (Counter.of_list l)).
Proof.
  exists (map (fun kv => (fst kv, JInt (snd kv))) (Counter.of_list l)).
  split; [reflexivity|].
  assert (K : map fst (map (fun kv : string * Z => (fst kv, JInt (snd kv)))
                         (Counter.of_list l))
              = Counter.first_seen l).
  { rewrite map_map. cbn [fst]. apply keys_of_list. }
  split; [rewrite K; apply first_seen_NoDup|].
  split; [intros k; rewrite K; apply In_first_seen|].
  split.
  - intros k v H. apply in_map_iff in H. destruct H as ([k' n] & E & H).
    cbn [fst snd] in E. inversion E. subst k' v. clear E.
    rewrite of_list_items in H. apply in_map_iff in H.
    destruct H as (k' & E & H). inversion E. subst k' n.
    split; [reflexivity|]. apply occurrences_In. now apply In_first_seen.
  - cbn [distribuicao soma_distribuicao].
    rewrite soma_contagens_items, total_of_list. reflexivity.
Qed.

(** X19. In the structured report of any finalized report each
    distribution has one item for each recorded label and no other, with
    the number of its occurrences, which is at least 1; its counts add up
    to the [total_registros] beside it. *)
Theorem json_distributions r fim :
  exists j de da,
    gerar_relatorio_json (finalizar r fim) = Return j /\
    Json.field2 "emocoes" "distribuicao" j = Some de /\
    counts_of (emocoes_detectadas r) de /\
    option_map JInt (soma_distribuicao de)
    = Json.field2 "emocoes" "total_registros" j /\
    Json.field2 "atividades" "distribuicao" j = Some da /\
    counts_of (atividades_detectadas r) da /\
    option_map JInt (soma_distribuicao da)
    = Json.field2 "atividades" "total_registros" j.
Proof.
  destruct (gerar_relatorio_json_finalizar r fim)
    as (dur & pct & pe & pa & _ & _ & _ & _ & ->).
  eexists _, (distribuicao (Counter.of_list (emocoes_detectadas r))),
             (distribuicao (Counter.of_list (atividades_detectadas r))).
  split; [reflexivity|].
  pose proof (counts_of_distribuicao (emocoes_detectadas r)) as Ce.
  pose proof (counts_of_distribuicao (atividades_detectadas r)) as Ca.
  split; [reflexivity|]. split; [exact Ce|].
  split.
  { destruct Ce as (_ & _ & _ & _ & _ & ->). reflexivity. }
  split; [reflexivity|]. split; [exact Ca|].
  destruct Ca as (_ & _ & _ & _ & _ & ->). reflexivity.
Qed.

(** ** The name of the video *)

Lemma slash_sym c : Ascii.eqb "/" c = Ascii.eqb c "/".
Proof. apply Ascii.eqb_sym. Qed.

Lemma basename_split p :
  exists prefix,
    p = prefix ++ basename p /\
    (prefix = "" \/ exists dir, prefix = dir ++ "/") /\
    no_slash (basename p).
Proof.
  unfold no_slash.
  induction p as [|c rest IH]; [exists ""; repeat split; now left|].
  cbn [basename].
  destruct (existsb (Ascii.eqb "/"%char) (list_ascii_of_string rest)) eqn:S.
  - destruct IH as (prefix & E & [P | (dir & P)] & N).
    + subst prefix. cbn [append] in E. rewrite <- E in N. congruence.
    + exists (String c prefix). split; [cbn [append]; now rewrite <- E|].
      split; [|exact N]. right. exists (String c dir). subst prefix. reflexivity.
  - destruct (Ascii.eqb c "/") eqn:C.
    + apply Ascii.eqb_eq in C. subst c. exists "/".
      split; [reflexivity|]. split; [|exact S]. right. now exists "".
    + exists "". split; [reflexivity|]. split; [now left|].
      cbn [list_ascii_of_string existsb]. now rewrite slash_sym, C, S.
Qed.

(** X20. Both reports name the video by the last component of its path:
    what follows the last slash, and the whole path when it has none. *)
Theorem video_name r fim :
  exists j prefix name,
    gerar_relatorio_json (finalizar r fim) = Return j /\
    Json.field2 "informacoes_gerais" "video" j = Some (JStr name) /\
    video_path r = prefix ++ name /\
    no_slash name /\
    (prefix = "" \/ exists dir, prefix = dir ++ "/") /\
    forall lines,
      linhas_relatorio_texto (finalizar r fim) = Return lines ->
      In ("Vídeo Analisado:     " ++ name) lines.
Proof.
  destruct (gerar_relatorio_json_finalizar r fim)
    as (dur & pct & pe & pa & _ & _ & _ & _ & ->).
  destruct (basename_split (video_path r)) as (prefix & E & P & N).
  eexists _, prefix, (basename (video_path r)).
  split; [reflexivity|]. split; [reflexivity|].
  split; [exact E|]. split; [exact N|]. split; [exact P|].
  intros lines H.
  apply linhas_relatorio_texto_inv in H.
  destruct H as (d & _ & _ & _ & _ & _ & _ & _ & S & _).
  apply (segment_In _ _ _ S).
  cbn [secao_informacoes_gerais finalizar video_path In]. auto.
Qed.

(** ** The divisions of the text report *)

(** X21. The text report of a finalized report never divides by zero and
    never reads a missing item: it is produced, unless the [int()] of the
    length of a bar fails, with [ValueError] or [OverflowError]. *)
Theorem text_report_outcome r fim :
  (exists s, gerar_relatorio_texto (finalizar r fim) = Return s)
  \/ gerar_relatorio_texto (finalizar r fim) = Raise ValueError
  \/ gerar_relatorio_texto (finalizar r fim) = Raise OverflowError.
Proof.
  left. unfold gerar_relatorio_texto.
  destruct (linhas_relatorio_texto_returns r fim) as (lines & ->).
  cbn [bind]. eauto.
Qed.

End ReportExtras.

(* ================================================================== *)
(** * What [process_video] records *)
(* ================================================================== *)

Module DriverExtras.

Import PyNum PyStr Report ReportSpec CounterFacts ReportFacts Driver.
Open Scope string_scope.
Open Scope Z_scope.

(** The values that the loop puts in the place of the results of the
    modules trigger no rule of the detector. *)
Lemma placeholder_no_anomaly (tem_face : bool) i :
  Analyzer.detectar_anomalias
    {| Analyzer.num_faces := Some (if tem_face then 1 else 0);
       Analyzer.emocao := Some "Neutro";
       Analyzer.atividade := Some "standing" |} i = [].
Proof. destruct tem_face; reflexivity. Qed.

Lemma registrar_iteracao_frame report i clock :
  registrar_iteracao report i clock
  = registrar_frame report (VBool (i mod 2 =? 0)) (Some "Neutro") (Some "standing").
Proof.
  unfold registrar_iteracao. cbv zeta. rewrite placeholder_no_anomaly. reflexivity.
Qed.

Lemma frames_up_to_S n :
  Analyzer.frames_up_to (S n)
  = (Analyzer.frames_up_to n ++ [Z.of_nat (S n)])%list.
Proof.
  unfold Analyzer.frames_up_to. rewrite seq_S, map_app. reflexivity.
Qed.

Lemma half_S n :
  (if Z.of_nat (S n) mod 2 =? 0 then Z.of_nat n / 2 + 1 else Z.of_nat n / 2)
  = Z.of_nat (S n) / 2.
Proof.
  rewrite Nat2Z.inj_succ.
  destruct (Z.eqb_spec (Z.succ (Z.of_nat n) mod 2) 0) as [E|E];
    Z.div_mod_to_equations; lia.
Qed.

Lemma loop_state video_source start (clock : Z -> nat -> Datetime.t) n :
  fold_left (fun report i => registrar_iteracao report i (clock i))
    (Analyzer.frames_up_to n) (init video_source start)
  = {| video_path := video_source;
       total_frames := Z.of_nat n;
       frames_com_faces := Z.of_nat n / 2;
       emocoes_detectadas := repeat "Neutro" n;
       atividades_detectadas := repeat "standing" n;
       anomalias := [];
       inicio_analise := start;
       fim_analise := None |}.
Proof.
  induction n as [|n IH]; [reflexivity|].
  rewrite frames_up_to_S, fold_left_app, IH. cbn [fold_left].
  rewrite registrar_iteracao_frame. unfold registrar_frame.
  cbn [video_path total_frames frames_com_faces emocoes_detectadas
       atividades_detectadas anomalias inicio_analise fim_analise truthy].
  change (truthy_str (Some "Neutro")) with true.
  change (truthy_str (Some "standing")) with true.
  cbv iota. rewrite half_S, <- !repeat_cons.
  f_equal. lia.
Qed.

Lemma fold_incr_same k n a :
  fold_left (fun c k' => Counter.incr k' c) (repeat k n) [(k, a)]
  = [(k, a + Z.of_nat n)].
Proof.
  revert a. induction n as [|n IH]; intros a.
  - cbn. f_equal. f_equal. lia.
  - cbn [repeat fold_left Counter.incr]. rewrite String.eqb_refl, IH.
    f_equal. f_equal. lia.
Qed.

Lemma of_list_repeat k n :
  Counter.of_list (repeat k (S n)) = [(k, Z.of_nat (S n))].
Proof.
  unfold Counter.of_list. cbn [repeat fold_left Counter.incr].
  rewrite fold_incr_same. f_equal. f_equal. lia.
Qed.

(** X22. The report of [process_video] does not depend on what the video
    shows: after [n] frames it counts [n] frames and a face in every second
    one, holds [n] times the emotion Neutro and the activity standing and no
    anomaly, so that its structured report names these two as predominant
    whenever a frame was read. *)
Theorem process_video_placeholders video_source start clock n fim :
  let r := process_video_report video_source start clock n fim in
  total_frames r = Z.of_nat n /\
  frames_com_faces r = Z.of_nat n / 2 /\
  emocoes_detectadas r = repeat "Neutro" n /\
  atividades_detectadas r = repeat "standing" n /\
  anomalias r = [] /\
  exists j,
    gerar_relatorio_json r = Return j /\
    Json.field2 "emocoes" "distribuicao" j
    = Some (JDict match n with
                  | O => []
                  | S _ => [("Neutro", JInt (Z.of_nat n))]
                  end) /\
    Json.field2 "emocoes" "emocao_predominante" j
    = Some (match n with O => JNull | S _ => JStr "Neutro" end) /\
    Json.field2 "atividades" "distribuicao" j
    = Some (JDict match n with
                  | O => []
                  | S _ => [("standing", JInt (Z.of_nat n))]
                  end) /\
    Json.field2 "atividades" "atividade_predominante" j
    = Some (match n with O => JNull | S _ => JStr "standing" end) /\
    Json.field2 "anomalias" "numero_anomalias" j = Some (JInt 0) /\
    Json.field2 "anomalias" "detalhes" j = Some (JList []).
Proof.
  cbv zeta. unfold process_video_report. rewrite loop_state.
  repeat (split; [reflexivity|]).
  match goal with |- context [finalizar ?r fim] =>
    destruct (gerar_relatorio_json_finalizar r fim)
      as (dur & pct & pe & pa & _ & _ & He & Ha & ->)
  end.
  cbn [emocoes_detectadas atividades_detectadas anomalias] in *.
  eexists. split; [reflexivity|].
  destruct n as [|n].
  - cbn in He, Ha. inversion He. inversion Ha. repeat split; reflexivity.
  - rewrite !of_list_repeat in *.
    cbn in He, Ha. inversion He. inversion Ha.
    repeat split; reflexivity.
Qed.

End DriverExtras.

(* ================================================================== *)
(** * Saving the reports *)
(* ================================================================== *)

Module PersistenceExtras.

Import PyNum PyStr Report ReportSpec FormatFacts ReportFacts ReportExtras Persistence.
Open Scope string_scope.

Lemma last_char_inj s1 s2 a b :
  s1 ++ String a "" = s2 ++ String b "" -> a = b.
Proof.
  revert s2. induction s1 as [|c s1 IH]; intros [|d s2]; cbn [append]; intros H.
  - now inversion H.
  - inversion H as [[E1 E2]]. destruct s2; discriminate E2.
  - inversion H as [[E1 E2]]. destruct s1; discriminate E2.
  - inversion H. eauto.
Qed.

Lemma txt_json_differ p q : p ++ ".txt" <> q ++ ".json".
Proof.
  change ".txt" with (".tx" ++ "t"). change ".json" with (".jso" ++ "n").
  rewrite <- !append_assoc. intros H. apply last_char_inj in H. discriminate H.
Qed.

Lemma path_join_filename output_dir timestamp ext :
  path_join output_dir ("relatorio_analise_" ++ timestamp ++ ext)
  = (if String.eqb output_dir "" || ends_with_slash output_dir
     then output_dir else output_dir ++ "/")
    ++ "relatorio_analise_" ++ timestamp ++ ext.
Proof.
  unfold path_join. cbn [append String.prefix].
  destruct (String.eqb output_dir "" || ends_with_slash output_dir);
    [reflexivity|]. rewrite append_assoc. reflexivity.
Qed.

Lemma paths_differ output_dir ts_txt ts_json :
  path_join output_dir ("relatorio_analise_" ++ ts_txt ++ ".txt")
  <> path_join output_dir ("relatorio_analise_" ++ ts_json ++ ".json").
Proof.
  rewrite !path_join_filename.
  rewrite <- !(append_assoc _ "relatorio_analise_").
  rewrite <- !(append_assoc _ _ ".txt"), <- !(append_assoc _ _ ".json").
  apply txt_json_differ.
Qed.

Lemma write_file_same path c fs : files (write_file path c fs) path = Some c.
Proof. cbn [write_file files]. now rewrite String.eqb_refl. Qed.

Lemma write_file_other path c fs q :
  q <> path -> files (write_file path c fs) q = files fs q.
Proof.
  intros N. cbn [write_file files].
  destruct (String.eqb_spec q path); [contradiction|reflexivity].
Qed.

Lemma makedirs_named d fs :
  d <> "" ->
  makedirs d fs = ({| dirs := d :: dirs fs; files := files fs |}, None).
Proof.
  intros N. unfold makedirs. destruct (String.eqb_spec d ""); [contradiction|reflexivity].
Qed.






(** X26. The two saves at the end of [process_video], of a finalized
    report whose text is produced: both succeed, with two different paths
    in [data/output] even when the clock reads the same for both, and
    afterwards the first file holds the text report, the second the
    structured report, every other file what it held. *)
Theorem salvar_relatorios_two_files self fim ts_txt ts_json fs s :
  gerar_relatorio_texto (finalizar self fim) = Return s ->
  let txt := "data/output/relatorio_analise_" ++ ts_txt ++ ".txt" in
  let json := "data/output/relatorio_analise_" ++ ts_json ++ ".json" in
  let fs' := fst (salvar_relatorios (finalizar self fim) ts_txt ts_json fs) in
  exists j,
    gerar_relatorio_json (finalizar self fim) = Return j /\
    snd (salvar_relatorios (finalizar self fim) ts_txt ts_json fs)
    = Done (txt, json) /\
    txt <> json /\
    files fs' txt = Some (Text s) /\
    files fs' json = Some (JsonDumps j) /\
    (forall q, q <> txt -> q <> json -> files fs' q = files fs q).
Proof.
  intros T. cbv zeta.
  destruct (gerar_relatorio_json_finalizar self fim)
    as (dur & pct & pe & pa & _ & _ & _ & _ & J).
  eexists. split; [exact J|].
  unfold salvar_relatorios, salvar_relatorio.
  rewrite !(makedirs_named "data/output") by discriminate.
  change (String.eqb "txt" "txt") with true.
  change (String.eqb "json" "txt") with false.
  change (String.eqb "json" "json") with true. cbv iota.
  rewrite T. cbv iota beta.
  rewrite !(makedirs_named "data/output") by discriminate.
  cbv iota beta. rewrite J. cbv iota beta.
  change (path_join "data/output" ("relatorio_analise_" ++ ts_txt ++ ".txt"))
    with ("data/output/relatorio_analise_" ++ ts_txt ++ ".txt").
  change (path_join "data/output" ("relatorio_analise_" ++ ts_json ++ ".json"))
    with ("data/output/relatorio_analise_" ++ ts_json ++ ".json").
  cbn [fst snd].
  assert (D : "data/output/relatorio_analise_" ++ ts_txt ++ ".txt"
              <> "data/output/relatorio_analise_" ++ ts_json ++ ".json").
  { rewrite <- !append_assoc. apply txt_json_differ. }
  split; [reflexivity|]. split; [exact D|].
  split; [rewrite !write_file_other by exact D; apply write_file_same|].
  split; [apply write_file_same|].
  intros q N1 N2.
  repeat first [rewrite write_file_other by assumption | progress cbn [files]].
  reflexivity.
Qed.

Lemma salvar_relatorios_two_files_witness :
  exists j,
    gerar_relatorio_json (finalizar Examples.feliz_feliz_triste Examples.fim)
    = Return j /\
    snd (salvar_relatorios (finalizar Examples.feliz_feliz_triste Examples.fim)
           "20240101_120000" "20240101_120000" (mk_fs [] (fun _ => None)))
    = Done ("data/output/relatorio_analise_20240101_120000.txt",
            "data/output/relatorio_analise_20240101_120000.json") /\
    "data/output/relatorio_analise_20240101_120000.txt"
    <> "data/output/relatorio_analise_20240101_120000.json" /\
    files (fst (salvar_relatorios
                  (finalizar Examples.feliz_feliz_triste Examples.fim)
                  "20240101_120000" "20240101_120000" (mk_fs [] (fun _ => None))))
      "data/output/relatorio_analise_20240101_120000.txt"
    = Some (Text (join (String "010"%char "") Examples.linhas)) /\
    files (fst (salvar_relatorios
                  (finalizar Examples.feliz_feliz_triste Examples.fim)
                  "20240101_120000" "20240101_120000" (mk_fs [] (fun _ => None))))
      "data/output/relatorio_analise_20240101_120000.json"
    = Some (JsonDumps j) /\
    (forall q,
       q <> "data/output/relatorio_analise_20240101_120000.txt" ->
       q <> "data/output/relatorio_analise_20240101_120000.json" ->
       files (fst (salvar_relatorios
                     (finalizar Examples.feliz_feliz_triste Examples.fim)
                     "20240101_120000" "20240101_120000"
                     (mk_fs [] (fun _ => None)))) q
       = files (mk_fs [] (fun _ => None)) q).
Proof.
  apply (salvar_relatorios_two_files Examples.feliz_feliz_triste Examples.fim
           "20240101_120000" "20240101_120000" (mk_fs [] (fun _ => None))
           (join (String "010"%char "") Examples.linhas)).
  vm_compute. reflexivity.
Defined.

End PersistenceExtras.

(* ================================================================== *)
(** * The texts drawn for the emotions *)
(* ================================================================== *)

Module EmotionFrameExtras.

Import EmotionDetection.
Open Scope string_scope.
Open Scope Z_scope.

Lemma annotate_inv frame face o :
  EmotionFrame.annotate frame face = Return o ->
  exists label,
    analyze_emotion face (Frame.shape frame) = Return label /\
    In label ["Neutro"; "Feliz"; "Surpreso"; "Triste"] /\
    o = {| Overlay.text := "Emocao: " ++ label;
           Overlay.org := (10, Frame.height frame - 50) |}.
Proof.
  unfold EmotionFrame.annotate.
  destruct (analyze_emotion face (Frame.shape frame)) as [label|e] eqn:E;
    cbn [bind Overlay.unpack3 Frame.shape]; [|discriminate].
  intros H. inversion H. exists label. split; [reflexivity|].
  split; [|reflexivity].
  exact (PipelineExtras.analyze_emotion_returns _ _ _ E).
Qed.

Lemma analyze_emotion_complete face frame :
  (292 <= List.length face)%nat ->
  exists label, analyze_emotion face (Frame.shape frame) = Return label.
Proof.
  intros L. unfold analyze_emotion, getitem, slice_to.
  cbn [Frame.shape firstn unpack2 bind].
  destruct (nth_error face 61) eqn:E1;
    [|apply nth_error_None in E1; lia].
  destruct (nth_error face 291) eqn:E2;
    [|apply nth_error_None in E2; lia].
  destruct (nth_error face 13) eqn:E3;
    [|apply nth_error_None in E3; lia].
  cbn [bind]. cbv zeta.
  repeat match goal with |- context [if ?c then _ else _] => destruct c end;
    eauto.
Qed.

Lemma analyze_emotion_incomplete face frame :
  (List.length face < 292)%nat ->
  analyze_emotion face (Frame.shape frame) = Raise IndexError.
Proof.
  intros L. unfold analyze_emotion, getitem, slice_to.
  cbn [Frame.shape firstn unpack2 bind].
  destruct (nth_error face 61); cbn [bind]; [|reflexivity].
  assert (E : nth_error face 291 = None) by (apply nth_error_None; lia).
  rewrite E. reflexivity.
Qed.

(** X27. On a frame the emotion module draws one text for each face mesh,
    in their order and all at the same point, and none without a face.
    The texts are drawn when every mesh has the 292 landmarks that the
    classifier reads; a first mesh with fewer raises [IndexError]. *)
Theorem emotion_overlays frame :
  EmotionFrame.process_frame None frame = Return [] /\
  EmotionFrame.process_frame (Some []) frame = Return [] /\
  (forall faces overlays,
     EmotionFrame.process_frame (Some faces) frame = Return overlays ->
     Forall2
       (fun face o =>
          exists label,
            analyze_emotion face (Frame.shape frame) = Return label /\
            In label ["Neutro"; "Feliz"; "Surpreso"; "Triste"] /\
            o = {| Overlay.text := "Emocao: " ++ label;
                   Overlay.org := (10, Frame.height frame - 50) |})
       faces overlays) /\
  (forall faces,
     Forall (fun face => (292 <= List.length face)%nat) faces ->
     exists overlays,
       EmotionFrame.process_frame (Some faces) frame = Return overlays /\
       List.length overlays = List.length faces) /\
  (forall face rest,
     (List.length face < 292)%nat ->
     EmotionFrame.process_frame (Some (face :: rest)) frame = Raise IndexError).
Proof.
  split; [reflexivity|]. split; [reflexivity|].
  assert (M : forall faces overlays,
             mapM (EmotionFrame.annotate frame) faces = Return overlays ->
             Forall2
               (fun face o =>
                  exists label,
                    analyze_emotion face (Frame.shape frame) = Return label /\
                    In label ["Neutro"; "Feliz"; "Surpreso"; "Triste"] /\
                    o = {| Overlay.text := "Emocao: " ++ label;
                           Overlay.org := (10, Frame.height frame - 50) |})
               faces overlays).
  { intros faces overlays H. apply ReportFacts.mapM_Forall2 in H.
    induction H as [|face o faces os H _ IH]; constructor; auto.
    now apply annotate_inv. }
  split; [|split].
  - intros faces overlays H. destruct faces as [|face rest].
    + inversion H. constructor.
    + now apply M.
  - intros faces F.
    assert (R : exists overlays,
               mapM (EmotionFrame.annotate frame) faces = Return overlays).
    { apply ReportFacts.mapM_returns. intros face Hin.
      rewrite Forall_forall in F.
      destruct (analyze_emotion_complete face frame (F face Hin)) as (label & E).
      unfold EmotionFrame.annotate. rewrite E. cbn. eauto. }
    destruct R as (overlays & R). exists overlays.
    split.
    + destruct faces as [|face rest]; [inversion R; reflexivity|exact R].
    + symmetry. exact (Forall2_length (M _ _ R)).
  - intros face rest L. cbn [EmotionFrame.process_frame mapM].
    unfold EmotionFrame.annotate.
    rewrite (analyze_emotion_incomplete face frame L). reflexivity.
Qed.

End EmotionFrameExtras.

(* ================================================================== *)
(** * The divisions of [process_video_codespace] *)
(* ================================================================== *)

Module CodespaceExtras.

Import PyNum Codespace.
Open Scope Z_scope.

Lemma int_of_float_not_zero_division x :
  int_of_float x <> Raise ZeroDivisionError.
Proof. unfold int_of_float. destruct (Prim2SF x); discriminate. Qed.

Lemma progress_width_safe frame_count total_frames width :
  total_frames <> 0 ->
  progress_width frame_count total_frames width <> Raise ZeroDivisionError.
Proof.
  intros N. unfold progress_width, truediv.
  destruct (Z.eqb_spec total_frames 0); [contradiction|]. cbn [bind].
  apply int_of_float_not_zero_division.
Qed.

Lemma progress_line_safe frame_count total_frames fps :
  total_frames <> 0 -> fps <> 0 ->
  progress_line frame_count total_frames fps <> Raise ZeroDivisionError.
Proof.
  intros N F. unfold progress_line, truediv.
  destruct ((frame_count mod 30 =? 0) || (frame_count =? total_frames));
    [|discriminate].
  destruct (Z.eqb_spec total_frames 0); [contradiction|].
  destruct (Z.eqb_spec fps 0); [contradiction|]. cbn [bind].
  destruct (int_of_float _) as [a|e] eqn:A; cbn [bind].
  2:{ intros H. inversion H. subst e.
      exact (int_of_float_not_zero_division _ A). }
  destruct (int_of_float _) as [b|e] eqn:B in |- *; cbn [bind]; [discriminate|].
  intros H. inversion H. subst e. exact (int_of_float_not_zero_division _ B).
Qed.

Lemma frames_loop_safe modules fps width total_frames n frame_count written :
  total_frames <> 0 -> fps <> 0 ->
  (forall i, modules i <> Some ZeroDivisionError) ->
  snd (frames_loop modules fps width total_frames n frame_count written)
  <> Some ZeroDivisionError.
Proof.
  intros T F M. revert frame_count written.
  induction n as [|n IH]; intros frame_count written; cbn [frames_loop].
  - discriminate.
  - cbv zeta.
    destruct (modules (frame_count + 1)) as [e|] eqn:Em;
      [cbn [snd]; rewrite <- Em; apply M|].
    destruct (progress_width (frame_count + 1) total_frames width) as [w|e] eqn:Ew.
    2:{ cbn [snd]. intros H. inversion H. subst e.
        now apply progress_width_safe in Ew. }
    destruct (progress_line (frame_count + 1) total_frames fps) as [l|e] eqn:El.
    2:{ cbn [snd]. intros H. inversion H. subst e.
        now apply progress_line_safe in El. }
    apply IH.
Qed.

(** X28. In [process_video_codespace]: when the writer does not open,
    nothing is read or written.  When it is open and the capture reports a
    frame rate but no frame count, the loop writes no frame: the first
    frame read ends it with an exception, the division by zero of the
    progress bar unless the modules raise before.  With a frame rate and a
    frame count that are not zero the loop never divides by zero. *)
Theorem process_video_codespace_divisions modules width frames_read :
  (forall fps total_frames,
     process_video_codespace modules fps width total_frames false frames_read
     = (0, None)) /\
  (forall fps,
     0 < fps ->
     fst (process_video_codespace modules fps width 0 true frames_read) = 0 /\
     ((1 <= frames_read)%nat ->
      snd (process_video_codespace modules fps width 0 true frames_read)
      = Some (match modules 1 with
              | Some e => e
              | None => ZeroDivisionError
              end))) /\
  (forall fps total_frames writer_opened,
     fps <> 0 -> total_frames <> 0 ->
     (forall i, modules i <> Some ZeroDivisionError) ->
     snd (process_video_codespace modules fps width total_frames writer_opened
            frames_read)
     <> Some ZeroDivisionError).
Proof.
  unfold process_video_codespace. split; [|split].
  - reflexivity.
  - intros fps _. destruct frames_read as [|n]; [split; [reflexivity|lia]|].
    cbn [frames_loop]. cbv zeta. change (0 + 1) with 1.
    destruct (modules 1) as [e|]; split; try reflexivity; intros _; reflexivity.
  - intros fps total_frames [|] F T M; [now apply frames_loop_safe|discriminate].
Qed.

End CodespaceExtras.
